(** * Unified API service of the anonymous-intent SDK: a shallow embedding

    The development follows [unified-api/UnifiedAPIService.py] and the
    entry points of the three ML services it drives
    ([FeatureEngineeringService.extract_features],
    [ClusteringService.predict_cluster],
    [IntentScoringService.predict_intent_scores] and the two read-side
    methods).  Python values are a small universe [pyval]; the methods are
    functions in a state-and-exception monad whose state is the outside
    world (AWS, the clock, the random source) together with the log of the
    collaborator calls made so far. *)

From Stdlib Require Import String Ascii List ZArith QArith Bool Lia DecimalString.
Import ListNotations.
Set Warnings "-register-all".
Close Scope Q_scope.
Close Scope Z_scope.
Local Open Scope string_scope.
Local Open Scope list_scope.

(* ================================================================== *)
(** * Python values *)
(* ================================================================== *)

(** [class APIKeyStatus(Enum)] *)
Inductive APIKeyStatus : Type := ACTIVE | INACTIVE | SUSPENDED | TRIAL.

Definition status_value (s : APIKeyStatus) : string :=
  match s with
  | ACTIVE => "active"
  | INACTIVE => "inactive"
  | SUSPENDED => "suspended"
  | TRIAL => "trial"
  end.

Definition status_eqb (a b : APIKeyStatus) : bool :=
  match a, b with
  | ACTIVE, ACTIVE | INACTIVE, INACTIVE | SUSPENDED, SUSPENDED | TRIAL, TRIAL => true
  | _, _ => false
  end.

(** The values that flow through the service: what [json.loads] can
    produce (floats are carried as exact rationals, no rounding is
    modelled), plus members of the [APIKeyStatus] enum.  A dict keeps its
    insertion order, as in Python. *)
Inductive pyval : Type :=
| VNone
| VBool (b : bool)
| VInt (z : Z)
| VFloat (q : Q)
| VStr (s : string)
| VList (l : list pyval)
| VDict (d : list (string * pyval))
| VStatus (s : APIKeyStatus).

Definition dict : Type := list (string * pyval).

(** Exceptions: the class name and [str(e)]. *)
Record exn : Type := mkExn { exn_type : string; exn_msg : string }.

Definition AttributeError : exn := mkExn "AttributeError" "object has no attribute".
Definition TypeError : exn := mkExn "TypeError" "unsupported operand".
Definition KeyError (k : string) : exn := mkExn "KeyError" k.
Definition ValueError : exn := mkExn "ValueError" "invalid value".
Definition JSONDecodeError : exn := mkExn "JSONDecodeError" "Expecting value".

(** ** Dicts *)

Fixpoint dict_lookup (k : string) (d : dict) : option pyval :=
  match d with
  | [] => None
  | (k', v) :: r => if String.eqb k k' then Some v else dict_lookup k r
  end.

(** [d[k] = v]: overwrite in place, or append a new key. *)
Fixpoint dict_set (k : string) (v : pyval) (d : dict) : dict :=
  match d with
  | [] => [(k, v)]
  | (k', v') :: r =>
      if String.eqb k k' then (k, v) :: r else (k', v') :: dict_set k v r
  end.

(** [{**d, k1: v1, ...}] *)
Definition dict_update (d : dict) (kvs : list (string * pyval)) : dict :=
  fold_left (fun acc kv => dict_set (fst kv) (snd kv) acc) kvs d.

(** A dict display [{k1: v1, ...}]. *)
Definition dict_of (kvs : list (string * pyval)) : dict := dict_update [] kvs.

(** [d.get(k, default)] on a dict *)
Definition dict_get (d : dict) (k : string) (default : pyval) : pyval :=
  match dict_lookup k d with
  | Some v => v
  | None => default
  end.

(** [v.get(k, default)] on any value: only dicts have the method. *)
Definition py_get (v : pyval) (k : string) (default : pyval) : exn + pyval :=
  match v with
  | VDict d => inr (dict_get d k default)
  | _ => inl AttributeError
  end.

(** [v[k]] with a string key *)
Definition py_getitem (v : pyval) (k : string) : exn + pyval :=
  match v with
  | VDict d =>
      match dict_lookup k d with
      | Some x => inr x
      | None => inl (KeyError k)
      end
  | _ => inl TypeError
  end.

(** ** Truth, equality, order *)

Definition Qint (z : Z) : Q := Qmake z 1.

Definition Qzero_b (q : Q) : bool := Qeq_bool q (Qint 0).

Definition py_truthy (v : pyval) : bool :=
  match v with
  | VNone => false
  | VBool b => b
  | VInt z => negb (Z.eqb z 0)
  | VFloat q => negb (Qzero_b q)
  | VStr s => negb (String.eqb s "")
  | VList l => match l with [] => false | _ => true end
  | VDict d => match d with [] => false | _ => true end
  | VStatus _ => true
  end.

(** [bool], [int] and [float] compare with one another as numbers. *)
Definition num_of (v : pyval) : option Q :=
  match v with
  | VBool b => Some (Qint (if b then 1 else 0))
  | VInt z => Some (Qint z)
  | VFloat q => Some q
  | _ => None
  end.

Definition Qlt_bool (x y : Q) : bool := negb (Qle_bool y x).

(** [a == b] *)
Fixpoint py_eq (a b : pyval) {struct a} : bool :=
  match a, b with
  | VNone, VNone => true
  | VStr s, VStr t => String.eqb s t
  | VStatus s, VStatus t => status_eqb s t
  | VList la, VList lb =>
      (fix go (la lb : list pyval) {struct la} : bool :=
         match la, lb with
         | [], [] => true
         | x :: xs, y :: ys => py_eq x y && go xs ys
         | _, _ => false
         end) la lb
  | VDict da, VDict db =>
      Nat.eqb (length da) (length db) &&
      (fix go (da : list (string * pyval)) {struct da} : bool :=
         match da with
         | [] => true
         | (k, v) :: r =>
             match dict_lookup k db with
             | Some w => py_eq v w
             | None => false
             end && go r
         end) da
  | _, _ =>
      match num_of a, num_of b with
      | Some x, Some y => Qeq_bool x y
      | _, _ => false
      end
  end.

(** [a < b]: numbers, strings (by code unit) and lists (lexicographic)
    are ordered; every other pair raises [TypeError]. *)
Fixpoint py_lt (a b : pyval) {struct a} : exn + bool :=
  match a, b with
  | VStr s, VStr t => inr (String.ltb s t)
  | VList la, VList lb =>
      (fix go (la lb : list pyval) {struct la} : exn + bool :=
         match la, lb with
         | [], [] => inr false
         | [], _ :: _ => inr true
         | _ :: _, [] => inr false
         | x :: xs, y :: ys => if py_eq x y then go xs ys else py_lt x y
         end) la lb
  | _, _ =>
      match num_of a, num_of b with
      | Some x, Some y => inr (Qlt_bool x y)
      | _, _ => inl TypeError
      end
  end.

(** [a > b] is evaluated as [b < a] for these types. *)
Definition py_gt (a b : pyval) : exn + bool := py_lt b a.

(** [json.dumps] succeeds on JSON data and raises [TypeError] on an enum
    member. *)
Fixpoint json_serializable (v : pyval) : bool :=
  match v with
  | VStatus _ => false
  | VList l =>
      (fix go (l : list pyval) : bool :=
         match l with
         | [] => true
         | x :: r => json_serializable x && go r
         end) l
  | VDict d =>
      (fix go (d : list (string * pyval)) : bool :=
         match d with
         | [] => true
         | (_, x) :: r => json_serializable x && go r
         end) d
  | _ => true
  end.

(** ** Strings *)

Definition string_of_Z (z : Z) : string := NilZero.string_of_int (Z.to_int z).

(** [s[:n]] *)
Definition str_take (n : nat) (s : string) : string := substring 0 n s.

(** [s[-n:]] *)
Definition str_last (n : nat) (s : string) : string :=
  substring (String.length s - n) n s.

(** [s.replace(pat, '')] for a non-empty [pat]: [skip] counts the
    characters of the current match still to be dropped. *)
Fixpoint str_remove_from (pat : string) (skip : nat) (s : string) : string :=
  match s with
  | EmptyString => EmptyString
  | String c r =>
      match skip with
      | S k => str_remove_from pat k r
      | O =>
          if prefix pat s
          then str_remove_from pat (String.length pat - 1) r
          else String c (str_remove_from pat 0 r)
      end
  end.

Definition str_remove (pat s : string) : string := str_remove_from pat 0 s.


(** [str(v)] as used by f-strings: exact on strings, ints, booleans and
    [None]; the text of the other values is left to [other]. *)
Definition py_str (other : pyval -> string) (v : pyval) : string :=
  match v with
  | VStr s => s
  | VInt z => string_of_Z z
  | VBool true => "True"
  | VBool false => "False"
  | VNone => "None"
  | _ => other v
  end.

(** ['prefix' + v] *)
Definition py_concat (s : string) (v : pyval) : exn + string :=
  match v with
  | VStr t => inr (s ++ t)%string
  | _ => inl TypeError
  end.

(** [len(v)] *)
Definition py_len (v : pyval) : exn + nat :=
  match v with
  | VStr s => inr (String.length s)
  | VList l => inr (List.length l)
  | VDict d => inr (List.length d)
  | _ => inl TypeError
  end.

(** [max(d.items(), key=lambda x: x[1])], scanning left to right and
    replacing the running maximum only on a strict [>]. *)
Fixpoint py_max_by_value (best : string * pyval) (rest : list (string * pyval))
  : exn + (string * pyval) :=
  match rest with
  | [] => inr best
  | kv :: r =>
      match py_gt (snd kv) (snd best) with
      | inl e => inl e
      | inr true => py_max_by_value kv r
      | inr false => py_max_by_value best r
      end
  end.

(** [v[0]] *)
Definition py_index0 (v : pyval) : exn + pyval :=
  match v with
  | VList (x :: _) => inr x
  | VList [] => inl (mkExn "IndexError" "list index out of range")
  | VStr (String c _) => inr (VStr (String c EmptyString))
  | VStr EmptyString => inl (mkExn "IndexError" "string index out of range")
  | VDict _ => inl (KeyError "0")
  | _ => inl TypeError
  end.

(** [isinstance(v, (int, float))] *)
Definition is_number (v : pyval) : bool :=
  match v with
  | VInt _ | VBool _ | VFloat _ => true
  | _ => false
  end.

Definition Z_of_bool (b : bool) : Z := if b then 1 else 0.

(** [a + b] on numbers: integral unless one side is a float. *)
Definition py_add (a b : pyval) : exn + pyval :=
  match a, b with
  | VFloat x, _ =>
      match num_of b with Some y => inr (VFloat (Qplus x y)) | None => inl TypeError end
  | _, VFloat y =>
      match num_of a with Some x => inr (VFloat (Qplus x y)) | None => inl TypeError end
  | VInt x, VInt y => inr (VInt (x + y))
  | VInt x, VBool y => inr (VInt (x + Z_of_bool y))
  | VBool x, VInt y => inr (VInt (Z_of_bool x + y))
  | VBool x, VBool y => inr (VInt (Z_of_bool x + Z_of_bool y))
  | _, _ => inl TypeError
  end.

(** [total / n] for a positive count [n] *)
Definition py_truediv (total : pyval) (n : nat) : exn + pyval :=
  match num_of total with
  | Some q => inr (VFloat (Qdiv q (Qint (Z.of_nat n))))
  | None => inl TypeError
  end.

(** [sum(s.get('gsi1sk', 0) for s in sessions
         if isinstance(s.get('gsi1sk'), (int, float)))] *)
Fixpoint sum_durations (sessions : list pyval) (acc : pyval) : exn + pyval :=
  match sessions with
  | [] => inr acc
  | s :: r =>
      match py_get s "gsi1sk" VNone with
      | inl e => inl e
      | inr d =>
          if is_number d then
            match py_add acc d with
            | inl e => inl e
            | inr acc' => sum_durations r acc'
            end
          else sum_durations r acc
      end
  end.

(* ================================================================== *)
(** * Effects *)
(* ================================================================== *)

(** A computation over a state [S] that returns or raises; the state
    reached is kept in both cases, since the side effects of a Python
    call are not undone by an exception. *)
Definition M (S A : Type) : Type := S -> (exn + A) * S.

Definition ret {S A : Type} (a : A) : M S A := fun s => (inr a, s).

Definition raise {S A : Type} (e : exn) : M S A := fun s => (inl e, s).

Definition lift_sum {S A : Type} (r : exn + A) : M S A := fun s => (r, s).

Definition bind {S A B : Type} (m : M S A) (k : A -> M S B) : M S B :=
  fun s =>
    match m s with
    | (inr a, s') => k a s'
    | (inl e, s') => (inl e, s')
    end.

(** [try: m  except Exception as e: h e] *)
Definition try_except {S A : Type} (m : M S A) (h : exn -> M S A) : M S A :=
  fun s =>
    match m s with
    | (inr a, s') => (inr a, s')
    | (inl e, s') => h e s'
    end.

Declare Scope py_scope.
Delimit Scope py_scope with py.
Notation "x <- m ;; k" := (bind m (fun x => k))
  (at level 61, m at next level, right associativity) : py_scope.
Notation "m ;; k" := (bind m (fun _ => k))
  (at level 61, right associativity) : py_scope.
Local Open Scope py_scope.

(** [d[k] = v] on a dict held as the state *)
Definition set_key (k : string) (v : pyval) : M dict unit :=
  fun d => (inr tt, dict_set k v d).

(** ** Collaborator calls *)

(** One entry per call that leaves the process. *)
Inductive Call : Type :=
| LambdaInvoke (function_name : string) (payload : dict)
| GetItem (table key : string)
| PutItem (table : string) (item : dict)
| Query (table pk : string) (sk_prefix : option string)
| PutRecord (stream : string) (data : dict) (partition_key : string)
| ExtractFeatures (api_key : string) (anon_id : pyval) (time_window : string)
| PredictCluster (api_key : string) (anon_id : pyval) (features : pyval)
| PredictIntentScores (api_key : string) (anon_id : pyval) (features : pyval)
| GetClusterInsights (api_key : string)
| GetFeatureImportance (api_key : string)
| ProvisionClusteringModels (api_key : string)
| ProvisionIntentModels (api_key : string)
| ProvisionInfrastructure (api_key plan_type : string).

(** The state of a request: the world [W] and the calls made so far,
    oldest first. *)
Record St (W : Type) : Type := mkSt { world : W; calls : list Call }.
Arguments mkSt {W} _ _.
Arguments world {W} _.
Arguments calls {W} _.

(** A logged call to a collaborator. *)
Definition invoke {W A : Type} (c : Call) (op : M W A) : M (St W) A :=
  fun st =>
    let (r, w) := op (world st) in
    (r, mkSt w (calls st ++ [c])).

(** A [concurrent.futures] submission whose outcome is kept in the
    future instead of being raised. *)
Definition submit {W A : Type} (c : Call) (op : M W A) : M (St W) (exn + A) :=
  fun st =>
    let (r, w) := op (world st) in
    (inr r, mkSt w (calls st ++ [c])).

(** [future.result()] *)
Definition result {S A : Type} (fut : exn + A) : M S A := lift_sum fut.

(** A local effect that cannot fail and is not logged (clock, uuid). *)
Definition quiet {W A : Type} (op : W -> A * W) : M (St W) A :=
  fun st =>
    let (a, w) := op (world st) in
    (inr a, mkSt w (calls st)).

(** A task that only logs and sleeps. *)
Definition note {W : Type} (c : Call) : M (St W) unit :=
  fun st => (inr tt, mkSt (world st) (calls st ++ [c])).

(** ** The outside world *)

(** Everything the service reaches through [boto3] and the Python
    runtime.  Times are microseconds since the epoch. *)
Record Env (W : Type) : Type := mkEnv {
  utcnow : W -> Z * W;
  uuid4 : W -> string * W;
  md5_hexdigest : string -> string;
  isoformat : Z -> string;
  json_loads : string -> option pyval;
  str_other : pyval -> string;
  (** [lambda_client.invoke(FunctionName, Payload)['Payload'].read()];
      the payload is given before [json.dumps] *)
  lambda_invoke : string -> dict -> M W string;
  (** [Table(name).get_item(Key={'pk': key})] *)
  get_item : string -> string -> M W dict;
  (** [Table(name).put_item(Item=item)] *)
  put_item : string -> dict -> M W unit;
  (** [Table(name).query] on a partition key, with an optional
      [begins_with] prefix on the sort key *)
  query : string -> string -> option string -> M W dict;
  (** [kinesis_client.put_record(StreamName, Data, PartitionKey)] *)
  put_record : string -> dict -> string -> M W dict
}.
Arguments utcnow {W} _. Arguments uuid4 {W} _. Arguments md5_hexdigest {W} _.
Arguments isoformat {W} _. Arguments json_loads {W} _. Arguments str_other {W} _.
Arguments lambda_invoke {W} _. Arguments get_item {W} _. Arguments put_item {W} _.
Arguments query {W} _. Arguments put_record {W} _.

(** The service objects held by [UnifiedAPIService]: the methods the
    orchestrator calls on each. *)
Record FeatureService (W : Type) : Type := mkFeatureService {
  extract_features : string -> pyval -> string -> M W pyval
}.
Record ClusteringServiceT (W : Type) : Type := mkClusteringService {
  predict_cluster : string -> pyval -> pyval -> M W pyval;
  get_cluster_insights : string -> M W pyval
}.
Record IntentService (W : Type) : Type := mkIntentService {
  predict_intent_scores : string -> pyval -> pyval -> M W pyval;
  get_feature_importance : string -> M W pyval
}.
Arguments extract_features {W} _. Arguments predict_cluster {W} _.
Arguments get_cluster_insights {W} _. Arguments predict_intent_scores {W} _.
Arguments get_feature_importance {W} _.

(* ================================================================== *)
(** * The ML services, seen from their public methods *)
(* ================================================================== *)

(** The numerical bodies (pandas, scikit-learn, LightGBM and the
    services' own DynamoDB and S3 traffic) are not embedded: for each
    public method, the statements inside its [try] block are one
    operation on the world that returns what the block returns or raises
    what it raises.  The [except] clauses are those of the source. *)
Record MLInternals (W : Type) : Type := mkMLInternals {
  extract_features_try : string -> pyval -> string -> M W pyval;
  predict_cluster_try : string -> pyval -> pyval -> M W pyval;
  get_cluster_insights_try : string -> M W pyval;
  predict_intent_scores_try : string -> pyval -> pyval -> M W pyval;
  get_feature_importance_try : string -> M W pyval
}.
Arguments extract_features_try {W} _. Arguments predict_cluster_try {W} _.
Arguments get_cluster_insights_try {W} _. Arguments predict_intent_scores_try {W} _.
Arguments get_feature_importance_try {W} _.

Definition half : Q := Qmake 1 2.

Module FeatureEngineeringService.
Section Methods.
Context {W : Type} (I : MLInternals W).

Definition extract_features (api_key : string) (anon_id : pyval)
    (time_window : string) : M W pyval :=
  try_except (extract_features_try I api_key anon_id time_window)
    (fun _ => ret (VDict [])).

Definition service : FeatureService W := mkFeatureService W extract_features.
End Methods.
End FeatureEngineeringService.

Module ClusteringService.
Section Methods.
Context {W : Type} (I : MLInternals W).

Definition error_assignment : pyval :=
  VDict (dict_of [("status", VStr "error");
                  ("cluster_id", VStr "default");
                  ("outlier_score", VFloat half)]).

Definition predict_cluster (api_key : string) (anon_id features : pyval)
    : M W pyval :=
  try_except (predict_cluster_try I api_key anon_id features)
    (fun _ => ret error_assignment).

Definition get_cluster_insights (api_key : string) : M W pyval :=
  try_except (get_cluster_insights_try I api_key)
    (fun e => ret (VDict (dict_of [("status", VStr "error");
                                   ("error", VStr (exn_msg e))]))).

Definition service : ClusteringServiceT W :=
  mkClusteringService W predict_cluster get_cluster_insights.
End Methods.
End ClusteringService.

Module IntentScoringService.
Section Methods.
Context {W : Type} (E : Env W) (I : MLInternals W).

(** [IntentScoringConfig.__post_init__] *)
Definition target_intents : list string :=
  ["purchase_intent"; "browse_intent"; "compare_intent";
   "exit_intent"; "engagement_intent"].

Definition _generate_default_scores (anon_id : pyval) : M W pyval :=
  fun w =>
    let default_scores :=
      dict_of (map (fun i => (i, VFloat half)) target_intents) in
    let probabilities :=
      dict_of (map (fun i => (i, VFloat (Qint 0))) target_intents) in
    let (now, w') := utcnow E w in
    (inr (VDict (dict_of
       [("anon_id", anon_id);
        ("intent_scores", VDict default_scores);
        ("intent_probabilities", VDict probabilities);
        ("ensemble_score", VFloat half);
        ("primary_intent", VStr "browse_intent");
        ("confidence", VFloat half);
        ("prediction_time", VStr (isoformat E now));
        ("status", VStr "default_scores")])), w').

Definition predict_intent_scores (api_key : string) (anon_id features : pyval)
    : M W pyval :=
  try_except (predict_intent_scores_try I api_key anon_id features)
    (fun _ => _generate_default_scores anon_id).

Definition get_feature_importance (api_key : string) : M W pyval :=
  try_except (get_feature_importance_try I api_key)
    (fun e => ret (VDict (dict_of [("status", VStr "error");
                                   ("error", VStr (exn_msg e))]))).

Definition service : IntentService W :=
  mkIntentService W predict_intent_scores get_feature_importance.
End Methods.
End IntentScoringService.

(* ================================================================== *)
(** * UnifiedAPIService *)
(* ================================================================== *)

(** [@dataclass class APIKeyInfo]; the dataclass does not check the
    declared field types, so each field holds whatever it was given. *)
Record APIKeyInfo : Type := mkAPIKeyInfo {
  api_key : pyval;
  customer_id : pyval;
  status : pyval;
  plan_type : pyval;
  created_at : pyval;
  rate_limit : pyval;
  features_enabled : pyval;
  metadata : pyval
}.

Definition APIKeyInfo_fields : list string :=
  ["api_key"; "customer_id"; "status"; "plan_type"; "created_at";
   "rate_limit"; "features_enabled"; "metadata"].

(** [APIKeyInfo] called with the entries of [v] as keyword arguments:
    every field is required and no other keyword is accepted. *)
Definition APIKeyInfo_of_kwargs (v : pyval) : exn + APIKeyInfo :=
  match v with
  | VDict d =>
      if forallb (fun kv => existsb (String.eqb (fst kv)) APIKeyInfo_fields) d
      then
        match dict_lookup "api_key" d, dict_lookup "customer_id" d,
              dict_lookup "status" d, dict_lookup "plan_type" d,
              dict_lookup "created_at" d, dict_lookup "rate_limit" d,
              dict_lookup "features_enabled" d, dict_lookup "metadata" d with
        | Some a, Some c, Some s, Some p, Some t, Some r, Some f, Some m =>
            inr (mkAPIKeyInfo a c s p t r f m)
        | _, _, _, _, _, _, _, _ => inl TypeError
        end
      else inl TypeError
  | _ => inl TypeError
  end.

(** [dataclasses.asdict] *)
Definition asdict (i : APIKeyInfo) : dict :=
  dict_of [("api_key", api_key i); ("customer_id", customer_id i);
           ("status", status i); ("plan_type", plan_type i);
           ("created_at", created_at i); ("rate_limit", rate_limit i);
           ("features_enabled", features_enabled i); ("metadata", metadata i)].

(** [APIKeyStatus(v)]: lookup of a member by value. *)
Definition APIKeyStatus_of (v : pyval) : exn + APIKeyStatus :=
  match v with
  | VStatus s => inr s
  | VStr s =>
      if String.eqb s "active" then inr ACTIVE
      else if String.eqb s "inactive" then inr INACTIVE
      else if String.eqb s "suspended" then inr SUSPENDED
      else if String.eqb s "trial" then inr TRIAL
      else inl ValueError
  | _ => inl ValueError
  end.

(** [status in [APIKeyStatus.ACTIVE, APIKeyStatus.TRIAL]]: a plain
    [Enum] member equals only itself, never its string value. *)
Definition status_accepted (v : pyval) : bool :=
  py_eq v (VStatus ACTIVE) || py_eq v (VStatus TRIAL).

(** [@dataclass class EventProcessingResult] *)
Record EventProcessingResult : Type := mkResult {
  success : bool;
  anon_id : pyval;
  session_id : pyval;
  features_extracted : pyval;
  cluster_assignment : pyval;
  intent_scores : pyval;
  real_time_metrics : pyval;
  processing_time_ms : pyval;
  error : option string
}.

(** [(t1 - t0).total_seconds() * 1000] *)
Definition elapsed_ms (t0 t1 : Z) : pyval := VFloat (Qmake (t1 - t0) 1000).

Section UnifiedAPIService.
Context {W : Type}.
Variable E : Env W.
(** the attributes set by [__init__] *)
Variable environment : string.
Variable feature_service : FeatureService W.
Variable clustering_service : ClusteringServiceT W.
Variable intent_service : IntentService W.

Definition api_keys_table : string := ("anon-intent-sdk-api-keys-" ++ environment)%string.
Definition sessions_table : string := ("anon-intent-sdk-sessions-" ++ environment)%string.
Definition feature_store_table : string :=
  ("anon-intent-sdk-feature-store-" ++ environment)%string.
Definition clusters_table : string :=
  ("anon-intent-sdk-intent-clusters-" ++ environment)%string.
Definition kinesis_stream_name : string := ("anon-intent-sdk-events-" ++ environment)%string.
Definition cache_function_name : string :=
  ("anon-intent-sdk-redis-cache-manager-" ++ environment)%string.
Definition auto_provision_enabled : bool := true.
Definition trial_period_days : Z := 14.

Definition fmt (v : pyval) : string := py_str (str_other E) v.

Definition datetime_utcnow : M (St W) Z := quiet (utcnow E).

(** [json.dumps(v)]; only its success matters, the text is not used. *)
Definition json_dumps (v : pyval) : M (St W) unit :=
  if json_serializable v then ret tt else raise TypeError.

(** [json.loads(v)] *)
Definition py_json_loads (v : pyval) : M (St W) pyval :=
  match v with
  | VStr s =>
      match json_loads E s with
      | Some x => ret x
      | None => raise JSONDecodeError
      end
  | _ => raise TypeError
  end.

Definition _invoke_cache_function (operation : string) (payload : dict)
    : M (St W) pyval :=
  try_except
    (let request := dict_update (dict_of [("operation", VStr operation)]) payload in
     json_dumps (VDict request) ;;
     raw <- invoke (LambdaInvoke cache_function_name request)
                   (lambda_invoke E cache_function_name request) ;;
     result <- py_json_loads (VStr raw) ;;
     body <- lift_sum (py_get result "body" VNone) ;;
     if py_truthy body then
       body' <- lift_sum (py_get result "body" (VStr "{}")) ;;
       py_json_loads body'
     else ret result)
    (fun _ => ret (VDict [])).

Definition _validate_api_key_async (api_key : string)
    : M (St W) (option APIKeyInfo) :=
  try_except
    (cached_result <- _invoke_cache_function "validate_api_key"
                        (dict_of [("api_key", VStr api_key)]) ;;
     cached <- lift_sum (py_get cached_result "cached" VNone) ;;
     if py_truthy cached then
       validation_data <- lift_sum (py_get cached_result "validation_data" (VDict [])) ;;
       if py_truthy validation_data then
         info <- lift_sum (APIKeyInfo_of_kwargs validation_data) ;;
         ret (Some info)
       else ret None
     else
       response <- invoke (GetItem api_keys_table api_key)
                          (get_item E api_keys_table api_key) ;;
       match dict_lookup "Item" response with
       | None => ret None
       | Some item =>
           pk <- lift_sum (py_getitem item "pk") ;;
           gsi1pk <- lift_sum (py_get item "gsi1pk" (VStr "")) ;;
           raw_status <- lift_sum (py_get item "status" (VStr "inactive")) ;;
           status <- lift_sum (APIKeyStatus_of raw_status) ;;
           plan <- lift_sum (py_get item "plan_type" (VStr "trial")) ;;
           gsi1sk <- lift_sum (py_get item "gsi1sk" (VStr "")) ;;
           limit <- lift_sum (py_get item "rate_limit" (VInt 1000)) ;;
           features <- lift_sum (py_get item "features_enabled" (VList [])) ;;
           meta <- lift_sum (py_get item "metadata" (VDict [])) ;;
           let api_key_info :=
             mkAPIKeyInfo pk gsi1pk (VStatus status) plan gsi1sk limit features meta in
           _invoke_cache_function "cache_api_key"
             (dict_of [("api_key", VStr api_key);
                       ("validation_data", VDict (asdict api_key_info))]) ;;
           ret (Some api_key_info)
       end)
    (fun _ => ret None).

Definition _check_rate_limit (api_key : string) (limit : pyval) : M (St W) bool :=
  try_except
    (datetime_utcnow ;;
     metrics_result <- _invoke_cache_function "get_metrics"
                         (dict_of [("api_key", VStr api_key);
                                   ("time_window", VStr "hour")]) ;;
     status_code <- lift_sum (py_get metrics_result "statusCode" VNone) ;;
     if py_eq status_code (VInt 200) then
       body <- lift_sum (py_get metrics_result "body" (VStr "{}")) ;;
       parsed <- py_json_loads body ;;
       metrics <- lift_sum (py_get parsed "metrics" (VDict [])) ;;
       event_count <- lift_sum (py_get metrics "total_events" (VInt 0)) ;;
       lift_sum (py_lt event_count limit)
     else ret true)
    (fun _ => ret true).

Definition _check_existing_models (api_key : string) : M (St W) bool :=
  try_except
    (let pk := (api_key ++ "#model")%string in
     response <- invoke (Query clusters_table pk (Some "2025"))
                        (query E clusters_table pk (Some "2025")) ;;
     n <- lift_sum (py_len (dict_get response "Items" (VList []))) ;;
     ret (Nat.ltb 0 n))
    (fun _ => ret false).

Definition _provision_clustering_models (api_key : string) : M (St W) unit :=
  try_except (note (ProvisionClusteringModels api_key)) (fun _ => ret tt).

Definition _provision_intent_models (api_key : string) : M (St W) unit :=
  try_except (note (ProvisionIntentModels api_key)) (fun _ => ret tt).

(** [asyncio.gather] with [return_exceptions=True] over the two
    provisioning tasks, awaited before the method returns. *)
Definition _auto_provision_models (api_key : string) : M (St W) unit :=
  try_except
    (existing_models <- _check_existing_models api_key ;;
     if negb existing_models then
       try_except (_provision_clustering_models api_key) (fun _ => ret tt) ;;
       try_except (_provision_intent_models api_key) (fun _ => ret tt)
     else ret tt)
    (fun _ => ret tt).

Definition _ingest_event_to_stream (api_key : string) (event_data : dict)
    : M (St W) unit :=
  try_except
    (t <- datetime_utcnow ;;
     fresh <- quiet (uuid4 E) ;;
     let enriched_event :=
       dict_update event_data
         [("apiKey", VStr api_key);
          ("ingestionTime", VStr (isoformat E t));
          ("eventId", dict_get event_data "eventId" (VStr fresh))] in
     json_dumps (VDict enriched_event) ;;
     let partition_key :=
       (api_key ++ "#" ++ fmt (dict_get event_data "anonId" (VStr "unknown")))%string in
     response <- invoke (PutRecord kinesis_stream_name enriched_event partition_key)
                        (put_record E kinesis_stream_name enriched_event partition_key) ;;
     ret tt)
    (fun _ => ret tt).

Definition _cache_session_data (api_key : string) (event_data : dict)
    : M (St W) unit :=
  try_except
    (t <- datetime_utcnow ;;
     let session_data :=
       dict_of [("session_id", dict_get event_data "sessionId" VNone);
                ("anon_id", dict_get event_data "anonId" VNone);
                ("api_key", VStr api_key);
                ("last_activity", VStr (isoformat E t));
                ("platform", dict_get event_data "platform" VNone);
                ("event_count", VInt 1)] in
     _invoke_cache_function "cache_session"
       (dict_of [("session_data", VDict session_data)]) ;;
     ret tt)
    (fun _ => ret tt).

(** The three calls go through a [ThreadPoolExecutor]: the feature
    future is awaited at once; the clustering and intent futures are
    both submitted before either result is read, so both operations run
    whatever the other does.  The two worker threads are laid out in
    submission order. *)
Definition _process_with_ml_pipeline (api_key : string) (event_data : dict)
    : M (St W) dict :=
  try_except
    (let anon_id := dict_get event_data "anonId" VNone in
     feature_future <- submit (ExtractFeatures api_key anon_id "7d")
                         (extract_features feature_service api_key anon_id "7d") ;;
     features <- result feature_future ;;
     if py_truthy features then
       cluster_future <- submit (PredictCluster api_key anon_id features)
                           (predict_cluster clustering_service api_key anon_id features) ;;
       intent_future <- submit (PredictIntentScores api_key anon_id features)
                          (predict_intent_scores intent_service api_key anon_id features) ;;
       cluster_result <- result cluster_future ;;
       intent_result <- result intent_future ;;
       ret (dict_of [("features", features); ("cluster", cluster_result);
                     ("intent_scores", intent_result)])
     else
       ret (dict_of [("features", features); ("cluster", VDict []);
                     ("intent_scores", VDict [])]))
    (fun _ => ret (dict_of [("features", VDict []); ("cluster", VDict []);
                            ("intent_scores", VDict [])])).

Definition flag (v : pyval) : pyval := VInt (if py_truthy v then 1 else 0).

Definition _update_real_time_metrics (api_key : string) (event_data ml_results : dict)
    : M (St W) pyval :=
  try_except
    (platform_key <- lift_sum (py_concat "platform_"
                       (dict_get event_data "platform" (VStr "unknown"))) ;;
     event_key <- lift_sum (py_concat "event_"
                    (dict_get event_data "eventName" (VStr "unknown"))) ;;
     let metrics :=
       dict_of [("total_events", VInt 1);
                ("unique_sessions", flag (dict_get event_data "sessionId" VNone));
                ("unique_users", flag (dict_get event_data "anonId" VNone));
                (platform_key, VInt 1);
                (event_key, VInt 1)] in
     cluster_id <- lift_sum (py_get (dict_get ml_results "cluster" (VDict []))
                                    "cluster_id" VNone) ;;
     metrics <-
       (if py_truthy cluster_id then
          cluster <- lift_sum (py_getitem (VDict ml_results) "cluster") ;;
          cid <- lift_sum (py_getitem cluster "cluster_id") ;;
          ret (dict_set ("cluster_" ++ fmt cid)%string (VInt 1) metrics)
        else ret metrics) ;;
     metrics <-
       (if py_truthy (dict_get ml_results "intent_scores" VNone) then
          scores <- lift_sum (py_getitem (VDict ml_results) "intent_scores") ;;
          primary_intent <-
            match scores with
            | VDict [] => ret VNone
            | VDict (kv :: r) =>
                best <- lift_sum (py_max_by_value kv r) ;;
                ret (VStr (fst best))
            | _ => raise AttributeError
            end ;;
          if py_truthy primary_intent
          then ret (dict_set ("intent_" ++ fmt primary_intent)%string (VInt 1) metrics)
          else ret metrics
        else ret metrics) ;;
     _invoke_cache_function "update_metrics"
       (dict_of [("api_key", VStr api_key); ("metrics", VDict metrics)]) ;;
     ret (VDict metrics))
    (fun _ => ret (VDict [])).

Definition rejected (event_data : dict) (reason : string) : EventProcessingResult :=
  mkResult false
    (dict_get event_data "anonId" (VStr "unknown"))
    (dict_get event_data "sessionId" (VStr "unknown"))
    (VDict []) (VDict []) (VDict []) (VDict []) (VInt 0) (Some reason).

(** The [except Exception as e] clause that closes [process_event]. *)
Definition process_event_except (start_time : Z) (event_data : dict) (e : exn)
    : M (St W) EventProcessingResult :=
  end_time <- datetime_utcnow ;;
  ret (mkResult false
         (dict_get event_data "anonId" (VStr "unknown"))
         (dict_get event_data "sessionId" (VStr "unknown"))
         (VDict []) (VDict []) (VDict []) (VDict [])
         (elapsed_ms start_time end_time)
         (Some (exn_msg e))).

Definition process_event (key : string) (event_data : dict)
    : M (St W) EventProcessingResult :=
  start_time <- datetime_utcnow ;;
  try_except
    (api_key_info <- _validate_api_key_async key ;;
     match api_key_info with
     | None => ret (rejected event_data "Invalid or inactive API key")
     | Some info =>
         if negb (status_accepted (status info))
         then ret (rejected event_data "Invalid or inactive API key")
         else
           allowed <- _check_rate_limit key (rate_limit info) ;;
           if negb allowed
           then ret (rejected event_data "Rate limit exceeded")
           else
             (if py_eq (status info) (VStatus TRIAL)
              then _auto_provision_models key
              else ret tt) ;;
             _ingest_event_to_stream key event_data ;;
             _cache_session_data key event_data ;;
             ml_results <- _process_with_ml_pipeline key event_data ;;
             metrics <- _update_real_time_metrics key event_data ml_results ;;
             end_time <- datetime_utcnow ;;
             ret (mkResult true
                    (dict_get event_data "anonId" (VStr "unknown"))
                    (dict_get event_data "sessionId" (VStr "unknown"))
                    (dict_get ml_results "features" (VDict []))
                    (dict_get ml_results "cluster" (VDict []))
                    (dict_get ml_results "intent_scores" (VDict []))
                    metrics
                    (elapsed_ms start_time end_time)
                    None)
     end)
    (process_event_except start_time event_data).

(** ** Read side *)

Definition _get_user_features (api_key anon_id time_window : string)
    : M (St W) pyval :=
  try_except
    (invoke (ExtractFeatures api_key (VStr anon_id) time_window)
            (extract_features feature_service api_key (VStr anon_id) time_window))
    (fun _ => ret (VDict [])).

Definition user_pk (api_key anon_id : string) : string :=
  (api_key ++ "#" ++ anon_id)%string.

Definition _get_user_cluster_info (api_key anon_id : string) : M (St W) pyval :=
  try_except
    (let pk := user_pk api_key anon_id in
     response <- invoke (Query clusters_table pk (Some "cluster_assignment"))
                        (query E clusters_table pk (Some "cluster_assignment")) ;;
     let items := dict_get response "Items" (VList []) in
     if py_truthy items then lift_sum (py_index0 items) else ret (VDict []))
    (fun _ => ret (VDict [])).

Definition _get_user_intent_scores (api_key anon_id : string) : M (St W) pyval :=
  try_except
    (let pk := user_pk api_key anon_id in
     response <- invoke (Query feature_store_table pk (Some "prediction"))
                        (query E feature_store_table pk (Some "prediction")) ;;
     let items := dict_get response "Items" (VList []) in
     if py_truthy items then
       first <- lift_sum (py_index0 items) ;;
       lift_sum (py_get first "prediction_data" (VDict []))
     else ret (VDict []))
    (fun _ => ret (VDict [])).

Definition _get_user_session_summary (api_key anon_id time_window : string)
    : M (St W) pyval :=
  try_except
    (_invoke_cache_function "get_session"
       (dict_of [("api_key", VStr api_key); ("session_id", VStr "latest")]) ;;
     let pk := user_pk api_key anon_id in
     response <- invoke (Query sessions_table pk None)
                        (query E sessions_table pk None) ;;
     let sessions := dict_get response "Items" (VList []) in
     if py_truthy sessions then
       match sessions with
       | VList l =>
           total_duration <- lift_sum (sum_durations l (VInt 0)) ;;
           avg_duration <- lift_sum (py_truediv total_duration (List.length l)) ;;
           last_session <- lift_sum (py_index0 sessions) ;;
           ret (VDict (dict_of
                  [("total_sessions", VInt (Z.of_nat (List.length l)));
                   ("avg_duration", avg_duration);
                   ("total_duration", total_duration);
                   ("last_session", last_session)]))
       | _ => raise AttributeError
       end
     else ret (VDict []))
    (fun _ => ret (VDict [])).

(** The body of the [try] block of [_generate_user_insights], run on
    the [insights] dict it mutates. *)
Definition insights_try (features cluster_info intent_scores : pyval)
    : M dict unit :=
  cluster_id <- lift_sum (py_get cluster_info "cluster_id" VNone) ;;
  (if py_truthy cluster_id then
     cid <- lift_sum (py_getitem cluster_info "cluster_id") ;;
     set_key "behavioral_type" (VStr ("user_type_" ++ fmt cid)%string)
   else ret tt) ;;
  engagement_score <- lift_sum (py_get features "engagement_score" (VFloat half)) ;;
  high <- lift_sum (py_gt engagement_score (VFloat (Qmake 7 10))) ;;
  (if (high : bool) then set_key "engagement_level" (VStr "high")
   else
     low <- lift_sum (py_lt engagement_score (VFloat (Qmake 3 10))) ;;
     if (low : bool) then set_key "engagement_level" (VStr "low") else ret tt) ;;
  scores <- lift_sum (py_get intent_scores "intent_scores" VNone) ;;
  (if py_truthy scores then
     scores' <- lift_sum (py_getitem intent_scores "intent_scores") ;;
     match scores' with
     | VDict [] => set_key "primary_intent" (VStr "browse")
     | VDict (kv :: r) =>
         best <- lift_sum (py_max_by_value kv r) ;;
         set_key "primary_intent" (VStr (fst best))
     | _ => raise AttributeError
     end
   else ret tt) ;;
  low <- lift_sum (py_lt engagement_score (VFloat (Qmake 3 10))) ;;
  let recommendations :=
    if (low : bool) then [VStr "Consider showing more engaging content"] else [] in
  scores <- lift_sum (py_get intent_scores "intent_scores" (VDict [])) ;;
  purchase <- lift_sum (py_get scores "purchase_intent" (VInt 0)) ;;
  eager <- lift_sum (py_gt purchase (VFloat (Qmake 7 10))) ;;
  let recommendations :=
    if (eager : bool)
    then recommendations ++ [VStr "High purchase intent - show relevant offers"]
    else recommendations in
  outlier <- lift_sum (py_get cluster_info "is_outlier" VNone) ;;
  let recommendations :=
    if py_truthy outlier
    then recommendations ++ [VStr "Unusual behavior pattern detected"]
    else recommendations in
  set_key "recommendations" (VList recommendations).

(** Whatever the [try] block managed to write into [insights] before
    it finished or raised is returned. *)
Definition _generate_user_insights (features cluster_info intent_scores : pyval)
    : pyval :=
  let insights :=
    dict_of [("behavioral_type", VStr "unknown");
             ("engagement_level", VStr "medium");
             ("primary_intent", VStr "browse");
             ("recommendations", VList [])] in
  VDict (snd (insights_try features cluster_info intent_scores insights)).

Definition _get_cached_metrics (api_key time_window : string) : M (St W) pyval :=
  try_except
    (_invoke_cache_function "get_metrics"
       (dict_of [("api_key", VStr api_key); ("time_window", VStr time_window)]))
    (fun _ => ret (VDict [])).

Definition _get_cluster_summary (api_key : string) : M (St W) pyval :=
  try_except
    (invoke (GetClusterInsights api_key)
            (get_cluster_insights clustering_service api_key))
    (fun _ => ret (VDict [])).

Definition _get_intent_distribution (api_key time_window : string)
    : M (St W) pyval :=
  try_except
    (invoke (GetFeatureImportance api_key)
            (get_feature_importance intent_service api_key))
    (fun _ => ret (VDict [])).

Definition _get_platform_breakdown (api_key time_window : string)
    : M (St W) pyval :=
  try_except
    (metrics <- _get_cached_metrics api_key time_window ;;
     inner <- lift_sum (py_get metrics "metrics" (VDict [])) ;;
     match inner with
     | VDict items =>
         ret (VDict (fold_left
                (fun platforms kv =>
                   if prefix "platform_" (fst kv)
                   then dict_set (str_remove "platform_" (fst kv)) (snd kv) platforms
                   else platforms)
                items []))
     | _ => raise AttributeError
     end)
    (fun _ => ret (VDict [])).

Definition error_dict (msg : string) : pyval :=
  VDict (dict_of [("error", VStr msg)]).

Definition get_user_insights (key anon time_window : string) : M (St W) pyval :=
  try_except
    (api_key_info <- _validate_api_key_async key ;;
     match api_key_info with
     | None => ret (error_dict "Invalid API key")
     | Some _ =>
         features <- _get_user_features key anon time_window ;;
         cluster_info <- _get_user_cluster_info key anon ;;
         scores <- _get_user_intent_scores key anon ;;
         session_summary <- _get_user_session_summary key anon time_window ;;
         t <- datetime_utcnow ;;
         ret (VDict (dict_of
                [("anon_id", VStr anon);
                 ("api_key", VStr key);
                 ("time_window", VStr time_window);
                 ("generated_at", VStr (isoformat E t));
                 ("user_features", features);
                 ("cluster_assignment", cluster_info);
                 ("intent_scores", scores);
                 ("session_summary", session_summary);
                 ("insights", _generate_user_insights features cluster_info scores)]))
     end)
    (fun e => ret (error_dict (exn_msg e))).

Definition get_real_time_dashboard (key time_window : string) : M (St W) pyval :=
  try_except
    (api_key_info <- _validate_api_key_async key ;;
     match api_key_info with
     | None => ret (error_dict "Invalid API key")
     | Some _ =>
         metrics <- _get_cached_metrics key time_window ;;
         cluster_summary <- _get_cluster_summary key ;;
         intent_distribution <- _get_intent_distribution key time_window ;;
         platform_breakdown <- _get_platform_breakdown key time_window ;;
         t <- datetime_utcnow ;;
         ret (VDict (dict_of
                [("api_key", VStr key);
                 ("time_window", VStr time_window);
                 ("generated_at", VStr (isoformat E t));
                 ("live_metrics", metrics);
                 ("cluster_summary", cluster_summary);
                 ("intent_distribution", intent_distribution);
                 ("platform_breakdown", platform_breakdown);
                 ("status", VStr "active")]))
     end)
    (fun e => ret (error_dict (exn_msg e))).

(** ** Tenant creation *)

(** [int(datetime.utcnow().timestamp())] *)
Definition unix_seconds (t : Z) : Z := Z.quot t 1000000.

Definition _generate_api_key (customer : string) : M (St W) string :=
  fresh <- quiet (uuid4 E) ;;
  let unique_part := str_remove "-" fresh in
  let customer_hash := str_take 8 (md5_hexdigest E customer) in
  t <- datetime_utcnow ;;
  let timestamp := str_last 6 (string_of_Z (unix_seconds t)) in
  ret ("ak_" ++ customer_hash ++ "_" ++ timestamp ++ "_" ++ str_take 16 unique_part)%string.

Definition plan (limit : Z) (features : list string) : dict :=
  dict_of [("rate_limit", VInt limit); ("features", VList (map VStr features))].

Definition _get_plan_configuration (plan_name : string) : dict :=
  let configs :=
    dict_of
      [("trial", VDict (plan 1000 ["basic_analytics"; "intent_scoring"]));
       ("basic", VDict (plan 10000 ["basic_analytics"; "intent_scoring"; "clustering"]));
       ("pro", VDict (plan 100000 ["basic_analytics"; "intent_scoring"; "clustering";
                                   "advanced_features"]));
       ("enterprise", VDict (plan 1000000 ["basic_analytics"; "intent_scoring";
                                           "clustering"; "advanced_features";
                                           "custom_models"]))] in
  match dict_get configs plan_name (dict_get configs "trial" VNone) with
  | VDict d => d
  | _ => []
  end.

(** [status.value] *)
Definition enum_value (v : pyval) : exn + pyval :=
  match v with
  | VStatus s => inr (VStr (status_value s))
  | _ => inl AttributeError
  end.

Definition _store_api_key (api_key_info : APIKeyInfo) : M (St W) unit :=
  try_except
    (status_text <- lift_sum (enum_value (status api_key_info)) ;;
     let item :=
       dict_of [("pk", api_key api_key_info);
                ("gsi1pk", customer_id api_key_info);
                ("gsi1sk", created_at api_key_info);
                ("status", status_text);
                ("plan_type", plan_type api_key_info);
                ("rate_limit", rate_limit api_key_info);
                ("features_enabled", features_enabled api_key_info);
                ("metadata", metadata api_key_info)] in
     invoke (PutItem api_keys_table item) (put_item E api_keys_table item))
    (fun e => raise e).

Definition _auto_provision_infrastructure (key plan_name : string) : M (St W) unit :=
  try_except (note (ProvisionInfrastructure key plan_name)) (fun _ => ret tt).

Definition microseconds_per_day : Z := 86400000000.

Definition create_api_key (customer plan_name : string) (meta : pyval)
    : M (St W) pyval :=
  try_except
    (key <- _generate_api_key customer ;;
     let plan_config := _get_plan_configuration plan_name in
     created <- datetime_utcnow ;;
     let api_key_info :=
       mkAPIKeyInfo (VStr key) (VStr customer)
         (VStatus (if String.eqb plan_name "trial" then TRIAL else ACTIVE))
         (VStr plan_name)
         (VStr (isoformat E created))
         (dict_get plan_config "rate_limit" VNone)
         (dict_get plan_config "features" VNone)
         (if py_truthy meta then meta else VDict []) in
     limit <- lift_sum (py_getitem (VDict plan_config) "rate_limit") ;;
     features <- lift_sum (py_getitem (VDict plan_config) "features") ;;
     _store_api_key api_key_info ;;
     (if auto_provision_enabled
      then _auto_provision_infrastructure key plan_name
      else ret tt) ;;
     trial_expires <-
       (if String.eqb plan_name "trial" then
          t <- datetime_utcnow ;;
          ret (VStr (isoformat E (t + trial_period_days * microseconds_per_day)))
        else ret VNone) ;;
     ret (VDict (dict_of
            [("api_key", VStr key);
             ("status", VStr "created");
             ("plan_type", VStr plan_name);
             ("rate_limit", limit);
             ("features_enabled", features);
             ("trial_expires", trial_expires);
             ("setup_complete", VBool true)])))
    (fun e => ret (error_dict (exn_msg e))).

End UnifiedAPIService.

(* ================================================================== *)
(** * Observing a run *)
(* ================================================================== *)

(** A computation that returns from every state. *)
Definition total {S A : Type} (m : M S A) : Prop :=
  forall s, exists a s', m s = (inr a, s').

(** [logs P m]: from any state, [m] only appends calls, and each call it
    appends satisfies [P]. *)
Definition logs {W A : Type} (P : Call -> Prop) (m : M (St W) A) : Prop :=
  forall st, exists l, calls (snd (m st)) = calls st ++ l /\ Forall P l.


(** ** The stage a call belongs to *)

(** The states of the request pipeline, as the calls reveal them. *)
Inductive Stage : Type :=
| Validating | RateLimiting | Provisioning | Ingesting | SessionCaching
| Scoring | AggregatingMetrics | Reading | Storing.

Definition Stage_eqb (a b : Stage) : bool :=
  match a, b with
  | Validating, Validating | RateLimiting, RateLimiting
  | Provisioning, Provisioning | Ingesting, Ingesting
  | SessionCaching, SessionCaching | Scoring, Scoring
  | AggregatingMetrics, AggregatingMetrics | Reading, Reading
  | Storing, Storing => true
  | _, _ => false
  end.

Definition stage_of_operation (op : string) : Stage :=
  if String.eqb op "validate_api_key" then Validating
  else if String.eqb op "cache_api_key" then Validating
  else if String.eqb op "get_metrics" then RateLimiting
  else if String.eqb op "cache_session" then SessionCaching
  else if String.eqb op "update_metrics" then AggregatingMetrics
  else Reading.

Definition stage_of (c : Call) : Stage :=
  match c with
  | LambdaInvoke _ request =>
      match dict_lookup "operation" request with
      | Some (VStr op) => stage_of_operation op
      | _ => Reading
      end
  | GetItem _ _ => Validating
  | PutItem _ _ => Storing
  | Query _ _ (Some prefix) =>
      if String.eqb prefix "2025" then Provisioning else Reading
  | Query _ _ None => Reading
  | PutRecord _ _ _ => Ingesting
  | ExtractFeatures _ _ _ | PredictCluster _ _ _ | PredictIntentScores _ _ _ => Scoring
  | GetClusterInsights _ | GetFeatureImportance _ => Reading
  | ProvisionClusteringModels _ | ProvisionIntentModels _ => Provisioning
  | ProvisionInfrastructure _ _ => Storing
  end.

(** How many of the calls in [l] belong to stage [s]. *)
Definition count_calls (s : Stage) (l : list Call) : nat :=
  List.length (filter (fun c => Stage_eqb (stage_of c) s) l).

Definition in_stage (s : Stage) (c : Call) : Prop := stage_of c = s.

(** Calls made up to the admission decision, and calls made by the
    stages that follow the stream append. *)
Definition before_decision (c : Call) : Prop :=
  stage_of c = Validating \/ stage_of c = RateLimiting.

Definition after_ingestion (c : Call) : Prop :=
  stage_of c = SessionCaching \/ stage_of c = Scoring \/
  stage_of c = AggregatingMetrics.

(** ** The merged scoring result *)

(** The mapping [_process_with_ml_pipeline] returns. *)
Definition scoring_results (features cluster intent : pyval) : dict :=
  dict_of [("features", features); ("cluster", cluster); ("intent_scores", intent)].

(** A feature extraction that raised, or that returned an empty
    (falsy) feature map. *)
Definition features_absent (outcome : exn + pyval) : Prop :=
  match outcome with
  | inl _ => True
  | inr f => py_truthy f = false
  end.

(** The two downstream scorers. *)
Definition is_scorer (c : Call) : bool :=
  match c with
  | PredictCluster _ _ _ | PredictIntentScores _ _ _ => true
  | _ => false
  end.

(** ** The rate limiter's contract *)

(** The rate limiter's contract in the words of section 4.2 of the
    specification, to be compared with the source's
    [_check_rate_limit]: given the tenant's counter for the current
    window, when the read gave one, the request goes through iff the
    counter is below the limit, and it goes through when the read gave
    no counter. *)
Definition rate_limiter_allows (reading : option Q) (limit : Z) : bool :=
  match reading with
  | Some count => Qlt_bool count (Qint limit)
  | None => true
  end.

(** ** Step 3 of the request path *)

Section ProvisioningStep.
Context {W : Type}.
Variable E : Env W.
Variable environment : string.

(** The provisioning step as [process_event] runs it, between the
    rate-limit check and the stream ingestion. *)
Definition provision_if_trial (info : APIKeyInfo) (key : string) : M (St W) unit :=
  if py_eq (status info) (VStatus TRIAL)
  then _auto_provision_models E environment key
  else ret tt.
End ProvisioningStep.

(* ================================================================== *)
(** * A scripted world *)
(* ================================================================== *)

(** A small deterministic instance of [Env], used to run the service on
    concrete requests: the world is the clock, every collaborator answers
    from a fixed script. *)
Module Demo.

Definition dq : string := String "034"%char EmptyString.
Definition bs : string := String "092"%char EmptyString.

Fixpoint escape (s : string) : string :=
  match s with
  | EmptyString => EmptyString
  | String c r =>
      if Ascii.eqb c "034"%char then (bs ++ dq ++ escape r)%string
      else if Ascii.eqb c "092"%char then (bs ++ bs ++ escape r)%string
      else String c (escape r)
  end.

(** The text [json.dumps] writes for a value without floats. *)
Fixpoint json_text (v : pyval) : string :=
  match v with
  | VNone => "null"
  | VBool true => "true"
  | VBool false => "false"
  | VInt z => string_of_Z z
  | VFloat _ => "NaN"
  | VStr s => (dq ++ escape s ++ dq)%string
  | VList l =>
      ("[" ++
       (fix go (l : list pyval) : string :=
          match l with
          | [] => ""
          | x :: r =>
              json_text x ++ match r with [] => "" | _ => ", " ++ go r end
          end) l ++ "]")%string
  | VDict d =>
      ("{" ++
       (fix go (d : list (string * pyval)) : string :=
          match d with
          | [] => ""
          | (k, x) :: r =>
              dq ++ escape k ++ dq ++ ": " ++ json_text x ++
              match r with [] => "" | _ => ", " ++ go r end
          end) d ++ "}")%string
  | VStatus _ => ""
  end.

(** What the cache function answers, as Lambda proxy responses:
    [wrap v] carries [v] in the [body] of a 200 response. *)
Definition wrap (v : pyval) : pyval :=
  VDict [("statusCode", VInt 200); ("body", VStr (json_text v))].

Definition metrics_of (count : Z) : pyval :=
  VDict [("metrics", VDict [("total_events", VInt count); ("platform_web", VInt count)])].

(** A reply whose body is itself a proxy response: after the
    unwrapping done by [_invoke_cache_function] the caller still sees
    [statusCode] and [body]. *)
Definition count_reply (count : Z) : string := json_text (wrap (wrap (metrics_of count))).

(** The plain proxy response for the same metrics. *)
Definition flat_reply (count : Z) : string := json_text (wrap (metrics_of count)).

Definition miss_reply : string := json_text (wrap (VDict [("cached", VBool false)])).

Definition cached_record : pyval :=
  VDict [("api_key", VStr "ak_test"); ("customer_id", VStr "c1");
         ("status", VStr "active"); ("plan_type", VStr "basic");
         ("created_at", VStr "2025-01-01T00:00:00");
         ("rate_limit", VInt 10000);
         ("features_enabled", VList [VStr "basic_analytics"]);
         ("metadata", VDict [])].

Definition hit_reply : string :=
  json_text (wrap (VDict [("cached", VBool true); ("validation_data", cached_record)])).

(** The JSON documents of this world; [json.loads] recognises their
    texts and rejects every other text. *)
Definition documents : list pyval :=
  [VDict [];
   VDict [("cached", VBool false)];
   wrap (VDict [("cached", VBool false)]);
   VDict [("cached", VBool true); ("validation_data", cached_record)];
   wrap (VDict [("cached", VBool true); ("validation_data", cached_record)]);
   metrics_of 1; wrap (metrics_of 1); wrap (wrap (metrics_of 1));
   metrics_of 2; wrap (metrics_of 2); wrap (wrap (metrics_of 2));
   metrics_of 5; wrap (metrics_of 5); wrap (wrap (metrics_of 5))].

Definition loads (s : string) : option pyval :=
  find (fun v => String.eqb (json_text v) s) documents.

Definition tenant_item (status : string) (limit : Z) : dict :=
  [("pk", VStr "ak_test"); ("gsi1pk", VStr "c1"); ("gsi1sk", VStr "2025-01-01T00:00:00");
   ("status", VStr status); ("plan_type", VStr "basic"); ("rate_limit", VInt limit);
   ("features_enabled", VList [VStr "basic_analytics"]); ("metadata", VDict [])].

Record Script : Type := mkScript {
  validate_reply : exn + string;   (** cache function, [validate_api_key] *)
  metrics_reply : exn + string;    (** cache function, [get_metrics] *)
  other_reply : exn + string;      (** cache function, every other operation *)
  stored : exn + dict;             (** [get_item] on the API-key table *)
  put_outcome : exn + unit;        (** [put_item] *)
  query_outcome : exn + dict;      (** every [query] *)
  stream_outcome : exn + dict      (** [put_record] *)
}.

Definition boom (what : string) : exn := mkExn "ClientError" what.

Definition operation_of (request : dict) : string :=
  match dict_lookup "operation" request with
  | Some (VStr op) => op
  | _ => ""
  end.

Definition fixed {A : Type} (r : exn + A) : M Z A := fun w => (r, w).

Definition env (s : Script) : Env Z :=
  mkEnv Z
    (fun w => (w, (w + 1000)%Z))
    (fun w => ("123e4567-e89b-42d3-a456-426614174000", w))
    (fun _ => "5d41402abc4b2a76b9719d911017c592")
    string_of_Z
    loads
    (fun _ => "?")
    (fun _ request =>
       let op := operation_of request in
       if String.eqb op "validate_api_key" then fixed (validate_reply s)
       else if String.eqb op "get_metrics" then fixed (metrics_reply s)
       else fixed (other_reply s))
    (fun _ _ => fixed (stored s))
    (fun _ _ => fixed (put_outcome s))
    (fun _ _ _ => fixed (query_outcome s))
    (fun _ _ _ => fixed (stream_outcome s)).

(** A healthy deployment holding one tenant. *)
Definition healthy (status : string) (limit count : Z) : Script :=
  mkScript (inr miss_reply) (inr (count_reply count)) (inr "{}")
           (inr [("Item", VDict (tenant_item status limit))])
           (inr tt) (inr [("Items", VList [])]) (inr [("SequenceNumber", VStr "1")]).

(** The same tenant while Kinesis, the cache writes and the model
    table are all failing. *)
Definition degraded (status : string) (limit count : Z) : Script :=
  mkScript (inr miss_reply) (inr (count_reply count)) (inl (boom "cache down"))
           (inr [("Item", VDict (tenant_item status limit))])
           (inl (boom "table down")) (inl (boom "table down"))
           (inl (boom "stream down")).

(** The cache function answers the validation lookup with a cached
    record, as JSON. *)
Definition cache_hit : Script :=
  mkScript (inr hit_reply) (inr (count_reply 1)) (inr "{}")
           (inr [("Item", VDict (tenant_item "active" 10000))])
           (inr tt) (inr [("Items", VList [])]) (inr [("SequenceNumber", VStr "1")]).

(** The cached record while [get_metrics] answers [m]. *)
Definition cache_hit_with (m : exn + string) : Script :=
  mkScript (inr hit_reply) m (inr "{}")
           (inr [("Item", VDict (tenant_item "active" 10000))])
           (inr tt) (inr [("Items", VList [])]) (inr [("SequenceNumber", VStr "1")]).

(** The cache function answers [get_metrics] with a plain proxy
    response carrying the metrics in its body. *)
Definition plain_metrics (limit count : Z) : Script :=
  mkScript (inr miss_reply) (inr (flat_reply count)) (inr "{}")
           (inr [("Item", VDict (tenant_item "active" limit))])
           (inr tt) (inr [("Items", VList [])]) (inr [("SequenceNumber", VStr "1")]).

(** No record for the key. *)
Definition unknown_key : Script :=
  mkScript (inr miss_reply) (inr (count_reply 1)) (inr "{}") (inr [])
           (inr tt) (inr [("Items", VList [])]) (inr [("SequenceNumber", VStr "1")]).

Definition some_features : pyval :=
  VDict [("event_count", VInt 3); ("engagement_score", VFloat (Qmake 4 5))].

Definition some_scores : pyval :=
  VDict [("purchase_intent", VFloat (Qmake 9 10)); ("browse_intent", VFloat (Qmake 1 10))].

Definition some_cluster : pyval :=
  VDict [("cluster_id", VStr "cluster_2"); ("is_outlier", VBool false)].

(** The bodies of the ML services, scripted by their outcomes. *)
Definition internals (f c i : exn + pyval) : MLInternals Z :=
  mkMLInternals Z
    (fun _ _ _ => fixed f) (fun _ _ _ => fixed c)
    (fun _ => fixed (inr (VDict [("status", VStr "no_data"); ("clusters", VList [])])))
    (fun _ _ _ => fixed i)
    (fun _ => fixed (inr (VDict [("status", VStr "no_models"); ("importance", VDict [])]))).

Definition feature_service_of (f : exn + pyval) : FeatureService Z :=
  FeatureEngineeringService.service (internals f (inr some_cluster) (inr some_scores)).

Definition clustering_service_of (c : exn + pyval) : ClusteringServiceT Z :=
  ClusteringService.service (internals (inr some_features) c (inr some_scores)).

Definition intent_service_of (s : Script) (i : exn + pyval) : IntentService Z :=
  IntentScoringService.service (env s)
    (internals (inr some_features) (inr some_cluster) i).

(** A clustering collaborator that lets its exception out. *)
Definition raising_clustering : ClusteringServiceT Z :=
  mkClusteringService Z
    (fun _ _ _ => fixed (inl (boom "clustering timed out")))
    (fun _ => fixed (inl (boom "clustering timed out"))).

Definition start : St Z := mkSt 1730851200000000%Z [].

Definition event : dict :=
  [("eventId", VStr "e-1"); ("eventName", VStr "page_view");
   ("anonId", VStr "anon-demo-user"); ("sessionId", VStr "session-demo-123");
   ("platform", VStr "web")].

End Demo.

(* ================================================================== *)
(** * Assumptions on the runtime *)
(* ================================================================== *)

Section Runtime.
Context {W : Type}.
Variable E : Env W.

(** [json.loads] returns JSON data: it never builds a member of a
    Python enum. *)
Definition loads_json_data : Prop :=
  forall s v, json_loads E s = Some v -> json_serializable v = true.
End Runtime.

(* ================================================================== *)
(** * Shapes of values *)
(* ================================================================== *)

(** [isinstance(v, dict)] *)
Definition is_mapping (v : pyval) : bool :=
  match v with
  | VDict _ => true
  | _ => false
  end.

(* ================================================================== *)
(** * Invariants of a computation *)
(* ================================================================== *)

(** [preserves I m]: whether [m] returns or raises, the state it leaves
    satisfies [I] when the state it started from did. *)
Definition preserves {S A : Type} (I : S -> Prop) (m : M S A) : Prop :=
  forall s, I s -> I (snd (m s)).

(** The three recommendation texts of [_generate_user_insights]. *)
Definition recommendation_texts : list pyval :=
  [VStr "Consider showing more engaging content";
   VStr "High purchase intent - show relevant offers";
   VStr "Unusual behavior pattern detected"].

(** The insights mapping: its four entries, in the order the method
    creates them. *)
Definition insights_shape (d : dict) : Prop :=
  exists behavioral_type engagement_level primary_intent recommendations,
    d = [("behavioral_type", VStr behavioral_type);
         ("engagement_level", VStr engagement_level);
         ("primary_intent", VStr primary_intent);
         ("recommendations", VList recommendations)] /\
    In engagement_level ["high"; "medium"; "low"] /\
    incl recommendations recommendation_texts.

(** The engagement level for a score. *)
Definition engagement_level_of (score : Q) : string :=
  if Qlt_bool (Qmake 7 10) score then "high"
  else if Qlt_bool score (Qmake 3 10) then "low"
  else "medium".

(** [pat in s] *)
Fixpoint str_occurs (pat s : string) : bool :=
  prefix pat s ||
  match s with
  | EmptyString => false
  | String _ r => str_occurs pat r
  end.

(** The metric entries that stand for platform [p] in the breakdown:
    their key starts with 'platform_' and is [p] once every 'platform_'
    has been removed from it. *)
Definition counts_platform (p : string) (kv : string * pyval) : bool :=
  prefix "platform_" (fst kv) && String.eqb (str_remove "platform_" (fst kv)) p.

(** What a session adds to the total duration of the summary: its
    'gsi1sk' attribute when that is a number, nothing otherwise. *)
Definition session_duration (s : pyval) : Q :=
  match s with
  | VDict d =>
      match dict_lookup "gsi1sk" d with
      | Some v => if is_number v then match num_of v with Some q => q | None => Qint 0 end
                  else Qint 0
      | None => Qint 0
      end
  | _ => Qint 0
  end.

Definition Qsum (l : list Q) : Q := fold_right Qplus (Qint 0) l.

(* ================================================================== *)
(** * Budgets of collaborator calls *)
(* ================================================================== *)

(** [within b m]: from any state, [m] only appends calls, and it
    appends at most [b s] calls of each stage [s]. *)
Definition within {W A : Type} (b : Stage -> nat) (m : M (St W) A) : Prop :=
  forall st, exists l,
    calls (snd (m st)) = calls st ++ l /\ forall s, count_calls s l <= b s.

(** At most [n] calls, all of stage [s0]. *)
Definition only (s0 : Stage) (n : nat) : Stage -> nat :=
  fun s => if Stage_eqb s s0 then n else 0.

Definition no_calls : Stage -> nat := fun _ => 0.

Definition plus_budget (b1 b2 : Stage -> nat) : Stage -> nat :=
  fun s => b1 s + b2 s.

(** What one call of [process_event] may spend. *)
Definition request_budget (s : Stage) : nat :=
  match s with
  | Validating => 2
  | RateLimiting => 1
  | Provisioning => 3
  | Ingesting => 1
  | SessionCaching => 1
  | Scoring => 3
  | AggregatingMetrics => 1
  | Reading => 0
  | Storing => 0
  end.

(* ================================================================== *)
(** * The cluster insights of [ClusteringService] *)
(* ================================================================== *)

Module ClusterInsights.
Section Methods.
Context {W : Type} (E : Env W).

(** [_load_cluster_data]: the query is not written yet, both branches
    return the empty list. *)
Definition _load_cluster_data (api_key : string) (cluster_id : pyval) : M W pyval :=
  try_except (ret (VList [])) (fun _ => ret (VList [])).

(** The entry built for one cluster in the loop of
    [get_cluster_insights]. *)
Definition cluster_insight (cluster : pyval) : M W pyval :=
  cid <- lift_sum (py_getitem cluster "cluster_id") ;;
  size <- lift_sum (py_get cluster "size" (VInt 0)) ;;
  characteristics <- lift_sum (py_get cluster "characteristics" (VDict [])) ;;
  patterns <- lift_sum (py_get cluster "behavior_patterns" (VDict [])) ;;
  profile <- lift_sum (py_get cluster "intent_profile" (VDict [])) ;;
  rate <- lift_sum (py_get cluster "outlier_rate" (VInt 0)) ;;
  updated <- lift_sum (py_get cluster "last_updated" (VStr "")) ;;
  ret (VDict (dict_of [("cluster_id", cid); ("size", size);
                       ("characteristics", characteristics);
                       ("behavior_patterns", patterns);
                       ("intent_profile", profile);
                       ("outlier_rate", rate);
                       ("last_updated", updated)])).

(** [for cluster in clusters: insights.append(...)] *)
Fixpoint cluster_insights (clusters : list pyval) : M W (list pyval) :=
  match clusters with
  | [] => ret []
  | cluster :: rest =>
      insight <- cluster_insight cluster ;;
      insights <- cluster_insights rest ;;
      ret (insight :: insights)
  end.

(** A truthy value that is not a list ends the loop with a
    [TypeError]: it cannot be iterated, or its elements (the keys of a
    dict, the characters of a text) cannot be indexed by a text. *)
Definition get_cluster_insights (api_key : string) (cluster_id : pyval) : M W pyval :=
  try_except
    (clusters <- _load_cluster_data api_key cluster_id ;;
     if negb (py_truthy clusters) then
       ret (VDict (dict_of [("status", VStr "no_data"); ("clusters", VList [])]))
     else
       match clusters with
       | VList l =>
           insights <- cluster_insights l ;;
           fun w =>
             let (t, w') := utcnow E w in
             (inr (VDict (dict_of
                     [("status", VStr "success");
                      ("api_key", VStr api_key);
                      ("total_clusters", VInt (Z.of_nat (List.length insights)));
                      ("clusters", VList insights);
                      ("generated_at", VStr (isoformat E t))])), w')
       | _ => raise TypeError
       end)
    (fun e => ret (VDict (dict_of [("status", VStr "error");
                                   ("error", VStr (exn_msg e))]))).

(** The clustering service as the dashboard sees it: [predict_cluster]
    is left to the caller, [get_cluster_insights] is the method above,
    called with its default [cluster_id=None]. *)
Definition service (predict : string -> pyval -> pyval -> M W pyval)
    : ClusteringServiceT W :=
  mkClusteringService W predict (fun api_key => get_cluster_insights api_key VNone).
End Methods.
End ClusterInsights.

(* ================================================================== *)
(** * The feature extraction of [FeatureEngineeringService] *)
(* ================================================================== *)

Module FeatureExtraction.

(** The calls the feature service makes on its three tables. *)
Inductive FeatureCall : Type :=
| EventsQuery (table pk start_time end_time : string)
| SessionsQuery (table pk : string)
| FeaturePut (table : string) (item : dict).

(** The five [_extract_..._features] methods: computations on the
    events (and sessions) fetched, without I/O; each returns a dict or
    raises. *)
Record Extractors : Type := mkExtractors {
  behavioral_features : pyval -> exn + dict;
  session_features : pyval -> pyval -> exn + dict;
  temporal_features : pyval -> exn + dict;
  engagement_features : pyval -> exn + dict;
  intent_features : pyval -> exn + dict
}.

Section Methods.
Context {W : Type} (E : Env W).
(** [events_table.query] on a partition key and a range of sort keys *)
Variable events_between : string -> string -> string -> string -> M W dict.
Variable X : Extractors.
Variables events_table_name sessions_table_name feature_store_table_name : string.

(** The state of a call of the service: the world and its calls so
    far. *)
Definition FS : Type := (W * list FeatureCall)%type.

Definition call {A : Type} (c : FeatureCall) (op : M W A) : M FS A :=
  fun s =>
    let (r, w) := op (fst s) in
    (r, (w, snd s ++ [c])).

Definition clock : M FS Z :=
  fun s =>
    let (t, w) := utcnow E (fst s) in
    (inr t, (w, snd s)).

Definition microseconds_per_hour : Z := 3600000000.

Definition _get_time_window_start (end_time : Z) (window : string) : Z :=
  if String.eqb window "1h" then end_time - 1 * microseconds_per_hour
  else if String.eqb window "6h" then end_time - 6 * microseconds_per_hour
  else if String.eqb window "24h" then end_time - 24 * microseconds_per_hour
  else if String.eqb window "7d" then end_time - 7 * microseconds_per_day
  else if String.eqb window "30d" then end_time - 30 * microseconds_per_day
  else end_time - 24 * microseconds_per_hour.

(** [f"{api_key}#{anon_id}"] *)
Definition user_key (api_key : string) (anon_id : pyval) : string :=
  (api_key ++ "#" ++ fmt E anon_id)%string.

Definition _get_user_events (api_key : string) (anon_id : pyval) (time_window : string)
    : M FS pyval :=
  try_except
    (end_time <- clock ;;
     let start_time := _get_time_window_start end_time time_window in
     let pk := user_key api_key anon_id in
     response <- call (EventsQuery events_table_name pk
                         (isoformat E start_time) (isoformat E end_time))
                      (events_between events_table_name pk
                         (isoformat E start_time) (isoformat E end_time)) ;;
     ret (dict_get response "Items" (VList [])))
    (fun _ => ret (VList [])).

Definition _get_user_sessions (api_key : string) (anon_id : pyval) (time_window : string)
    : M FS pyval :=
  try_except
    (let pk := user_key api_key anon_id in
     response <- call (SessionsQuery sessions_table_name pk)
                      (query E sessions_table_name pk None) ;;
     ret (dict_get response "Items" (VList [])))
    (fun _ => ret (VList [])).

Definition _store_features (api_key : string) (anon_id : pyval) (features : dict)
    : M FS unit :=
  try_except
    (let pk := user_key api_key anon_id in
     t_sk <- clock ;;
     t_ttl <- clock ;;
     let gsi1pk := (api_key ++ "#features")%string in
     t_gsi <- clock ;;
     t_item <- clock ;;
     let item :=
       dict_of [("pk", VStr pk);
                ("sk", VStr ("features#" ++ isoformat E t_sk)%string);
                ("gsi1pk", VStr gsi1pk);
                ("gsi1sk", VStr (isoformat E t_gsi));
                ("ttl", VInt (unix_seconds (t_ttl + 30 * microseconds_per_day)));
                ("features", VDict features);
                ("feature_version", VStr "1.0");
                ("extraction_timestamp", VStr (isoformat E t_item))] in
     call (FeaturePut feature_store_table_name item)
          (put_item E feature_store_table_name item))
    (fun _ => ret tt).

Definition extract_features (api_key : string) (anon_id : pyval) (time_window : string)
    : M FS pyval :=
  try_except
    (events <- _get_user_events api_key anon_id time_window ;;
     sessions <- _get_user_sessions api_key anon_id time_window ;;
     if negb (py_truthy events) then ret (VDict [])
     else
       behavioral <- lift_sum (behavioral_features X events) ;;
       session <- lift_sum (session_features X sessions events) ;;
       temporal <- lift_sum (temporal_features X events) ;;
       engagement <- lift_sum (engagement_features X events) ;;
       intent <- lift_sum (intent_features X events) ;;
       t <- clock ;;
       event_count <- lift_sum (py_len events) ;;
       let features :=
         dict_update
           (dict_update
              (dict_update
                 (dict_update
                    (dict_update
                       (dict_of [("anon_id", anon_id);
                                 ("api_key", VStr api_key);
                                 ("extraction_time", VStr (isoformat E t));
                                 ("time_window", VStr time_window);
                                 ("event_count", VInt (Z.of_nat event_count))])
                       behavioral)
                    session)
                 temporal)
              engagement)
           intent in
       _store_features api_key anon_id features ;;
       ret (VDict features))
    (fun _ => ret (VDict [])).

(** The service as [UnifiedAPIService] holds it: each call starts with
    an empty list of calls of its own. *)
Definition service : FeatureService W :=
  mkFeatureService W
    (fun api_key anon_id time_window w =>
       let (r, s) := extract_features api_key anon_id time_window (w, []) in
       (r, fst s)).
End Methods.

(** The feature service [UnifiedAPIService.__init__] constructs, on the
    events, sessions and feature-store tables of its environment. *)
Definition of_environment {W : Type} (E : Env W)
    (events_between : string -> string -> string -> string -> M W dict)
    (X : Extractors) (environment : string) : FeatureService W :=
  service E events_between X
    ("anon-intent-sdk-events-" ++ environment)%string
    ("anon-intent-sdk-sessions-" ++ environment)%string
    ("anon-intent-sdk-feature-store-" ++ environment)%string.
End FeatureExtraction.

(* ================================================================== *)
(** * The Lambda entry point *)
(* ================================================================== *)

(** [dataclasses.asdict] of an [EventProcessingResult] *)
Definition asdict_result (r : EventProcessingResult) : dict :=
  dict_of [("success", VBool (success r));
           ("anon_id", anon_id r);
           ("session_id", session_id r);
           ("features_extracted", features_extracted r);
           ("cluster_assignment", cluster_assignment r);
           ("intent_scores", intent_scores r);
           ("real_time_metrics", real_time_metrics r);
           ("processing_time_ms", processing_time_ms r);
           ("error", match error r with Some msg => VStr msg | None => VNone end)].

(** The mapping [lambda_handler] returns; [response_body] is the value
    that was given to [json.dumps]. *)
Record Response : Type := mkResponse {
  response_status : Z;
  response_body : pyval
}.

(** The service object the handler builds and the three methods it
    calls on it.  The handler passes on whatever the request carried, so
    the methods take arbitrary values. *)
Record Service (W : Type) : Type := mkService {
  (** [UnifiedAPIService(environment=..., aws_region=...)] *)
  construct : M (St W) unit;
  service_process_event : pyval -> pyval -> M (St W) EventProcessingResult;
  service_get_user_insights : pyval -> pyval -> M (St W) pyval;
  service_get_real_time_dashboard : pyval -> M (St W) pyval
}.
Arguments construct {W} _. Arguments service_process_event {W} _.
Arguments service_get_user_insights {W} _.
Arguments service_get_real_time_dashboard {W} _.

Section Handler.
Context {W : Type}.
Variable E : Env W.

(** [{'statusCode': code, 'body': json.dumps(payload)}] *)
Definition respond (code : Z) (payload : pyval) : M (St W) Response :=
  json_dumps payload ;;
  ret (mkResponse code payload).

(** [event.get('headers', {}).get('x-api-key')] *)
Definition header_api_key (event : pyval) : M (St W) pyval :=
  headers <- lift_sum (py_get event "headers" (VDict [])) ;;
  lift_sum (py_get headers "x-api-key" VNone).

Definition lambda_handler (service : Service W) (event : pyval) : M (St W) Response :=
  try_except
    (construct service ;;
     path <- lift_sum (py_get event "path" (VStr "/")) ;;
     method <- lift_sum (py_get event "httpMethod" (VStr "GET")) ;;
     if py_eq path (VStr "/v1/events") && py_eq method (VStr "POST") then
       raw <- lift_sum (py_get event "body" (VStr "{}")) ;;
       body <- py_json_loads E raw ;;
       api_key <- header_api_key event ;;
       if negb (py_truthy api_key) then
         respond 401 (error_dict "API key required")
       else
         result <- service_process_event service api_key body ;;
         respond (if success result then 200 else 400) (VDict (asdict_result result))
     else if py_eq path (VStr "/v1/insights") && py_eq method (VStr "GET") then
       api_key <- header_api_key event ;;
       query_string <- lift_sum (py_get event "queryStringParameters" (VDict [])) ;;
       anon_id <- lift_sum (py_get query_string "anon_id" VNone) ;;
       if negb (py_truthy api_key && py_truthy anon_id) then
         respond 400 (error_dict "API key and anon_id required")
       else
         result <- service_get_user_insights service api_key anon_id ;;
         respond 200 result
     else if py_eq path (VStr "/v1/dashboard") && py_eq method (VStr "GET") then
       api_key <- header_api_key event ;;
       if negb (py_truthy api_key) then
         respond 401 (error_dict "API key required")
       else
         result <- service_get_real_time_dashboard service api_key ;;
         respond 200 result
     else
       respond 404 (error_dict "Not found"))
    (fun e => respond 500 (error_dict (exn_msg e))).

(** A service object whose methods are the embedded ones whenever the
    key (and the anonymous id) is a text and the event a mapping; the
    time windows are the defaults of the two read methods. *)
Definition runs_the_embedded_methods (service : Service W) (environment : string)
    (feature_service : FeatureService W) (clustering_service : ClusteringServiceT W)
    (intent_service : IntentService W) : Prop :=
  (forall key event_data,
      service_process_event service (VStr key) (VDict event_data) =
      process_event E environment feature_service clustering_service intent_service
        key event_data) /\
  (forall key anon,
      service_get_user_insights service (VStr key) (VStr anon) =
      get_user_insights E environment feature_service key anon "7d") /\
  (forall key,
      service_get_real_time_dashboard service (VStr key) =
      get_real_time_dashboard E environment clustering_service intent_service key "1h").
End Handler.

(** [yields Q m]: whenever [m] returns, what it returns satisfies [Q]. *)
Definition yields {S A : Type} (Q : A -> Prop) (m : M S A) : Prop :=
  forall s a s', m s = (inr a, s') -> Q a.

(** The status codes [lambda_handler] answers with. *)
Definition handler_codes : list Z := [200; 400; 401; 404; 500]%Z.

(** A response whose body [json.dumps] accepted and whose status is one
    of the handler's. *)
Definition well_formed_response (r : Response) : Prop :=
  In (response_status r) handler_codes /\ json_serializable (response_body r) = true.

(** [stateless m]: [m] returns or raises without touching the state. *)
Definition stateless {S A : Type} (m : M S A) : Prop :=
  forall s, snd (m s) = s.

(* ================================================================== *)
(** * More scripted requests *)
(* ================================================================== *)

(** The scripted world of [Demo] with a few more JSON documents, a
    service object for the handler and some API Gateway events. *)
Module Replay.
Import Demo.

(** The counters of [Demo.event], as one metrics update sends them. *)
Definition event_counters : dict :=
  [("total_events", VInt 1); ("unique_sessions", VInt 1); ("unique_users", VInt 1);
   ("platform_web", VInt 1); ("event_page_view", VInt 1)].

(** The cache function handing those counters back. *)
Definition counters_reply : string :=
  json_text (wrap (VDict [("metrics", VDict event_counters)])).

(** The body of a POST to the events route. *)
Definition request_body : string := json_text (VDict event).

Definition documents : list pyval :=
  Demo.documents ++
  [VDict [("metrics", VDict event_counters)];
   wrap (VDict [("metrics", VDict event_counters)]);
   VDict event].

Definition loads (s : string) : option pyval :=
  find (fun v => String.eqb (json_text v) s) documents.

Definition env (s : Script) : Env Z :=
  mkEnv Z
    (utcnow (Demo.env s)) (uuid4 (Demo.env s)) (md5_hexdigest (Demo.env s))
    (isoformat (Demo.env s)) loads (str_other (Demo.env s))
    (lambda_invoke (Demo.env s)) (get_item (Demo.env s)) (put_item (Demo.env s))
    (query (Demo.env s)) (put_record (Demo.env s)).

(** The healthy deployment whose cache function answers [get_metrics]
    with the counters of one event. *)
Definition after_one_event : Script :=
  mkScript (inr miss_reply) (inr counters_reply) (inr "{}")
           (inr [("Item", VDict (tenant_item "active" 100))])
           (inr tt) (inr [("Items", VList [])]) (inr [("SequenceNumber", VStr "1")]).

(** Every query answers with three session records: durations 30 and
    12.5 seconds, and one record without a duration. *)
Definition three_sessions : list pyval :=
  [VDict [("pk", VStr "ak_test#anon-demo-user"); ("gsi1sk", VInt 30)];
   VDict [("pk", VStr "ak_test#anon-demo-user"); ("gsi1sk", VFloat (Qmake 25 2))];
   VDict [("pk", VStr "ak_test#anon-demo-user"); ("gsi1sk", VStr "n/a")]].

Definition with_sessions : Script :=
  mkScript (inr miss_reply) (inr (count_reply 1)) (inr "{}")
           (inr [("Item", VDict (tenant_item "active" 100))])
           (inr tt) (inr [("Items", VList three_sessions)])
           (inr [("SequenceNumber", VStr "1")]).

(** Every query answers with one record; every query fails. *)
Definition with_a_model : Script :=
  mkScript (inr miss_reply) (inr (count_reply 1)) (inr "{}")
           (inr [("Item", VDict (tenant_item "trial" 100))])
           (inr tt) (inr [("Items", VList [VDict [("pk", VStr "ak_test#model")]])])
           (inr [("SequenceNumber", VStr "1")]).

Definition without_model_table : Script :=
  mkScript (inr miss_reply) (inr (count_reply 1)) (inr "{}")
           (inr [("Item", VDict (tenant_item "trial" 100))])
           (inr tt) (inl (boom "table down")) (inr [("SequenceNumber", VStr "1")]).

(** The item [create_api_key] writes for customer 'c1' on the 'pro'
    plan, and a deployment whose key table serves it. *)
Definition created_item : dict :=
  match calls (snd (create_api_key (env (healthy "active" 100 1)) "test" "c1" "pro" VNone
                      start)) with
  | PutItem _ item :: _ => item
  | _ => []
  end.

Definition serving_created_item : Script :=
  mkScript (inr miss_reply) (inr (count_reply 1)) (inr "{}")
           (inr [("Item", VDict created_item)])
           (inr tt) (inr [("Items", VList [])]) (inr [("SequenceNumber", VStr "1")]).

(** A service object over the scripted world: the embedded methods on
    a text key and a mapping; on anything else (which no statement here
    uses) it raises. *)
Definition service (s : Script) : Service Z :=
  mkService Z
    (ret tt)
    (fun key body =>
       match key, body with
       | VStr k, VDict d =>
           process_event (env s) "test" (feature_service_of (inr some_features))
             (clustering_service_of (inr some_cluster))
             (intent_service_of s (inr some_scores)) k d
       | _, _ => raise TypeError
       end)
    (fun key anon =>
       match key, anon with
       | VStr k, VStr a =>
           get_user_insights (env s) "test" (feature_service_of (inr some_features)) k a "7d"
       | _, _ => raise TypeError
       end)
    (fun key =>
       match key with
       | VStr k =>
           get_real_time_dashboard (env s) "test"
             (clustering_service_of (inr some_cluster))
             (intent_service_of s (inr some_scores)) k "1h"
       | _ => raise TypeError
       end).

(** API Gateway proxy events. *)
Definition post_event (headers : dict) (body : pyval) : dict :=
  [("path", VStr "/v1/events"); ("httpMethod", VStr "POST");
   ("headers", VDict headers); ("body", body)].

Definition get_insights (headers : dict) (query_string : pyval) : dict :=
  [("path", VStr "/v1/insights"); ("httpMethod", VStr "GET");
   ("headers", VDict headers); ("queryStringParameters", query_string)].

Definition get_dashboard (headers : dict) : dict :=
  [("path", VStr "/v1/dashboard"); ("httpMethod", VStr "GET");
   ("headers", VDict headers); ("queryStringParameters", VNone)].

Definition with_key (key : string) : dict := [("x-api-key", VStr key)].

(** An events table without records, and extractors that find nothing
    to report. *)
Definition no_events : string -> string -> string -> string -> M Z dict :=
  fun _ _ _ _ w => (inr [("Items", VList [])], w).

Definition extractors : FeatureExtraction.Extractors :=
  FeatureExtraction.mkExtractors
    (fun _ => inr []) (fun _ _ => inr []) (fun _ => inr []) (fun _ => inr [])
    (fun _ => inr []).
End Replay.

(* ================================================================== *)
(** * Reasoning about computations *)
(* ================================================================== *)

(** ** String helpers on sample texts *)

Example str_remove_uuid :
  str_remove "-" "123e4567-e89b-12d3" = "123e4567e89b12d3".
Proof. reflexivity. Qed.

Example str_remove_platform :
  str_remove "platform_" "platform_web" = "web".
Proof. reflexivity. Qed.

Example str_last_6 : str_last 6 "1730851200" = "851200".
Proof. reflexivity. Qed.

Section MonadFacts.
Context {S A B : Type}.

Lemma bind_inr (m : M S A) (k : A -> M S B) s a s' :
  m s = (inr a, s') -> bind m k s = k a s'.
Proof. intros H. unfold bind. now rewrite H. Qed.

Lemma bind_inl (m : M S A) (k : A -> M S B) s e s' :
  m s = (inl e, s') -> bind m k s = (inl e, s').
Proof. intros H. unfold bind. now rewrite H. Qed.

Lemma try_except_inr (m : M S A) (h : exn -> M S A) s a s' :
  m s = (inr a, s') -> try_except m h s = (inr a, s').
Proof. intros H. unfold try_except. now rewrite H. Qed.

Lemma try_except_inl (m : M S A) (h : exn -> M S A) s e s' :
  m s = (inl e, s') -> try_except m h s = h e s'.
Proof. intros H. unfold try_except. now rewrite H. Qed.
End MonadFacts.


Lemma total_ret {S A : Type} (a : A) : total (@ret S A a).
Proof. intros s. now exists a, s. Qed.

Lemma total_bind {S A B : Type} (m : M S A) (k : A -> M S B) :
  total m -> (forall a, total (k a)) -> total (bind m k).
Proof.
  intros Hm Hk s. destruct (Hm s) as (a & s' & H).
  destruct (Hk a s') as (b & s'' & H'). exists b, s''.
  now rewrite (bind_inr _ _ _ _ _ H).
Qed.

(** A handler that returns makes the whole [try] statement return. *)
Lemma total_try_except {S A : Type} (m : M S A) (h : exn -> M S A) :
  (forall e, total (h e)) -> total (try_except m h).
Proof.
  intros Hh s. unfold try_except.
  destruct (m s) as [[e | a] s'].
  - apply Hh.
  - now exists a, s'.
Qed.

Lemma total_swallow {S A : Type} (m : M S A) (d : A) :
  total (try_except m (fun _ => ret d)).
Proof. apply total_try_except. intros _. apply total_ret. Qed.

Lemma total_quiet {W A : Type} (op : W -> A * W) : total (quiet op).
Proof.
  intros st. unfold quiet. destruct (op (world st)) as [a w]. now eexists _, _.
Qed.

(** ** What a computation adds to the call log *)

Section LogFacts.
Context {W : Type}.
Variable P : Call -> Prop.

Lemma logs_ret {A} (a : A) : logs P (@ret (St W) A a).
Proof. intros st. exists []. simpl. now rewrite app_nil_r. Qed.

Lemma logs_raise {A} (e : exn) : logs P (@raise (St W) A e).
Proof. intros st. exists []. simpl. now rewrite app_nil_r. Qed.

Lemma logs_lift_sum {A} (r : exn + A) : logs P (@lift_sum (St W) A r).
Proof. intros st. exists []. simpl. now rewrite app_nil_r. Qed.

Lemma logs_result {A} (r : exn + A) : logs P (@result (St W) A r).
Proof. apply logs_lift_sum. Qed.

Lemma logs_quiet {A} (op : W -> A * W) : logs P (quiet op).
Proof.
  intros st. exists []. unfold quiet.
  destruct (op (world st)). simpl. now rewrite app_nil_r.
Qed.

Lemma logs_invoke {A} (c : Call) (op : M W A) : P c -> logs P (invoke c op).
Proof.
  intros Hc st. exists [c]. unfold invoke.
  destruct (op (world st)). simpl. split; [reflexivity | now constructor].
Qed.

Lemma logs_submit {A} (c : Call) (op : M W A) : P c -> logs P (submit c op).
Proof.
  intros Hc st. exists [c]. unfold submit.
  destruct (op (world st)). simpl. split; [reflexivity | now constructor].
Qed.

Lemma logs_note (c : Call) : P c -> logs P (@note W c).
Proof.
  intros Hc st. exists [c]. simpl. split; [reflexivity | now constructor].
Qed.

Lemma logs_bind {A B} (m : M (St W) A) (k : A -> M (St W) B) :
  logs P m -> (forall a, logs P (k a)) -> logs P (bind m k).
Proof.
  intros Hm Hk st. destruct (Hm st) as (l & Hl & HP). unfold bind.
  destruct (m st) as [[e | a] st']; simpl in *.
  - now exists l.
  - destruct (Hk a st') as (l' & Hl' & HP'). exists (l ++ l'). split.
    + now rewrite Hl', Hl, app_assoc.
    + now apply Forall_app.
Qed.

Lemma logs_try_except {A} (m : M (St W) A) (h : exn -> M (St W) A) :
  logs P m -> (forall e, logs P (h e)) -> logs P (try_except m h).
Proof.
  intros Hm Hh st. destruct (Hm st) as (l & Hl & HP). unfold try_except.
  destruct (m st) as [[e | a] st']; simpl in *.
  - destruct (Hh e st') as (l' & Hl' & HP'). exists (l ++ l'). split.
    + now rewrite Hl', Hl, app_assoc.
    + now apply Forall_app.
  - now exists l.
Qed.

Lemma logs_swallow {A} (m : M (St W) A) (d : A) :
  logs P m -> logs P (try_except m (fun _ => ret d)).
Proof. intros Hm. apply logs_try_except; [exact Hm | intros _; apply logs_ret]. Qed.
End LogFacts.


(** Structural steps shared by the [logs] proofs. *)
Ltac logs_step :=
  match goal with
  | |- logs _ (bind _ _) => apply logs_bind; [| intros ?]
  | |- logs _ (try_except _ _) => apply logs_try_except; [| intros ?]
  | |- logs _ (ret _) => apply logs_ret
  | |- logs _ (raise _) => apply logs_raise
  | |- logs _ (lift_sum _) => apply logs_lift_sum
  | |- logs _ (result _) => apply logs_result
  | |- logs _ (quiet _) => apply logs_quiet
  | |- logs _ (if ?b then _ else _) => destruct b
  | |- logs _ (match ?x with _ => _ end) => destruct x
  end.



(* ================================================================== *)
(** * Properties of the service *)
(* ================================================================== *)

Section Properties.
Context {W : Type}.
Variable E : Env W.
Variable environment : string.
Variable feature_service : FeatureService W.
Variable clustering_service : ClusteringServiceT W.
Variable intent_service : IntentService W.

Local Abbreviation datetime_utcnow := (datetime_utcnow E).
Local Abbreviation json_dumps := (@json_dumps W).
Local Abbreviation py_json_loads := (py_json_loads E).
Local Abbreviation cache_function_name := (cache_function_name environment).
Local Abbreviation _invoke_cache_function := (_invoke_cache_function E environment).
Local Abbreviation _validate_api_key_async := (_validate_api_key_async E environment).
Local Abbreviation _check_rate_limit := (_check_rate_limit E environment).
Local Abbreviation _check_existing_models := (_check_existing_models E environment).
Local Abbreviation _auto_provision_models := (_auto_provision_models E environment).
Local Abbreviation _ingest_event_to_stream := (_ingest_event_to_stream E environment).
Local Abbreviation _cache_session_data := (_cache_session_data E environment).
Local Abbreviation _process_with_ml_pipeline :=
  (_process_with_ml_pipeline feature_service clustering_service intent_service).
Local Abbreviation _update_real_time_metrics := (_update_real_time_metrics E environment).
Local Abbreviation process_event :=
  (process_event E environment feature_service clustering_service intent_service).
Local Abbreviation process_event_except := (process_event_except E).

Ltac logs_auto :=
  repeat first
    [ logs_step
    | apply logs_invoke; reflexivity
    | apply logs_submit; reflexivity
    | apply logs_note; reflexivity ].

(** ** The clock *)

Lemma now_run (st : St W) :
  datetime_utcnow st = (inr (fst (utcnow E (world st))),
            mkSt (snd (utcnow E (world st))) (calls st)).
Proof. unfold datetime_utcnow, quiet. now destruct (utcnow E (world st)). Qed.

Lemma now_total : total datetime_utcnow.
Proof. apply total_quiet. Qed.

Lemma now_calls (st st' : St W) (t : Z) : datetime_utcnow st = (inr t, st') -> calls st' = calls st.
Proof. rewrite now_run. intros H. now inversion H. Qed.

(** ** The cache function *)

Lemma logs_json_dumps (P : Call -> Prop) (v : pyval) : logs P (json_dumps v).
Proof. unfold json_dumps. logs_auto. Qed.

Lemma logs_py_json_loads (P : Call -> Prop) (v : pyval) : logs P (py_json_loads v).
Proof. unfold py_json_loads. logs_auto. Qed.

Lemma _invoke_cache_function_total (op : string) (payload : dict) :
  total (_invoke_cache_function op payload).
Proof. apply total_swallow. Qed.

(** The cache function is reached at most through one Lambda call,
    carrying the operation. *)
Lemma _invoke_cache_function_logs (P : Call -> Prop) (op : string) (payload : dict) :
  P (LambdaInvoke cache_function_name
       (dict_update (dict_of [("operation", VStr op)]) payload)) ->
  logs P (_invoke_cache_function op payload).
Proof.
  intros HP. unfold _invoke_cache_function.
  apply logs_swallow. apply logs_bind; [apply logs_json_dumps | intros _].
  apply logs_bind; [now apply logs_invoke | intros raw].
  apply logs_bind; [apply logs_py_json_loads | intros res].
  apply logs_bind; [apply logs_lift_sum | intros body].
  destruct (py_truthy body); [| apply logs_ret].
  apply logs_bind; [apply logs_lift_sum | intros body']. apply logs_py_json_loads.
Qed.

(** ** Validation *)

Lemma _validate_api_key_async_total (key : string) :
  total (_validate_api_key_async key).
Proof. apply total_swallow. Qed.

Lemma _validate_api_key_async_logs (key : string) :
  logs (in_stage Validating) (_validate_api_key_async key).
Proof.
  unfold _validate_api_key_async.
  apply logs_swallow.
  apply logs_bind; [apply _invoke_cache_function_logs; reflexivity | intros cached_result].
  apply logs_bind; [apply logs_lift_sum | intros cached].
  destruct (py_truthy cached).
  - logs_auto.
  - apply logs_bind; [apply logs_invoke; reflexivity | intros response].
    destruct (dict_lookup "Item" response); [| apply logs_ret].
    repeat (apply logs_bind; [apply logs_lift_sum | intros ?]).
    apply logs_bind; [apply _invoke_cache_function_logs; reflexivity | intros _].
    apply logs_ret.
Qed.

(** ** Rate limiting *)

Lemma _check_rate_limit_total (key : string) (limit : pyval) :
  total (_check_rate_limit key limit).
Proof. apply total_swallow. Qed.

Lemma _check_rate_limit_logs (key : string) (limit : pyval) :
  logs (in_stage RateLimiting) (_check_rate_limit key limit).
Proof.
  unfold _check_rate_limit.
  apply logs_swallow.
  apply logs_bind; [apply logs_quiet | intros _].
  apply logs_bind; [apply _invoke_cache_function_logs; reflexivity | intros reply].
  apply logs_bind; [apply logs_lift_sum | intros code].
  destruct (py_eq code (VInt 200)); [| apply logs_ret].
  apply logs_bind; [apply logs_lift_sum | intros body].
  apply logs_bind; [apply logs_py_json_loads | intros parsed].
  logs_auto.
Qed.

(** ** Provisioning *)

Lemma _auto_provision_models_total (key : string) :
  total (_auto_provision_models key).
Proof. apply total_swallow. Qed.

Lemma _auto_provision_models_logs (key : string) :
  logs (in_stage Provisioning) (_auto_provision_models key).
Proof.
  unfold _auto_provision_models,
    _check_existing_models,
    _provision_clustering_models,
    _provision_intent_models.
  logs_auto.
Qed.

(** ** Ingestion and session caching *)

Lemma _ingest_event_to_stream_total (key : string) (ev : dict) :
  total (_ingest_event_to_stream key ev).
Proof. apply total_swallow. Qed.

Lemma _ingest_event_to_stream_logs (key : string) (ev : dict) :
  logs (in_stage Ingesting) (_ingest_event_to_stream key ev).
Proof.
  unfold _ingest_event_to_stream.
  apply logs_swallow.
  apply logs_bind; [apply logs_quiet | intros t].
  apply logs_bind; [apply logs_quiet | intros fresh].
  apply logs_bind; [apply logs_json_dumps | intros _].
  logs_auto.
Qed.

Lemma _cache_session_data_total (key : string) (ev : dict) :
  total (_cache_session_data key ev).
Proof. apply total_swallow. Qed.

Lemma _cache_session_data_logs (key : string) (ev : dict) :
  logs (in_stage SessionCaching) (_cache_session_data key ev).
Proof.
  unfold _cache_session_data.
  apply logs_swallow.
  apply logs_bind; [apply logs_quiet | intros t].
  apply logs_bind; [apply _invoke_cache_function_logs; reflexivity | intros _].
  apply logs_ret.
Qed.

(** ** Scoring *)

Lemma _process_with_ml_pipeline_total (key : string) (ev : dict) :
  total (_process_with_ml_pipeline key ev).
Proof. apply total_swallow. Qed.

Lemma _process_with_ml_pipeline_logs (key : string) (ev : dict) :
  logs (in_stage Scoring) (_process_with_ml_pipeline key ev).
Proof. unfold _process_with_ml_pipeline. logs_auto. Qed.

(** ** Metrics *)

Lemma _update_real_time_metrics_total (key : string) (ev ml : dict) :
  total (_update_real_time_metrics key ev ml).
Proof. apply total_swallow. Qed.

Lemma _update_real_time_metrics_logs (key : string) (ev ml : dict) :
  logs (in_stage AggregatingMetrics) (_update_real_time_metrics key ev ml).
Proof.
  unfold _update_real_time_metrics.
  apply logs_swallow.
  repeat (apply logs_bind; [apply logs_lift_sum | intros ?]).
  apply logs_bind; [logs_auto | intros m1].
  apply logs_bind; [logs_auto | intros m2].
  apply logs_bind; [apply _invoke_cache_function_logs; reflexivity | intros _].
  apply logs_ret.
Qed.

(** ** The orchestrator *)

Lemma py_eq_status (v : pyval) (s : APIKeyStatus) :
  py_eq v (VStatus s) = true <-> v = VStatus s.
Proof.
  split.
  - destruct v as [| b | z | q | t | l | d | t]; simpl; try discriminate.
    destruct t, s; simpl; congruence.
  - intros ->. destruct s; reflexivity.
Qed.

Lemma status_accepted_iff (v : pyval) :
  status_accepted v = true <-> v = VStatus ACTIVE \/ v = VStatus TRIAL.
Proof.
  unfold status_accepted. rewrite orb_true_iff, !py_eq_status. tauto.
Qed.

(** The outcome of a request is settled by validation alone when the
    key is unknown or its status is not accepted. *)
Lemma process_event_rejected_key key ev st t0 st0 v st1 :
  datetime_utcnow st = (inr t0, st0) ->
  _validate_api_key_async key st0 = (inr v, st1) ->
  (v = None \/ exists info, v = Some info /\ status_accepted (status info) = false) ->
  process_event key ev st =
    (inr (rejected ev "Invalid or inactive API key"), st1).
Proof.
  intros Hn Hv Hbad. unfold process_event.
  rewrite (bind_inr _ _ _ _ _ Hn).
  apply try_except_inr.
  rewrite (bind_inr _ _ _ _ _ Hv).
  destruct Hbad as [-> | (info & -> & Hs)]; [reflexivity |].
  now rewrite Hs.
Qed.

Lemma process_event_rate_limited key ev st t0 st0 info st1 st2 :
  datetime_utcnow st = (inr t0, st0) ->
  _validate_api_key_async key st0 = (inr (Some info), st1) ->
  status_accepted (status info) = true ->
  _check_rate_limit key (rate_limit info) st1 = (inr false, st2) ->
  process_event key ev st = (inr (rejected ev "Rate limit exceeded"), st2).
Proof.
  intros Hn Hv Hs Hc. unfold process_event.
  rewrite (bind_inr _ _ _ _ _ Hn).
  apply try_except_inr.
  rewrite (bind_inr _ _ _ _ _ Hv). cbv beta iota. rewrite Hs. cbn [negb].
  now rewrite (bind_inr _ _ _ _ _ Hc).
Qed.

Local Abbreviation provision_if_trial := (provision_if_trial E environment).

Lemma provision_if_trial_total info key : total (provision_if_trial info key).
Proof.
  unfold provision_if_trial. destruct (py_eq _ _);
    [apply _auto_provision_models_total | apply total_ret].
Qed.

(** The stages an accepted request runs through, and its result. *)
Lemma process_event_accepted key ev st t0 st0 info st1 st2 :
  datetime_utcnow st = (inr t0, st0) ->
  _validate_api_key_async key st0 = (inr (Some info), st1) ->
  status_accepted (status info) = true ->
  _check_rate_limit key (rate_limit info) st1 = (inr true, st2) ->
  exists st3 st4 st5 ml st6 metrics st7 t1 st8,
    provision_if_trial info key st2 = (inr tt, st3) /\
    _ingest_event_to_stream key ev st3 = (inr tt, st4) /\
    _cache_session_data key ev st4 = (inr tt, st5) /\
    _process_with_ml_pipeline key ev st5 = (inr ml, st6) /\
    _update_real_time_metrics key ev ml st6 = (inr metrics, st7) /\
    datetime_utcnow st7 = (inr t1, st8) /\
    process_event key ev st =
      (inr (mkResult true
              (dict_get ev "anonId" (VStr "unknown"))
              (dict_get ev "sessionId" (VStr "unknown"))
              (dict_get ml "features" (VDict []))
              (dict_get ml "cluster" (VDict []))
              (dict_get ml "intent_scores" (VDict []))
              metrics (elapsed_ms t0 t1) None), st8).
Proof.
  intros Hn Hv Hs Hc.
  destruct (provision_if_trial_total info key st2) as ([] & st3 & H3).
  destruct (_ingest_event_to_stream_total key ev st3) as ([] & st4 & H4).
  destruct (_cache_session_data_total key ev st4) as ([] & st5 & H5).
  destruct (_process_with_ml_pipeline_total key ev st5) as (ml & st6 & H6).
  destruct (_update_real_time_metrics_total key ev ml st6) as (metrics & st7 & H7).
  destruct (now_total st7) as (t1 & st8 & H8).
  exists st3, st4, st5, ml, st6, metrics, st7, t1, st8.
  repeat (split; [assumption |]).
  unfold process_event.
  rewrite (bind_inr _ _ _ _ _ Hn).
  apply try_except_inr.
  rewrite (bind_inr _ _ _ _ _ Hv). cbv beta iota. rewrite Hs. cbn [negb].
  rewrite (bind_inr _ _ _ _ _ Hc). cbv beta. cbn [negb].
  unfold provision_if_trial in H3.
  rewrite (bind_inr _ _ _ _ _ H3).
  rewrite (bind_inr _ _ _ _ _ H4).
  rewrite (bind_inr _ _ _ _ _ H5).
  rewrite (bind_inr _ _ _ _ _ H6).
  rewrite (bind_inr _ _ _ _ _ H7).
  rewrite (bind_inr _ _ _ _ _ H8).
  reflexivity.
Qed.

(** ** Call logs of whole requests *)

Lemma logs_run {A : Type} (P : Call -> Prop) (m : M (St W) A) st r st' :
  logs P m -> m st = (r, st') ->
  exists l, calls st' = calls st ++ l /\ Forall P l.
Proof. intros Hm H. specialize (Hm st). now rewrite H in Hm. Qed.

Lemma provision_if_trial_logs info key :
  logs (in_stage Provisioning) (provision_if_trial info key).
Proof.
  unfold provision_if_trial. destruct (py_eq _ _);
    [apply _auto_provision_models_logs | apply logs_ret].
Qed.

Lemma provision_if_trial_skipped info key st :
  status info <> VStatus TRIAL -> provision_if_trial info key st = (inr tt, st).
Proof.
  intros Hne. unfold provision_if_trial.
  destruct (py_eq (status info) (VStatus TRIAL)) eqn:Heq; [| reflexivity].
  now apply py_eq_status in Heq.
Qed.

(** A request that fails validation only talks to the validation
    collaborators. *)
Lemma rejected_key_calls key st t0 st0 v st1 :
  datetime_utcnow st = (inr t0, st0) ->
  _validate_api_key_async key st0 = (inr v, st1) ->
  exists l, calls st1 = calls st ++ l /\ Forall (in_stage Validating) l.
Proof.
  intros Hn Hv.
  destruct (logs_run _ _ _ _ _ (_validate_api_key_async_logs key) Hv) as (l & Hl & HP).
  exists l. split; [| exact HP]. now rewrite Hl, (now_calls _ _ _ Hn).
Qed.

Lemma decision_calls key limit st t0 st0 v st1 b st2 :
  datetime_utcnow st = (inr t0, st0) ->
  _validate_api_key_async key st0 = (inr v, st1) ->
  _check_rate_limit key limit st1 = (inr b, st2) ->
  exists l, calls st2 = calls st ++ l /\ Forall before_decision l.
Proof.
  intros Hn Hv Hc.
  destruct (rejected_key_calls _ _ _ _ _ _ Hn Hv) as (l1 & Hl1 & HP1).
  destruct (logs_run _ _ _ _ _ (_check_rate_limit_logs key limit) Hc) as (l2 & Hl2 & HP2).
  exists (l1 ++ l2). split.
  - now rewrite Hl2, Hl1, app_assoc.
  - apply Forall_app. split.
    + eapply Forall_impl; [| exact HP1]. unfold before_decision, in_stage. tauto.
    + eapply Forall_impl; [| exact HP2]. unfold before_decision, in_stage. tauto.
Qed.

(** The whole trace of an accepted request: the decision, then the
    provisioning step, then everything else. *)
Lemma process_event_accepted_trace key ev st t0 st0 info st1 st2 :
  datetime_utcnow st = (inr t0, st0) ->
  _validate_api_key_async key st0 = (inr (Some info), st1) ->
  status_accepted (status info) = true ->
  _check_rate_limit key (rate_limit info) st1 = (inr true, st2) ->
  exists r st3 st7 t1 st8 before prov ingest rest,
    process_event key ev st = (inr r, st8) /\
    success r = true /\ error r = None /\
    datetime_utcnow st7 = (inr t1, st8) /\
    processing_time_ms r = elapsed_ms t0 t1 /\
    provision_if_trial info key st2 = (inr tt, st3) /\
    calls st2 = calls st ++ before /\
    calls st3 = calls st2 ++ prov /\
    calls st8 = calls st3 ++ ingest ++ rest /\
    Forall before_decision before /\
    Forall (in_stage Provisioning) prov /\
    Forall (in_stage Ingesting) ingest /\
    Forall after_ingestion rest.
Proof.
  intros Hn Hv Hs Hc.
  destruct (process_event_accepted key ev _ _ _ _ _ _ Hn Hv Hs Hc)
    as (st3 & st4 & st5 & ml & st6 & metrics & st7 & t1 & st8 &
        H3 & H4 & H5 & H6 & H7 & H8 & Hrun).
  destruct (decision_calls _ _ _ _ _ _ _ _ _ Hn Hv Hc) as (before & Hb & HPb).
  destruct (logs_run _ _ _ _ _ (provision_if_trial_logs info key) H3) as (prov & Hp & HPp).
  destruct (logs_run _ _ _ _ _ (_ingest_event_to_stream_logs key ev) H4) as (l4 & Hl4 & HP4).
  destruct (logs_run _ _ _ _ _ (_cache_session_data_logs key ev) H5) as (l5 & Hl5 & HP5).
  destruct (logs_run _ _ _ _ _ (_process_with_ml_pipeline_logs key ev) H6) as (l6 & Hl6 & HP6).
  destruct (logs_run _ _ _ _ _ (_update_real_time_metrics_logs key ev ml) H7)
    as (l7 & Hl7 & HP7).
  eexists _, st3, st7, t1, st8, before, prov, l4, (l5 ++ l6 ++ l7).
  split; [exact Hrun |]. simpl.
  repeat (split; [first [reflexivity | assumption] |]).
  split.
  - rewrite (now_calls _ _ _ H8), Hl7, Hl6, Hl5, Hl4. now rewrite <- !app_assoc.
  - repeat (split; [assumption |]).
    apply Forall_app; split; [| apply Forall_app; split].
    + eapply Forall_impl; [| exact HP5]. unfold after_ingestion, in_stage. tauto.
    + eapply Forall_impl; [| exact HP6]. unfold after_ingestion, in_stage. tauto.
    + eapply Forall_impl; [| exact HP7]. unfold after_ingestion, in_stage. tauto.
Qed.

(** [process_event] returns a result from every state. *)
Lemma process_event_total key ev : total (process_event key ev).
Proof.
  intros st.
  destruct (now_total st) as (t0 & st0 & Hn).
  destruct (_validate_api_key_async_total key st0) as (v & st1 & Hv).
  destruct v as [info |].
  - destruct (status_accepted (status info)) eqn:Hs.
    + destruct (_check_rate_limit_total key (rate_limit info) st1) as (b & st2 & Hc).
      destruct b.
      * destruct (process_event_accepted_trace key ev _ _ _ _ _ _ Hn Hv Hs Hc)
          as (r & _ & _ & _ & st8 & _ & _ & _ & _ & Hrun & _).
        now exists r, st8.
      * eexists _, _. eapply process_event_rate_limited; eauto.
    + eexists _, _. eapply process_event_rejected_key; eauto.
  - eexists _, _. eapply process_event_rejected_key; eauto.
Qed.

Lemma count_calls_none (s : Stage) (l : list Call) :
  Forall (fun c => Stage_eqb (stage_of c) s = false) l -> count_calls s l = 0.
Proof.
  intros H. unfold count_calls. induction H as [| c l Hc _ IH]; [reflexivity |].
  simpl. now rewrite Hc.
Qed.

Lemma count_calls_in_stage (s s' : Stage) (l : list Call) :
  Forall (in_stage s) l -> Stage_eqb s s' = false -> count_calls s' l = 0.
Proof.
  intros H Hne. apply count_calls_none. eapply Forall_impl; [| exact H].
  intros c Hc. now rewrite Hc.
Qed.

Lemma count_calls_before_decision (s : Stage) (l : list Call) :
  Forall before_decision l ->
  Stage_eqb Validating s = false -> Stage_eqb RateLimiting s = false ->
  count_calls s l = 0.
Proof.
  intros H H1 H2. apply count_calls_none. eapply Forall_impl; [| exact H].
  intros c [Hc | Hc]; now rewrite Hc.
Qed.

Lemma count_calls_app (s : Stage) (l1 l2 : list Call) :
  count_calls s (l1 ++ l2) = count_calls s l1 + count_calls s l2.
Proof. unfold count_calls. now rewrite filter_app, length_app. Qed.

Lemma _auto_provision_models_run key st :
  exists st' tasks,
    _auto_provision_models key st = (inr tt, st') /\
    calls st' =
      calls st ++ Query (clusters_table environment) (key ++ "#model")%string (Some "2025")
               :: tasks /\
    (tasks = [] \/ tasks = [ProvisionClusteringModels key; ProvisionIntentModels key]).
Proof.
  unfold _auto_provision_models, _check_existing_models,
    _provision_clustering_models, _provision_intent_models,
    try_except, bind, invoke, note, lift_sum, ret.
  destruct (query E _ _ _ (world st)) as [[e | response] w]; simpl;
    [| destruct (py_len (dict_get response "Items" (VList []))) as [e | n]; simpl;
       [| destruct (Nat.ltb 0 n); simpl]];
    eexists _, _; (split; [reflexivity |]); simpl; rewrite <- ?app_assoc; simpl;
    (split; [reflexivity |]); auto.
Qed.

(** C2: when the key does not resolve to a record, or resolves to one
    whose status is not active or trial, [process_event] returns
    [success = false] with the reason 'Invalid or inactive API key',
    and the request has made no rate-limit read, no stream append, no
    scoring call and no metrics update (nor any provisioning or session
    caching call): each of these call counts is zero. *)
Theorem process_event_rejects_invalid_key key ev st t0 st0 v st1 :
  datetime_utcnow st = (inr t0, st0) ->
  _validate_api_key_async key st0 = (inr v, st1) ->
  (v = None \/ exists info, v = Some info /\ status_accepted (status info) = false) ->
  exists r l,
    process_event key ev st = (inr r, st1) /\
    success r = false /\
    error r = Some "Invalid or inactive API key" /\
    calls st1 = calls st ++ l /\
    count_calls RateLimiting l = 0 /\
    count_calls Ingesting l = 0 /\
    count_calls Scoring l = 0 /\
    count_calls AggregatingMetrics l = 0 /\
    count_calls Provisioning l = 0 /\
    count_calls SessionCaching l = 0.
Proof.
  intros Hn Hv Hbad.
  destruct (rejected_key_calls _ _ _ _ _ _ Hn Hv) as (l & Hl & HP).
  exists (rejected ev "Invalid or inactive API key"), l.
  split; [now apply (process_event_rejected_key key ev st t0 st0 v st1) |].
  repeat (split; [first [reflexivity | assumption
                        | now apply (count_calls_in_stage Validating)] |]).
  now apply (count_calls_in_stage Validating).
Qed.


(** C7, amended: an exception raised inside the ingestion, scoring or
    metrics stage never reaches the handler at the orchestrator
    boundary: each stage returns from every state, whatever its
    collaborators raise.  An accepted request therefore ends with
    [success = true], no error text and the elapsed processing time;
    and [process_event] returns a result, never an exception, from
    every state.  The handler itself turns an exception into a
    [success = false] result with the text of the exception, the elapsed
    processing time and empty enrichment fields. *)
Theorem stage_exceptions_stay_in_their_stage key ev st t0 st0 info st1 st2 :
  datetime_utcnow st = (inr t0, st0) ->
  _validate_api_key_async key st0 = (inr (Some info), st1) ->
  status_accepted (status info) = true ->
  _check_rate_limit key (rate_limit info) st1 = (inr true, st2) ->
  (exists r st7 t1 st',
      datetime_utcnow st7 = (inr t1, st') /\
      process_event key ev st = (inr r, st') /\
      success r = true /\ error r = None /\
      processing_time_ms r = elapsed_ms t0 t1) /\
  total (_ingest_event_to_stream key ev) /\
  total (_process_with_ml_pipeline key ev) /\
  (forall ml, total (_update_real_time_metrics key ev ml)) /\
  (forall key' ev', total (process_event key' ev')) /\
  (forall e s,
      exists t1 s',
        datetime_utcnow s = (inr t1, s') /\
        process_event_except t0 ev e s =
          (inr (mkResult false
                  (dict_get ev "anonId" (VStr "unknown"))
                  (dict_get ev "sessionId" (VStr "unknown"))
                  (VDict []) (VDict []) (VDict []) (VDict [])
                  (elapsed_ms t0 t1) (Some (exn_msg e))), s')).
Proof.
  intros Hn Hv Hs Hc. split.
  - destruct (process_event_accepted_trace key ev _ _ _ _ _ _ Hn Hv Hs Hc)
      as (r & st3 & st7 & t1 & st8 & _ & _ & _ & _ & Hrun & Hok & Herr & H8 & Ht & _).
    now exists r, st7, t1, st8.
  - split; [apply _ingest_event_to_stream_total |].
    split; [apply _process_with_ml_pipeline_total |].
    split; [intros ml; apply _update_real_time_metrics_total |].
    split; [intros key' ev'; apply process_event_total |].
    intros e s. destruct (now_total s) as (t1 & s' & Hnow).
    exists t1, s'. split; [exact Hnow |].
    unfold process_event_except. now rewrite (bind_inr _ _ _ _ _ Hnow).
Qed.

(** C9, amended: model provisioning is invoked in the request path
    only for tenants whose status is trial; it is awaited in line,
    right after rate-limit admission and before the stream append, the
    session caching, the scoring and the metrics update, so the request
    continues only when provisioning has returned; whatever provisioning
    does, the request still succeeds without an error. *)
Theorem provisioning_runs_inline_for_trial key ev st t0 st0 v st1 :
  datetime_utcnow st = (inr t0, st0) ->
  _validate_api_key_async key st0 = (inr v, st1) ->
  exists r st' l,
    process_event key ev st = (inr r, st') /\
    calls st' = calls st ++ l /\
    (count_calls Provisioning l <> 0 ->
     exists info, v = Some info /\ status info = VStatus TRIAL) /\
    (forall info st2,
        v = Some info ->
        status_accepted (status info) = true ->
        _check_rate_limit key (rate_limit info) st1 = (inr true, st2) ->
        exists st3 before prov ingest rest,
          provision_if_trial info key st2 = (inr tt, st3) /\
          calls st3 = calls st ++ before ++ prov /\
          l = before ++ prov ++ ingest ++ rest /\
          Forall before_decision before /\
          Forall (in_stage Provisioning) prov /\
          Forall (in_stage Ingesting) ingest /\
          Forall after_ingestion rest /\
          (status info = VStatus TRIAL ->
           exists tasks,
             prov = Query (clusters_table environment) (key ++ "#model")%string
                          (Some "2025") :: tasks) /\
          success r = true /\ error r = None).
Proof.
  intros Hn Hv.
  assert (Hrej : (v = None \/
                  exists info, v = Some info /\ status_accepted (status info) = false) ->
                 exists r st' l,
                   process_event key ev st = (inr r, st') /\
                   calls st' = calls st ++ l /\ count_calls Provisioning l = 0).
  { intros Hbad. destruct (rejected_key_calls _ _ _ _ _ _ Hn Hv) as (l & Hl & HP).
    exists (rejected ev "Invalid or inactive API key"), st1, l.
    split; [now apply (process_event_rejected_key key ev st t0 st0 v st1) |].
    split; [assumption |]. now apply (count_calls_in_stage Validating). }
  destruct v as [info |].
  - destruct (status_accepted (status info)) eqn:Hs.
    + destruct (_check_rate_limit_total key (rate_limit info) st1) as (b & st2 & Hc).
      destruct b.
      * destruct (process_event_accepted_trace key ev _ _ _ _ _ _ Hn Hv Hs Hc)
          as (r & st3 & st7 & t1 & st8 & before & prov & ingest & rest &
              Hrun & Hok & Herr & _ & _ & H3 & Hb & Hp & Hrest & HPb & HPp & HPi & HPr).
        exists r, st8, (before ++ prov ++ ingest ++ rest). split; [exact Hrun |].
        split; [rewrite Hrest, Hp, Hb; now rewrite <- !app_assoc |].
        split.
        -- intros Hcount. exists info. split; [reflexivity |].
           destruct (py_eq (status info) (VStatus TRIAL)) eqn:Ht;
             [now apply py_eq_status |].
           exfalso. apply Hcount.
           assert (Hne : status info <> VStatus TRIAL).
           { intros Heq. apply py_eq_status in Heq. congruence. }
           rewrite (provision_if_trial_skipped info key st2 Hne) in H3.
           inversion H3; subst st3.
           assert (prov = []) as ->.
           { apply (app_inv_head (calls st2)). now rewrite app_nil_r. }
           rewrite !count_calls_app.
           rewrite (count_calls_before_decision Provisioning before HPb) by reflexivity.
           rewrite (count_calls_in_stage Ingesting Provisioning ingest HPi) by reflexivity.
           rewrite (count_calls_none Provisioning rest); [reflexivity |].
           eapply Forall_impl; [| exact HPr].
           intros c [Hc' | [Hc' | Hc']]; now rewrite Hc'.
        -- intros info' st2' Heq _ Hc'. inversion Heq; subst info'.
           rewrite Hc in Hc'. inversion Hc'; subst st2'.
           exists st3, before, prov, ingest, rest.
           split; [exact H3 |].
           split; [rewrite Hp, Hb; now rewrite <- app_assoc |].
           repeat (split; [first [reflexivity | assumption] |]).
           split; [| now split].
           intros Ht. unfold provision_if_trial in H3.
           rewrite (proj2 (py_eq_status _ _) Ht) in H3.
           destruct (_auto_provision_models_run key st2) as (st3' & tasks & Hrun' & Hl' & _).
           rewrite H3 in Hrun'. inversion Hrun'; subst st3'.
           exists tasks. apply (app_inv_head (calls st2)). now rewrite <- Hp.
      * destruct (decision_calls _ _ _ _ _ _ _ _ _ Hn Hv Hc) as (l & Hl & HP).
        exists (rejected ev "Rate limit exceeded"), st2, l.
        split; [now apply (process_event_rate_limited key ev st t0 st0 info st1 st2) |].
        split; [exact Hl |]. split.
        -- intros Hcount. exfalso. apply Hcount.
           now apply count_calls_before_decision.
        -- intros info' st2' Heq _ Hc'. inversion Heq; subst info'.
           rewrite Hc in Hc'. discriminate.
    + destruct Hrej as (r & st' & l & Hrun & Hl & Hzero); [right; now exists info |].
      exists r, st', l. repeat (split; [assumption |]). split; [congruence |].
      intros info' st2 Heq Hs'. inversion Heq; subst info'. congruence.
  - destruct Hrej as (r & st' & l & Hrun & Hl & Hzero); [now left |].
    exists r, st', l. repeat (split; [assumption |]). split; [congruence |].
    intros info' st2 Heq. discriminate.
Qed.

(** ** The scoring coordinator *)

(** Every run of the coordinator, by the outcomes of the three calls. *)
Lemma _process_with_ml_pipeline_run key ev st :
  let anon := dict_get ev "anonId" VNone in
  exists rf w1,
    extract_features feature_service key anon "7d" (world st) = (rf, w1) /\
    match rf with
    | inr f =>
        if py_truthy f then
          exists rc w2 ri w3,
            predict_cluster clustering_service key anon f w1 = (rc, w2) /\
            predict_intent_scores intent_service key anon f w2 = (ri, w3) /\
            _process_with_ml_pipeline key ev st =
              (inr match rc, ri with
                   | inr c, inr i => scoring_results f c i
                   | _, _ => scoring_results (VDict []) (VDict []) (VDict [])
                   end,
               mkSt w3 (calls st ++ [ExtractFeatures key anon "7d";
                                     PredictCluster key anon f;
                                     PredictIntentScores key anon f]))
        else
          _process_with_ml_pipeline key ev st =
            (inr (scoring_results f (VDict []) (VDict [])),
             mkSt w1 (calls st ++ [ExtractFeatures key anon "7d"]))
    | inl _ =>
        _process_with_ml_pipeline key ev st =
          (inr (scoring_results (VDict []) (VDict []) (VDict [])),
           mkSt w1 (calls st ++ [ExtractFeatures key anon "7d"]))
    end.
Proof.
  intros anon.
  unfold _process_with_ml_pipeline, try_except, bind, submit, result, lift_sum, ret.
  fold anon.
  destruct (extract_features feature_service key anon "7d" (world st))
    as [[e | f] w1] eqn:Hf.
  - exists (inl e), w1. split; reflexivity.
  - exists (inr f), w1. split; [reflexivity |]. simpl.
    destruct (py_truthy f); [| reflexivity].
    unfold submit, bind. simpl.
    destruct (predict_cluster clustering_service key anon f w1) as [rc w2] eqn:Hc.
    simpl.
    destruct (predict_intent_scores intent_service key anon f w2) as [ri w3] eqn:Hi.
    exists rc, w2, ri, w3. split; [reflexivity |]. split; [exact Hi |].
    simpl. rewrite <- !app_assoc. simpl.
    destruct rc as [ec | c]; [reflexivity |]. destruct ri as [ei | i]; reflexivity.
Qed.

(** What a run of the coordinator logs, and what it returns when the
    features are absent. *)
Lemma _process_with_ml_pipeline_order key ev s :
  let anon := dict_get ev "anonId" VNone in
  exists ml s' scorers,
    _process_with_ml_pipeline key ev s = (inr ml, s') /\
    calls s' = calls s ++ ExtractFeatures key anon "7d" :: scorers /\
    match fst (extract_features feature_service key anon "7d" (world s)) with
    | inr f =>
        if py_truthy f
        then scorers = [PredictCluster key anon f; PredictIntentScores key anon f]
        else scorers = [] /\ ml = scoring_results f (VDict []) (VDict [])
    | inl _ =>
        scorers = [] /\ ml = scoring_results (VDict []) (VDict []) (VDict [])
    end.
Proof.
  intros anon.
  destruct (_process_with_ml_pipeline_run key ev s) as (rf & w1 & Hf & Hrun).
  fold anon in Hf, Hrun. rewrite Hf. simpl.
  destruct rf as [e | f].
  - eexists _, _, []. split; [exact Hrun |]. simpl. auto.
  - destruct (py_truthy f).
    + destruct Hrun as (rc & w2 & ri & w3 & _ & _ & Hrun).
      eexists _, _, _. split; [exact Hrun |]. simpl. auto.
    + eexists _, _, []. split; [exact Hrun |]. simpl. auto.
Qed.

Lemma no_scorer_outside_scoring (l : list Call) :
  Forall (fun c => stage_of c <> Scoring) l -> existsb is_scorer l = false.
Proof.
  intros Hl. induction Hl as [| c l Hc' _ IH]; [reflexivity |].
  simpl. rewrite IH, orb_false_r. destruct c; try reflexivity; now elim Hc'.
Qed.

(** C5: in every run of the scoring coordinator the feature
    extraction is called first and has returned or raised before either
    scorer is invoked (the scorers receive the extracted features);
    when the extraction raises or yields an empty feature map, neither
    scorer is invoked and both result fields are empty.  For an
    accepted request whose feature extraction is absent in this sense,
    the response still has [success = true], with empty cluster
    assignment and intent scores and no scorer among the calls made. *)
Theorem features_are_extracted_before_scoring key ev st t0 st0 info st1 st2 :
  datetime_utcnow st = (inr t0, st0) ->
  _validate_api_key_async key st0 = (inr (Some info), st1) ->
  status_accepted (status info) = true ->
  _check_rate_limit key (rate_limit info) st1 = (inr true, st2) ->
  let anon := dict_get ev "anonId" VNone in
  (forall s,
      exists ml s' scorers,
        _process_with_ml_pipeline key ev s = (inr ml, s') /\
        calls s' = calls s ++ ExtractFeatures key anon "7d" :: scorers /\
        match fst (extract_features feature_service key anon "7d" (world s)) with
        | inr f =>
            if py_truthy f
            then scorers = [PredictCluster key anon f; PredictIntentScores key anon f]
            else scorers = [] /\ ml = scoring_results f (VDict []) (VDict [])
        | inl _ =>
            scorers = [] /\ ml = scoring_results (VDict []) (VDict []) (VDict [])
        end) /\
  ((forall w, features_absent
                (fst (extract_features feature_service key anon "7d" w))) ->
   exists r st' l,
     process_event key ev st = (inr r, st') /\
     calls st' = calls st ++ l /\
     success r = true /\
     cluster_assignment r = VDict [] /\
     intent_scores r = VDict [] /\
     existsb is_scorer l = false).
Proof.
  intros Hn Hv Hs Hc anon.
  split; [intros s; apply _process_with_ml_pipeline_order |].
  intros Habsent.
  destruct (process_event_accepted key ev _ _ _ _ _ _ Hn Hv Hs Hc)
    as (st3 & st4 & st5 & ml & st6 & metrics & st7 & t1 & st8 &
        H3 & H4 & H5 & H6 & H7 & H8 & Hrun).
  destruct (decision_calls _ _ _ _ _ _ _ _ _ Hn Hv Hc) as (before & Hb & HPb).
  destruct (logs_run _ _ _ _ _ (provision_if_trial_logs info key) H3) as (prov & Hp & HPp).
  destruct (logs_run _ _ _ _ _ (_ingest_event_to_stream_logs key ev) H4) as (l4 & Hl4 & HP4).
  destruct (logs_run _ _ _ _ _ (_cache_session_data_logs key ev) H5) as (l5 & Hl5 & HP5).
  destruct (logs_run _ _ _ _ _ (_update_real_time_metrics_logs key ev ml) H7)
    as (l7 & Hl7 & HP7).
  destruct (_process_with_ml_pipeline_order key ev st5)
    as (ml' & st6' & scorers & H6' & Hl6 & Hcase).
  fold anon in Hl6, Hcase.
  rewrite H6 in H6'. inversion H6'; subst ml' st6'. clear H6'.
  specialize (Habsent (world st5)).
  assert (Hempty : scorers = [] /\
                   dict_get ml "cluster" (VDict []) = VDict [] /\
                   dict_get ml "intent_scores" (VDict []) = VDict []).
  { destruct (fst (extract_features feature_service key anon "7d" (world st5)))
      as [e | f]; simpl in Habsent.
    - destruct Hcase as [-> ->]. repeat split.
    - rewrite Habsent in Hcase. destruct Hcase as [-> ->]. repeat split. }
  destruct Hempty as (-> & Hcl & Hin).
  eexists _, st8,
    (before ++ prov ++ l4 ++ l5 ++ [ExtractFeatures key anon "7d"] ++ l7).
  split; [exact Hrun |]. simpl.
  split; [rewrite (now_calls _ _ _ H8), Hl7, Hl6, Hl5, Hl4, Hp, Hb;
          now rewrite <- !app_assoc |].
  split; [reflexivity |]. split; [exact Hcl |]. split; [exact Hin |].
  rewrite !existsb_app. simpl.
  rewrite (no_scorer_outside_scoring before), (no_scorer_outside_scoring prov),
    (no_scorer_outside_scoring l4), (no_scorer_outside_scoring l5),
    (no_scorer_outside_scoring l7); [reflexivity | | | | |].
  all: eapply Forall_impl; [| eassumption]; unfold before_decision, in_stage;
    intros c Hst; try destruct Hst as [Hst | Hst]; rewrite Hst; discriminate.
Qed.

(** ** The read side *)

Local Abbreviation _get_user_features := (_get_user_features feature_service).
Local Abbreviation _get_user_cluster_info := (_get_user_cluster_info E environment).
Local Abbreviation _get_user_intent_scores := (_get_user_intent_scores E environment).
Local Abbreviation _get_user_session_summary :=
  (_get_user_session_summary E environment).
Local Abbreviation _generate_user_insights := (_generate_user_insights E).
Local Abbreviation _get_cached_metrics := (_get_cached_metrics E environment).
Local Abbreviation _get_cluster_summary := (_get_cluster_summary clustering_service).
Local Abbreviation _get_intent_distribution :=
  (_get_intent_distribution intent_service).
Local Abbreviation _get_platform_breakdown := (_get_platform_breakdown E environment).
Local Abbreviation get_user_insights :=
  (get_user_insights E environment feature_service).
Local Abbreviation get_real_time_dashboard :=
  (get_real_time_dashboard E environment clustering_service intent_service).

(** Once the key resolves, the insights query returns the full
    nine-entry mapping: each of its four lookups returns from every
    state. *)
Lemma get_user_insights_run key anon tw st info st1 :
  _validate_api_key_async key st = (inr (Some info), st1) ->
  exists features cluster_info scores summary t st',
    get_user_insights key anon tw st =
      (inr (VDict (dict_of
              [("anon_id", VStr anon);
               ("api_key", VStr key);
               ("time_window", VStr tw);
               ("generated_at", VStr (isoformat E t));
               ("user_features", features);
               ("cluster_assignment", cluster_info);
               ("intent_scores", scores);
               ("session_summary", summary);
               ("insights", _generate_user_insights features cluster_info scores)])),
       st').
Proof.
  intros Hv.
  destruct (total_swallow
              (invoke (ExtractFeatures key (VStr anon) tw)
                 (extract_features feature_service key (VStr anon) tw))
              (VDict []) st1) as (features & st2 & H2).
  assert (Ht3 : total (_get_user_cluster_info key anon)) by apply total_swallow.
  assert (Ht4 : total (_get_user_intent_scores key anon)) by apply total_swallow.
  assert (Ht5 : total (_get_user_session_summary key anon tw)) by apply total_swallow.
  destruct (Ht3 st2) as (cluster_info & st3 & H3).
  destruct (Ht4 st3) as (scores & st4 & H4).
  destruct (Ht5 st4) as (summary & st5 & H5).
  destruct (now_total st5) as (t & st6 & H6).
  exists features, cluster_info, scores, summary, t, st6.
  unfold get_user_insights. apply try_except_inr.
  rewrite (bind_inr _ _ _ _ _ Hv). cbv beta iota.
  unfold _get_user_features.
  rewrite (bind_inr _ _ _ _ _ H2).
  rewrite (bind_inr _ _ _ _ _ H3).
  rewrite (bind_inr _ _ _ _ _ H4).
  rewrite (bind_inr _ _ _ _ _ H5).
  rewrite (bind_inr _ _ _ _ _ H6).
  reflexivity.
Qed.

Lemma get_real_time_dashboard_run key tw st info st1 :
  _validate_api_key_async key st = (inr (Some info), st1) ->
  exists metrics cluster_summary intent_distribution platform_breakdown t st',
    get_real_time_dashboard key tw st =
      (inr (VDict (dict_of
              [("api_key", VStr key);
               ("time_window", VStr tw);
               ("generated_at", VStr (isoformat E t));
               ("live_metrics", metrics);
               ("cluster_summary", cluster_summary);
               ("intent_distribution", intent_distribution);
               ("platform_breakdown", platform_breakdown);
               ("status", VStr "active")])),
       st').
Proof.
  intros Hv.
  assert (Ht2 : total (_get_cached_metrics key tw)) by apply total_swallow.
  assert (Ht3 : total (_get_cluster_summary key)) by apply total_swallow.
  assert (Ht4 : total (_get_intent_distribution key tw)) by apply total_swallow.
  assert (Ht5 : total (_get_platform_breakdown key tw)) by apply total_swallow.
  destruct (Ht2 st1) as (metrics & st2 & H2).
  destruct (Ht3 st2) as (cluster_summary & st3 & H3).
  destruct (Ht4 st3) as (intent_distribution & st4 & H4).
  destruct (Ht5 st4) as (platform_breakdown & st5 & H5).
  destruct (now_total st5) as (t & st6 & H6).
  exists metrics, cluster_summary, intent_distribution, platform_breakdown, t, st6.
  unfold get_real_time_dashboard. apply try_except_inr.
  rewrite (bind_inr _ _ _ _ _ Hv). cbv beta iota.
  rewrite (bind_inr _ _ _ _ _ H2).
  rewrite (bind_inr _ _ _ _ _ H3).
  rewrite (bind_inr _ _ _ _ _ H4).
  rewrite (bind_inr _ _ _ _ _ H5).
  rewrite (bind_inr _ _ _ _ _ H6).
  reflexivity.
Qed.

(** C10: the two read operations only require that the key resolves
    to a record and never look at its status.  So for a tenant whose
    status is inactive or suspended, which [process_event] rejects with
    'Invalid or inactive API key', [get_user_insights] returns the full
    insights mapping and [get_real_time_dashboard] the full dashboard
    mapping, neither of them with an [error] entry. *)
Theorem read_paths_do_not_check_status key ev anon tw st t0 st0 info st1 st1' :
  status info = VStatus INACTIVE \/ status info = VStatus SUSPENDED ->
  datetime_utcnow st = (inr t0, st0) ->
  _validate_api_key_async key st0 = (inr (Some info), st1) ->
  _validate_api_key_async key st = (inr (Some info), st1') ->
  (exists r,
      process_event key ev st = (inr r, st1) /\
      success r = false /\ error r = Some "Invalid or inactive API key") /\
  (exists features cluster_info scores summary t st' d,
      d = dict_of
            [("anon_id", VStr anon);
             ("api_key", VStr key);
             ("time_window", VStr tw);
             ("generated_at", VStr (isoformat E t));
             ("user_features", features);
             ("cluster_assignment", cluster_info);
             ("intent_scores", scores);
             ("session_summary", summary);
             ("insights", _generate_user_insights features cluster_info scores)] /\
      get_user_insights key anon tw st = (inr (VDict d), st') /\
      dict_lookup "error" d = None) /\
  (exists metrics cluster_summary intent_distribution platform_breakdown t st' d,
      d = dict_of
            [("api_key", VStr key);
             ("time_window", VStr tw);
             ("generated_at", VStr (isoformat E t));
             ("live_metrics", metrics);
             ("cluster_summary", cluster_summary);
             ("intent_distribution", intent_distribution);
             ("platform_breakdown", platform_breakdown);
             ("status", VStr "active")] /\
      get_real_time_dashboard key tw st = (inr (VDict d), st') /\
      dict_lookup "error" d = None).
Proof.
  intros Hstatus Hn Hv Hv'. split; [| split].
  - exists (rejected ev "Invalid or inactive API key").
    split; [| split; reflexivity].
    apply (process_event_rejected_key key ev st t0 st0 (Some info) st1 Hn Hv).
    right. exists info. split; [reflexivity |].
    destruct (status_accepted (status info)) eqn:Hs; [| reflexivity].
    apply status_accepted_iff in Hs.
    destruct Hstatus as [H | H], Hs as [H' | H']; rewrite H in H'; discriminate.
  - destruct (get_user_insights_run key anon tw st info st1' Hv')
      as (features & cluster_info & scores & summary & t & st' & Hrun).
    eexists features, cluster_info, scores, summary, t, st', _.
    split; [reflexivity |]. split; [exact Hrun | reflexivity].
  - destruct (get_real_time_dashboard_run key tw st info st1' Hv')
      as (metrics & cs & ids & pb & t & st' & Hrun).
    eexists metrics, cs, ids, pb, t, st', _.
    split; [reflexivity |]. split; [exact Hrun | reflexivity].
Qed.

(** ** Tenant creation *)

Local Abbreviation api_keys_table := (api_keys_table environment).
Local Abbreviation create_api_key := (create_api_key E environment).

(** Every plan name maps to a configuration with both entries; names
    outside the table get the trial configuration. *)
Lemma _get_plan_configuration_entries (plan_name : string) :
  exists limit features,
    _get_plan_configuration plan_name =
      [("rate_limit", VInt limit); ("features", VList features)].
Proof.
  unfold _get_plan_configuration, dict_get. simpl.
  destruct (String.eqb plan_name "trial"); [eexists _, _; reflexivity |].
  destruct (String.eqb plan_name "basic"); [eexists _, _; reflexivity |].
  destruct (String.eqb plan_name "pro"); [eexists _, _; reflexivity |].
  destruct (String.eqb plan_name "enterprise"); eexists _, _; reflexivity.
Qed.

(** C8, amended: [create_api_key] builds the key by formatting alone,
    as 'ak_' followed by the first 8 hex digits of the MD5 of the
    customer id, the last 6 digits of the Unix time and the first 16
    hex digits of a fresh UUID; the first collaborator call it makes is
    the [put_item] that stores the record, so no existing key is read
    or compared.  The stored record has status 'trial' for the trial
    plan and 'active' for every other plan name, with the rate limit
    and the feature list of the plan's configuration; when the store
    accepts it, the same key and limits are returned. *)
Theorem create_api_key_formats_and_stores customer plan_name meta st :
  let fresh := fst (uuid4 E (world st)) in
  let t := fst (utcnow E (snd (uuid4 E (world st)))) in
  let key :=
    ("ak_" ++ str_take 8 (md5_hexdigest E customer) ++ "_" ++
     str_last 6 (string_of_Z (unix_seconds t)) ++ "_" ++
     str_take 16 (str_remove "-" fresh))%string in
  let config := _get_plan_configuration plan_name in
  exists r st' item rest,
    create_api_key customer plan_name meta st = (inr r, st') /\
    calls st' = calls st ++ PutItem api_keys_table item :: rest /\
    dict_lookup "pk" item = Some (VStr key) /\
    dict_lookup "status" item =
      Some (VStr (if String.eqb plan_name "trial" then "trial" else "active")) /\
    dict_lookup "rate_limit" item = dict_lookup "rate_limit" config /\
    dict_lookup "features_enabled" item = dict_lookup "features" config /\
    (rest = [] /\ (exists msg, r = error_dict msg) \/
     rest = [ProvisionInfrastructure key plan_name] /\
     py_getitem r "api_key" = inr (VStr key) /\
     dict_lookup "rate_limit" config = Some (dict_get
       match r with VDict d => d | _ => [] end "rate_limit" VNone) /\
     dict_lookup "features" config = Some (dict_get
       match r with VDict d => d | _ => [] end "features_enabled" VNone)).
Proof.
  intros fresh t key config.
  destruct (_get_plan_configuration_entries plan_name) as (limit & features & Hcfg).
  subst config. rewrite Hcfg. subst key t fresh.
  unfold create_api_key, _generate_api_key, _store_api_key,
    _auto_provision_infrastructure, auto_provision_enabled,
    datetime_utcnow, try_except, bind, quiet, invoke, note, lift_sum, ret, raise.
  rewrite Hcfg. simpl.
  destruct (uuid4 E (world st)) as [fresh w1]. simpl.
  destruct (utcnow E w1) as [t w2]. simpl.
  destruct (utcnow E w2) as [created w3]. simpl.
  destruct (String.eqb plan_name "trial") eqn:Hplan; simpl;
    (match goal with
     | |- context [put_item E ?tbl ?item ?w] =>
         destruct (put_item E tbl item w) as [[e | []] w4]
     end); simpl;
    try (destruct (utcnow E w4) as [t' w5]; simpl);
    eexists _, _, _, _;
    (split; [reflexivity |]); simpl; rewrite <- ?app_assoc; simpl;
    (split; [reflexivity |]);
    repeat (split; [reflexivity |]).
  all: first [ left; split; [reflexivity | eexists; reflexivity]
             | right; repeat split ].
Qed.

(** ** Remarks on the cache *)

(** The record read from the table holds an [APIKeyStatus] member, which
    [json.dumps] refuses: the [cache_api_key] request is dropped inside
    [_invoke_cache_function] before any Lambda call, so this service never
    populates the validation cache. *)
Lemma cache_api_key_is_never_sent key info s st :
  status info = VStatus s ->
  _invoke_cache_function "cache_api_key"
    (dict_of [("api_key", VStr key); ("validation_data", VDict (asdict info))]) st
  = (inr (VDict []), st).
Proof.
  intros Hs. unfold _invoke_cache_function, try_except, bind, json_dumps.
  assert (Hj : json_serializable
                 (VDict (dict_update (dict_of [("operation", VStr "cache_api_key")])
                           (dict_of [("api_key", VStr key);
                                     ("validation_data", VDict (asdict info))])))
               = false).
  { unfold asdict. rewrite Hs. simpl.
    destruct (json_serializable (api_key info)); [| reflexivity].
    destruct (json_serializable (customer_id info)); reflexivity. }
  rewrite Hj. reflexivity.
Qed.

End Properties.

(* ================================================================== *)
(** * The scoring branches and the repository's own services *)
(* ================================================================== *)

(** C6, amended: no error thrown by any of the three scoring calls
    reaches the caller of the coordinator, but the calls are not isolated
    from one another there: one handler wraps all three, so when the
    clustering or the intent call raises, every field of the merged
    result is empty, the intent scores included; only when both return
    does the result carry the features and the two returned values.  The
    isolation lives in the services themselves: a failure inside the
    repository's [predict_cluster] comes back as its placeholder
    assignment (status 'error', cluster 'default', outlier score 0.5),
    kept next to the intent scores, and a failure inside
    [predict_intent_scores] comes back as the default scores, kept next
    to the cluster assignment; neither field is absent.  No timeout is
    applied to any call. *)
Theorem scoring_calls_share_one_handler {W : Type} (E : Env W) (I : MLInternals W)
    (fs : FeatureService W) (cs : ClusteringServiceT W) (ins : IntentService W)
    (key : string) (ev : dict) (st : St W) (f : pyval) (w1 : W) :
  let anon := dict_get ev "anonId" VNone in
  extract_features fs key anon "7d" (world st) = (inr f, w1) ->
  py_truthy f = true ->
  total (_process_with_ml_pipeline fs cs ins key ev) /\
  (forall rc w2 ri w3,
      predict_cluster cs key anon f w1 = (rc, w2) ->
      predict_intent_scores ins key anon f w2 = (ri, w3) ->
      fst (_process_with_ml_pipeline fs cs ins key ev st) =
        inr match rc, ri with
            | inr c, inr i => scoring_results f c i
            | _, _ => scoring_results (VDict []) (VDict []) (VDict [])
            end) /\
  (forall e w2 i w3,
      predict_cluster_try I key anon f w1 = (inl e, w2) ->
      predict_intent_scores ins key anon f w2 = (inr i, w3) ->
      fst (_process_with_ml_pipeline fs (ClusteringService.service I) ins key ev st) =
        inr (scoring_results f ClusteringService.error_assignment i)) /\
  (forall c w2 e w3,
      predict_cluster cs key anon f w1 = (inr c, w2) ->
      predict_intent_scores_try I key anon f w2 = (inl e, w3) ->
      exists d w4,
        IntentScoringService._generate_default_scores E anon w3 = (inr d, w4) /\
        fst (_process_with_ml_pipeline fs cs (IntentScoringService.service E I) key ev st) =
          inr (scoring_results f c d)).
Proof.
  intros anon Hf Ht.
  assert (Hgen : forall cs' ins' rc w2 ri w3,
             predict_cluster cs' key anon f w1 = (rc, w2) ->
             predict_intent_scores ins' key anon f w2 = (ri, w3) ->
             fst (_process_with_ml_pipeline fs cs' ins' key ev st) =
               inr match rc, ri with
                   | inr c, inr i => scoring_results f c i
                   | _, _ => scoring_results (VDict []) (VDict []) (VDict [])
                   end).
  { intros cs' ins' rc w2 ri w3 Hc Hi.
    destruct (_process_with_ml_pipeline_run fs cs' ins' key ev st) as (rf & w1' & Hf' & Hrun).
    fold anon in Hf', Hrun. rewrite Hf in Hf'. inversion Hf'; subst rf w1'.
    rewrite Ht in Hrun. destruct Hrun as (rc' & w2' & ri' & w3' & Hc' & Hi' & Hrun).
    rewrite Hc in Hc'. inversion Hc'; subst rc' w2'.
    rewrite Hi in Hi'. inversion Hi'; subst ri' w3'.
    now rewrite Hrun. }
  split; [apply _process_with_ml_pipeline_total |].
  split; [intros rc w2 ri w3; apply Hgen |].
  split.
  - intros e w2 i w3 Hc Hi.
    rewrite (Hgen (ClusteringService.service I) ins
               (inr ClusteringService.error_assignment) w2 (inr i) w3);
      [reflexivity | | exact Hi].
    simpl. unfold ClusteringService.predict_cluster, try_except. now rewrite Hc.
  - intros c w2 e w3 Hc Hi.
    destruct (utcnow E w3) as [t w4] eqn:Hnow.
    eexists _, w4. split.
    + unfold IntentScoringService._generate_default_scores. rewrite Hnow. reflexivity.
    + erewrite (Hgen cs (IntentScoringService.service E I) (inr c) w2 (inr _) w4);
        [reflexivity | exact Hc |].
      simpl. unfold IntentScoringService.predict_intent_scores, try_except. rewrite Hi.
      unfold IntentScoringService._generate_default_scores. rewrite Hnow. reflexivity.
Qed.

(* ================================================================== *)
(** * Concrete runs *)
(* ================================================================== *)

Import Demo.

(** An unknown key. *)
Lemma process_event_rejects_invalid_key_witness :
  exists r l,
    process_event (env unknown_key) "test"
      (feature_service_of (inr some_features))
      (clustering_service_of (inr some_cluster))
      (intent_service_of unknown_key (inr some_scores))
      "ak_bogus" event start
    = (inr r, mkSt 1730851200001000%Z
                [LambdaInvoke "anon-intent-sdk-redis-cache-manager-test"
                   [("operation", VStr "validate_api_key"); ("api_key", VStr "ak_bogus")];
                 GetItem "anon-intent-sdk-api-keys-test" "ak_bogus"]) /\
    success r = false /\
    error r = Some "Invalid or inactive API key" /\
    [LambdaInvoke "anon-intent-sdk-redis-cache-manager-test"
       [("operation", VStr "validate_api_key"); ("api_key", VStr "ak_bogus")];
     GetItem "anon-intent-sdk-api-keys-test" "ak_bogus"] = calls start ++ l /\
    count_calls RateLimiting l = 0 /\
    count_calls Ingesting l = 0 /\
    count_calls Scoring l = 0 /\
    count_calls AggregatingMetrics l = 0 /\
    count_calls Provisioning l = 0 /\
    count_calls SessionCaching l = 0.
Proof.
  eapply (process_event_rejects_invalid_key
            (env unknown_key) "test"
            (feature_service_of (inr some_features))
            (clustering_service_of (inr some_cluster))
            (intent_service_of unknown_key (inr some_scores))
            "ak_bogus" event start 1730851200000000%Z
            (mkSt 1730851200001000%Z []) None).
  - vm_compute. reflexivity.
  - vm_compute. reflexivity.
  - left. reflexivity.
Defined.


(** The feature extraction finds no data: the request succeeds without
    a scorer being called. *)
Lemma features_are_extracted_before_scoring_witness :
  exists r st' l,
    process_event (env (healthy "active" 2 1)) "test"
      (feature_service_of (inl (boom "no events table")))
      (clustering_service_of (inr some_cluster))
      (intent_service_of (healthy "active" 2 1) (inr some_scores))
      "ak_test" event start = (inr r, st') /\
    calls st' = calls start ++ l /\
    success r = true /\
    cluster_assignment r = VDict [] /\
    intent_scores r = VDict [] /\
    existsb is_scorer l = false.
Proof.
  edestruct (features_are_extracted_before_scoring
               (env (healthy "active" 2 1)) "test"
               (feature_service_of (inl (boom "no events table")))
               (clustering_service_of (inr some_cluster))
               (intent_service_of (healthy "active" 2 1) (inr some_scores))
               "ak_test" event start)
    as (_ & Habsent).
  - vm_compute. reflexivity.
  - vm_compute. reflexivity.
  - reflexivity.
  - vm_compute. reflexivity.
  - apply Habsent. intros w. vm_compute. reflexivity.
Defined.

(** Clustering fails inside the repository's service while the intent
    scores are computed. *)
Lemma scoring_calls_share_one_handler_witness :
  fst (_process_with_ml_pipeline
         (feature_service_of (inr some_features))
         (clustering_service_of (inl (boom "no model")))
         (intent_service_of (healthy "active" 2 1) (inr some_scores))
         "ak_test" event start)
  = inr (scoring_results some_features ClusteringService.error_assignment some_scores).
Proof.
  edestruct (scoring_calls_share_one_handler
               (env (healthy "active" 2 1))
               (internals (inr some_features) (inl (boom "no model")) (inr some_scores))
               (feature_service_of (inr some_features))
               (clustering_service_of (inl (boom "no model")))
               (intent_service_of (healthy "active" 2 1) (inr some_scores))
               "ak_test" event start some_features)
    as (_ & _ & Hcluster & _).
  - vm_compute. reflexivity.
  - reflexivity.
  - eapply Hcluster; vm_compute; reflexivity.
Defined.

(** C6 fails as stated: with the repository's clustering service
    failing and the intent scoring succeeding, the cluster field of the
    merged result is the placeholder assignment, not an absent one; and
    with a clustering collaborator that raises, the intent scores that
    were computed are dropped from the merged result. *)
Lemma failed_clustering_is_not_absent_counterexample :
  (exists st',
      _process_with_ml_pipeline
        (feature_service_of (inr some_features))
        (clustering_service_of (inl (boom "no model")))
        (intent_service_of (healthy "active" 2 1) (inr some_scores))
        "ak_test" event start
      = (inr (scoring_results some_features
                (VDict [("status", VStr "error"); ("cluster_id", VStr "default");
                        ("outlier_score", VFloat half)])
                some_scores), st')) /\
  VDict [("status", VStr "error"); ("cluster_id", VStr "default");
         ("outlier_score", VFloat half)] <> VDict [] /\
  (exists st',
      _process_with_ml_pipeline
        (feature_service_of (inr some_features))
        raising_clustering
        (intent_service_of (healthy "active" 2 1) (inr some_scores))
        "ak_test" event start
      = (inr (scoring_results (VDict []) (VDict []) (VDict [])), st') /\
      count_calls Scoring (calls st') = 3) /\
  fst (predict_intent_scores (intent_service_of (healthy "active" 2 1) (inr some_scores))
         "ak_test" (VStr "anon-demo-user") some_features (world start))
  = inr some_scores.
Proof.
  split; [eexists; vm_compute; reflexivity |].
  split; [discriminate |].
  split; [eexists; split; vm_compute; reflexivity |].
  reflexivity.
Qed.

(** The stream, the cache writes, the model table and the three ML
    bodies all raise during an accepted request. *)
Lemma stage_exceptions_stay_in_their_stage_witness :
  exists r st',
    process_event (env (degraded "active" 2 1)) "test"
      (feature_service_of (inl (boom "no events table")))
      raising_clustering
      (intent_service_of (degraded "active" 2 1) (inl (boom "no model")))
      "ak_test" event start = (inr r, st') /\
    success r = true /\ error r = None /\
    processing_time_ms r = elapsed_ms 1730851200000000 1730851200004000.
Proof.
  edestruct (stage_exceptions_stay_in_their_stage
               (env (degraded "active" 2 1)) "test"
               (feature_service_of (inl (boom "no events table")))
               raising_clustering
               (intent_service_of (degraded "active" 2 1) (inl (boom "no model")))
               "ak_test" event start)
    as ((r & st7 & t1 & st' & Hend & Hrun & Hok & Herr & Htime) & _).
  - vm_compute. reflexivity.
  - vm_compute. reflexivity.
  - reflexivity.
  - vm_compute. reflexivity.
  - exists r, st'. split; [exact Hrun |]. split; [exact Hok |]. split; [exact Herr |].
    vm_compute in Hrun. inversion Hrun; subst. reflexivity.
Defined.

(** C7 fails as stated: [put_record] raises inside the ingestion stage,
    the cache writes raise inside the session and metrics stages and the
    feature extraction raises inside the scoring stage, yet the request
    ends with [success = true] and no error text. *)
Lemma failing_stages_still_succeed_counterexample :
  stream_outcome (degraded "active" 2 1) = inl (boom "stream down") /\
  other_reply (degraded "active" 2 1) = inl (boom "cache down") /\
  exists r st',
    process_event (env (degraded "active" 2 1)) "test"
      (feature_service_of (inl (boom "no events table")))
      raising_clustering
      (intent_service_of (degraded "active" 2 1) (inl (boom "no model")))
      "ak_test" event start = (inr r, st') /\
    success r = true /\ error r = None /\
    count_calls Ingesting (calls st') = 1 /\
    count_calls AggregatingMetrics (calls st') = 1.
Proof.
  split; [reflexivity |]. split; [reflexivity |].
  eexists _, _. split; [vm_compute; reflexivity |].
  repeat split.
Qed.

(** A trial key for customer c1. *)
Lemma create_api_key_formats_and_stores_witness :
  exists r st' item,
    create_api_key (env unknown_key) "test" "c1" "trial" VNone start = (inr r, st') /\
    calls st' = [PutItem "anon-intent-sdk-api-keys-test" item;
                 ProvisionInfrastructure "ak_5d41402a_851200_123e4567e89b42d3" "trial"] /\
    dict_lookup "pk" item = Some (VStr "ak_5d41402a_851200_123e4567e89b42d3") /\
    dict_lookup "status" item = Some (VStr "trial") /\
    dict_lookup "rate_limit" item = Some (VInt 1000) /\
    dict_lookup "features_enabled" item =
      Some (VList [VStr "basic_analytics"; VStr "intent_scoring"]).
Proof.
  destruct (create_api_key_formats_and_stores
              (env unknown_key) "test" "c1" "trial" VNone start)
    as (r & st' & item & rest & Hrun & Hcalls & Hpk & Hstatus & Hlimit & Hfeat & Hrest).
  exists r, st', item. split; [exact Hrun |].
  split.
  - rewrite Hcalls. destruct Hrest as [[_ [msg Herr]] | [-> _]]; [| reflexivity].
    exfalso. rewrite Herr in Hrun. vm_compute in Hrun. discriminate.
  - repeat (split; [assumption |]). exact Hfeat.
Defined.

(** C8 fails as stated: two calls in a row, within the same second and
    with the same UUID drawn, return the same key; the second call
    stores over the record of the first without any read of the key
    table, so no collision check stands between them. *)
Lemma second_key_collides_counterexample :
  exists r1 st1 r2 st2,
    create_api_key (env unknown_key) "test" "c1" "trial" VNone start = (inr r1, st1) /\
    create_api_key (env unknown_key) "test" "c1" "basic" VNone st1 = (inr r2, st2) /\
    py_getitem r1 "api_key" = inr (VStr "ak_5d41402a_851200_123e4567e89b42d3") /\
    py_getitem r2 "api_key" = inr (VStr "ak_5d41402a_851200_123e4567e89b42d3") /\
    map stage_of (calls st2) = [Storing; Storing; Storing; Storing] /\
    existsb (fun c => match c with
                      | GetItem _ _ | Query _ _ _ => true
                      | _ => false
                      end) (calls st2) = false.
Proof.
  eexists _, _, _, _.
  split; [vm_compute; reflexivity |].
  split; [vm_compute; reflexivity |].
  repeat split.
Qed.

(** A trial tenant on a healthy deployment. *)
Lemma provisioning_runs_inline_for_trial_witness :
  exists r st' before prov ingest rest,
    process_event (env (healthy "trial" 1000 1)) "test"
      (feature_service_of (inr some_features))
      (clustering_service_of (inr some_cluster))
      (intent_service_of (healthy "trial" 1000 1) (inr some_scores))
      "ak_test" event start = (inr r, st') /\
    calls st' = calls start ++ before ++ prov ++ ingest ++ rest /\
    Forall before_decision before /\
    Forall (in_stage Provisioning) prov /\
    Forall (in_stage Ingesting) ingest /\
    Forall after_ingestion rest /\
    (exists tasks,
        prov = Query "anon-intent-sdk-intent-clusters-test" "ak_test#model" (Some "2025")
               :: tasks) /\
    success r = true /\ error r = None.
Proof.
  edestruct (provisioning_runs_inline_for_trial
               (env (healthy "trial" 1000 1)) "test"
               (feature_service_of (inr some_features))
               (clustering_service_of (inr some_cluster))
               (intent_service_of (healthy "trial" 1000 1) (inr some_scores))
               "ak_test" event start)
    as (r & st' & l & Hrun & Hl & _ & Hinline).
  - vm_compute. reflexivity.
  - vm_compute. reflexivity.
  - edestruct Hinline
      as (st3 & before & prov & ingest & rest & _ & _ & Hsplit & Hb & Hp & Hi & Hr &
          Htrial & Hok & Herr).
    + reflexivity.
    + reflexivity.
    + vm_compute. reflexivity.
    + exists r, st', before, prov, ingest, rest.
      split; [exact Hrun |]. split; [now rewrite Hl, Hsplit |].
      repeat (split; [assumption |]).
      split; [apply Htrial; reflexivity |]. now split.
Defined.

(** C9 fails as stated: for a trial tenant the model check and both
    provisioning tasks are in the call log before the stream append and
    before the metrics update, which only follow once provisioning has
    returned; nothing is deferred past the response. *)
Lemma provisioning_precedes_ingestion_counterexample :
  exists r st' before after,
    process_event (env (healthy "trial" 1000 1)) "test"
      (feature_service_of (inr some_features))
      (clustering_service_of (inr some_cluster))
      (intent_service_of (healthy "trial" 1000 1) (inr some_scores))
      "ak_test" event start = (inr r, st') /\
    calls st' =
      before ++
      [Query "anon-intent-sdk-intent-clusters-test" "ak_test#model" (Some "2025");
       ProvisionClusteringModels "ak_test"; ProvisionIntentModels "ak_test"] ++
      after /\
    map stage_of before = [Validating; Validating; RateLimiting] /\
    map stage_of after =
      [Ingesting; SessionCaching; Scoring; Scoring; Scoring; AggregatingMetrics] /\
    success r = true.
Proof.
  eexists _, _,
    [LambdaInvoke "anon-intent-sdk-redis-cache-manager-test"
       [("operation", VStr "validate_api_key"); ("api_key", VStr "ak_test")];
     GetItem "anon-intent-sdk-api-keys-test" "ak_test";
     LambdaInvoke "anon-intent-sdk-redis-cache-manager-test"
       [("operation", VStr "get_metrics"); ("api_key", VStr "ak_test");
        ("time_window", VStr "hour")]], _.
  split; [vm_compute; reflexivity |].
  split; [cbn [app calls]; reflexivity |].
  repeat split.
Qed.

(** A suspended tenant: rejected on the write path, served on both read
    paths. *)
Lemma read_paths_do_not_check_status_witness :
  (exists r st',
      process_event (env (healthy "suspended" 1000 1)) "test"
        (feature_service_of (inr some_features))
        (clustering_service_of (inr some_cluster))
        (intent_service_of (healthy "suspended" 1000 1) (inr some_scores))
        "ak_test" event start = (inr r, st') /\
      success r = false /\ error r = Some "Invalid or inactive API key") /\
  (exists d st',
      get_user_insights (env (healthy "suspended" 1000 1)) "test"
        (feature_service_of (inr some_features))
        "ak_test" "anon-demo-user" "7d" start = (inr (VDict d), st') /\
      dict_lookup "error" d = None /\
      dict_lookup "user_features" d = Some some_features) /\
  (exists d st',
      get_real_time_dashboard (env (healthy "suspended" 1000 1)) "test"
        (clustering_service_of (inr some_cluster))
        (intent_service_of (healthy "suspended" 1000 1) (inr some_scores))
        "ak_test" "1h" start = (inr (VDict d), st') /\
      dict_lookup "error" d = None /\
      dict_lookup "status" d = Some (VStr "active")).
Proof.
  edestruct (read_paths_do_not_check_status
               (env (healthy "suspended" 1000 1)) "test"
               (feature_service_of (inr some_features))
               (clustering_service_of (inr some_cluster))
               (intent_service_of (healthy "suspended" 1000 1) (inr some_scores))
               "ak_test" event "anon-demo-user" "1h" start)
    as ((r & Hrun & Hfail & Herr) & _ & Hdash).
  3: (vm_compute; reflexivity).
  2: (vm_compute; reflexivity).
  2: (vm_compute; reflexivity).
  - right. reflexivity.
  - split; [| split].
    + exists r. eexists. split; [exact Hrun |]. now split.
    + eexists _, _. split; [vm_compute; reflexivity |]. split; reflexivity.
    + destruct Hdash as (m & cs & ids & pb & t & st' & d & Hd & Hrun' & Hnone).
      exists d, st'. split; [exact Hrun' |]. split; [exact Hnone |].
      rewrite Hd. reflexivity.
Defined.

(** ** Two defects seen on concrete requests *)

(** C1: the claim fails for a record served from the cache.  The cache
    function answers the validation lookup with the cached record of an
    active tenant limited to 10000 events.  Validation resolves the key
    to that record, whose status is the JSON text 'active' and not the
    member [ACTIVE]; [process_event] then rejects the request with
    'Invalid or inactive API key', whatever [get_metrics] answers, a
    total of 1 event for the hour included.  The same tenant resolved
    from the key table, with its counter read at 1, is accepted. *)
Theorem cached_active_tenant_is_rejected :
  fst (_get_cached_metrics (env (cache_hit_with (inr (flat_reply 1)))) "test" "ak_test"
         "hour" start)
    = inr (VDict [("metrics",
                   VDict [("total_events", VInt 1); ("platform_web", VInt 1)])]) /\
  (forall m,
      exists info st1,
        _validate_api_key_async (env (cache_hit_with m)) "test" "ak_test" start
          = (inr (Some info), st1) /\
        api_key info = VStr "ak_test" /\
        status info = VStr "active" /\
        rate_limit info = VInt 10000) /\
  (forall m,
      fst (process_event (env (cache_hit_with m)) "test"
             (feature_service_of (inr some_features))
             (clustering_service_of (inr some_cluster))
             (intent_service_of (cache_hit_with m) (inr some_scores))
             "ak_test" event start)
      = inr (rejected event "Invalid or inactive API key")) /\
  success (rejected event "Invalid or inactive API key") = false /\
  (exists r st',
      process_event (env (healthy "active" 10000 1)) "test"
        (feature_service_of (inr some_features))
        (clustering_service_of (inr some_cluster))
        (intent_service_of (healthy "active" 10000 1) (inr some_scores))
        "ak_test" event start = (inr r, st') /\
      success r = true).
Proof.
  split; [vm_compute; reflexivity |].
  split; [| split; [| split]].
  - intros m. eexists _, _. split; [vm_compute; reflexivity |].
    repeat split.
  - intros m. vm_compute. reflexivity.
  - reflexivity.
  - eexists _, _. split; [vm_compute; reflexivity | reflexivity].
Qed.

(** C3: the claim fails when the cache function answers [get_metrics]
    with a plain proxy response.  The tenant is active with a limit of
    2 and the response carries a total of 5 events for the hour, as the
    service's own reader of the metrics sees it; [process_event]
    returns [success = true] without an error and appends the event to
    the stream. *)
Theorem over_limit_event_is_appended :
  fst (_get_cached_metrics (env (plain_metrics 2 5)) "test" "ak_test" "hour" start)
    = inr (VDict [("metrics",
                   VDict [("total_events", VInt 5); ("platform_web", VInt 5)])]) /\
  (exists info st1,
      _validate_api_key_async (env (plain_metrics 2 5)) "test" "ak_test" start
        = (inr (Some info), st1) /\
      status info = VStatus ACTIVE /\ rate_limit info = VInt 2) /\
  (exists r st',
      process_event (env (plain_metrics 2 5)) "test"
        (feature_service_of (inr some_features))
        (clustering_service_of (inr some_cluster))
        (intent_service_of (plain_metrics 2 5) (inr some_scores))
        "ak_test" event start = (inr r, st') /\
      success r = true /\ error r = None /\
      count_calls Ingesting (calls st') = 1 /\
      In (PutRecord "anon-intent-sdk-events-test"
            (event ++ [("apiKey", VStr "ak_test");
                       ("ingestionTime", VStr "1730851200002000")])
            "ak_test#anon-demo-user")
         (calls st')).
Proof.
  split; [vm_compute; reflexivity |]. split.
  - eexists _, _. split; [vm_compute; reflexivity |]. split; reflexivity.
  - eexists _, _. split; [vm_compute; reflexivity |].
    repeat split. simpl. do 3 right. left. reflexivity.
Qed.

(** C4: the check does not follow the contract on the counter that
    [get_metrics] returns.  The cache function answers with a plain
    proxy response carrying a total of 5 events; the contract refuses a
    count of 5 against a limit of 2, but [_check_rate_limit] finds no
    status code in the unwrapped reply and returns true for every
    limit. *)
Theorem rate_limit_check_ignores_the_counter :
  fst (_get_cached_metrics (env (plain_metrics 2 5)) "test" "ak_test" "hour" start)
    = inr (VDict [("metrics",
                   VDict [("total_events", VInt 5); ("platform_web", VInt 5)])]) /\
  rate_limiter_allows (Some (Qint 5)) 2 = false /\
  (forall limit : Z,
      fst (_check_rate_limit (env (plain_metrics 2 5)) "test" "ak_test" (VInt limit) start)
      = inr true).
Proof.
  split; [vm_compute; reflexivity |]. split; [reflexivity |].
  intros limit. vm_compute. reflexivity.
Qed.

(* ================================================================== *)
(** * Further properties of the service *)
(* ================================================================== *)

(** ** Strings *)

Lemma prefix_app (s t : string) : prefix s (s ++ t) = true.
Proof.
  induction s as [| a s IH]; simpl.
  - now destruct t.
  - destruct (ascii_dec a a); [exact IH | congruence].
Qed.

(** ** Dicts: lookup after an update *)

Lemma dict_lookup_set_same (k : string) (v : pyval) (d : dict) :
  dict_lookup k (dict_set k v d) = Some v.
Proof.
  induction d as [| [k' v'] r IH]; simpl.
  - now rewrite String.eqb_refl.
  - destruct (String.eqb k k') eqn:Hk; simpl.
    + now rewrite String.eqb_refl.
    + now rewrite Hk.
Qed.

Lemma dict_lookup_set_other (k k' : string) (v : pyval) (d : dict) :
  k <> k' -> dict_lookup k (dict_set k' v d) = dict_lookup k d.
Proof.
  intros Hne. induction d as [| [k2 v2] r IH]; simpl.
  - apply String.eqb_neq in Hne. now rewrite Hne.
  - destruct (String.eqb k' k2) eqn:Hk; simpl.
    + apply String.eqb_eq in Hk. subst k2.
      apply String.eqb_neq in Hne. now rewrite Hne.
    + destruct (String.eqb k k2); [reflexivity | exact IH].
Qed.

Lemma dict_set_keeps_length_or_grows (k : string) (v : pyval) (d : dict) :
  List.length d <= List.length (dict_set k v d).
Proof.
  induction d as [| [k' v'] r IH]; simpl; [lia |].
  destruct (String.eqb k k'); simpl; lia.
Qed.

(** Values that [json.loads] can produce stay so under lookup. *)
Lemma json_serializable_lookup (d : dict) (k : string) (v : pyval) :
  json_serializable (VDict d) = true -> dict_lookup k d = Some v ->
  json_serializable v = true.
Proof.
  induction d as [| [k' v'] r IH]; simpl; [discriminate |].
  intros H Hl. apply andb_true_iff in H. destruct H as [Hv Hr].
  destruct (String.eqb k k').
  - now inversion Hl; subst.
  - now apply IH.
Qed.

Lemma json_serializable_set (k : string) (v : pyval) (d : dict) :
  json_serializable (VDict d) = true -> json_serializable v = true ->
  json_serializable (VDict (dict_set k v d)) = true.
Proof.
  intros Hd Hv. induction d as [| [k' v'] r IH]; simpl in *.
  - now rewrite Hv.
  - apply andb_true_iff in Hd. destruct Hd as [Hv' Hr].
    destruct (String.eqb k k'); simpl.
    + now rewrite Hv, Hr.
    + rewrite Hv'. simpl. now apply IH.
Qed.

(** ** Counting the calls of a computation *)

Section Budgets.
Context {W : Type}.

Lemma count_calls_nil (s : Stage) : count_calls s [] = 0.
Proof. reflexivity. Qed.

Lemma within_weaken {A} (b b' : Stage -> nat) (m : M (St W) A) :
  within b m -> (forall s, b s <= b' s) -> within b' m.
Proof.
  intros Hm Hb st. destruct (Hm st) as (l & Hl & Hc). exists l.
  split; [exact Hl |]. intros s. specialize (Hc s). specialize (Hb s). lia.
Qed.

Lemma within_silent {A} (m : M (St W) A) :
  (forall st, calls (snd (m st)) = calls st) -> within no_calls m.
Proof.
  intros H st. exists []. rewrite app_nil_r. split; [apply H | intros s; apply Nat.le_refl].
Qed.

Lemma within_ret {A} (a : A) : within no_calls (@ret (St W) A a).
Proof. now apply within_silent. Qed.

Lemma within_raise {A} (e : exn) : within no_calls (@raise (St W) A e).
Proof. now apply within_silent. Qed.

Lemma within_lift_sum {A} (r : exn + A) : within no_calls (@lift_sum (St W) A r).
Proof. now apply within_silent. Qed.

Lemma within_quiet {A} (op : W -> A * W) : within no_calls (quiet op).
Proof.
  apply within_silent. intros st. unfold quiet. now destruct (op (world st)).
Qed.

Lemma count_calls_single (s : Stage) (c : Call) :
  count_calls s [c] = if Stage_eqb (stage_of c) s then 1 else 0.
Proof. unfold count_calls. simpl. now destruct (Stage_eqb (stage_of c) s). Qed.

Lemma Stage_eqb_sym (a b : Stage) : Stage_eqb a b = Stage_eqb b a.
Proof. now destruct a, b. Qed.

Lemma within_invoke {A} (c : Call) (op : M W A) :
  within (only (stage_of c) 1) (invoke c op).
Proof.
  intros st. exists [c]. unfold invoke. destruct (op (world st)) as [r w]. simpl.
  split; [reflexivity |]. intros s. rewrite count_calls_single. unfold only.
  rewrite (Stage_eqb_sym s). now destruct (Stage_eqb (stage_of c) s).
Qed.

Lemma within_submit {A} (c : Call) (op : M W A) :
  within (only (stage_of c) 1) (submit c op).
Proof.
  intros st. exists [c]. unfold submit. destruct (op (world st)) as [r w]. simpl.
  split; [reflexivity |]. intros s. rewrite count_calls_single. unfold only.
  rewrite (Stage_eqb_sym s). now destruct (Stage_eqb (stage_of c) s).
Qed.

Lemma within_note (c : Call) : within (only (stage_of c) 1) (@note W c).
Proof.
  intros st. exists [c]. simpl.
  split; [reflexivity |]. intros s. rewrite count_calls_single. unfold only.
  rewrite (Stage_eqb_sym s). now destruct (Stage_eqb (stage_of c) s).
Qed.

Lemma within_bind {A B} (b1 b2 : Stage -> nat) (m : M (St W) A) (k : A -> M (St W) B) :
  within b1 m -> (forall a, within b2 (k a)) -> within (plus_budget b1 b2) (bind m k).
Proof.
  intros Hm Hk st. destruct (Hm st) as (l & Hl & Hc). unfold bind.
  destruct (m st) as [[e | a] st']; simpl in *.
  - exists l. split; [exact Hl |]. intros s. specialize (Hc s). unfold plus_budget. lia.
  - destruct (Hk a st') as (l' & Hl' & Hc'). exists (l ++ l'). split.
    + now rewrite Hl', Hl, app_assoc.
    + intros s. rewrite count_calls_app. specialize (Hc s). specialize (Hc' s).
      unfold plus_budget. lia.
Qed.

Lemma within_try_except {A} (b1 b2 : Stage -> nat) (m : M (St W) A)
    (h : exn -> M (St W) A) :
  within b1 m -> (forall e, within b2 (h e)) -> within (plus_budget b1 b2) (try_except m h).
Proof.
  intros Hm Hh st. destruct (Hm st) as (l & Hl & Hc). unfold try_except.
  destruct (m st) as [[e | a] st']; simpl in *.
  - destruct (Hh e st') as (l' & Hl' & Hc'). exists (l ++ l'). split.
    + now rewrite Hl', Hl, app_assoc.
    + intros s. rewrite count_calls_app. specialize (Hc s). specialize (Hc' s).
      unfold plus_budget. lia.
  - exists l. split; [exact Hl |]. intros s. specialize (Hc s). unfold plus_budget. lia.
Qed.

Lemma within_swallow {A} (b : Stage -> nat) (m : M (St W) A) (d : A) :
  within b m -> within b (try_except m (fun _ => ret d)).
Proof.
  intros Hm. eapply within_weaken.
  - apply within_try_except; [exact Hm | intros _; apply within_ret].
  - intros s. unfold plus_budget, no_calls. lia.
Qed.

Lemma within_any_ret {A} (b : Stage -> nat) (a : A) : within b (@ret (St W) A a).
Proof.
  eapply within_weaken; [apply within_ret | intros s; unfold no_calls; lia].
Qed.

(** A step with budget [b1] followed by one with budget [b2]. *)
Lemma within_seq {A B} (b1 b2 b : Stage -> nat) (m : M (St W) A) (k : A -> M (St W) B) :
  within b1 m -> (forall a, within b2 (k a)) -> (forall s, b1 s + b2 s <= b s) ->
  within b (bind m k).
Proof.
  intros Hm Hk Hb. eapply within_weaken; [apply within_bind; eassumption | exact Hb].
Qed.

(** A step that calls nothing leaves the budget to what follows. *)
Lemma within_after_silent {A B} (b : Stage -> nat) (m : M (St W) A)
    (k : A -> M (St W) B) :
  within no_calls m -> (forall a, within b (k a)) -> within b (bind m k).
Proof.
  intros Hm Hk. apply (within_seq no_calls b b); [exact Hm | exact Hk |].
  intros s. unfold no_calls. lia.
Qed.

(** A step followed by one that calls nothing. *)
Lemma within_then_silent {A B} (b : Stage -> nat) (m : M (St W) A)
    (k : A -> M (St W) B) :
  within b m -> (forall a, within no_calls (k a)) -> within b (bind m k).
Proof.
  intros Hm Hk. apply (within_seq b no_calls b); [exact Hm | exact Hk |].
  intros s. unfold no_calls. lia.
Qed.

(** A list of calls of one stage, at most [n] long. *)
Lemma within_of_list {A} (s0 : Stage) (n : nat) (m : M (St W) A) :
  (forall st, exists l,
      calls (snd (m st)) = calls st ++ l /\ Forall (in_stage s0) l /\
      List.length l <= n) ->
  within (only s0 n) m.
Proof.
  intros H st. destruct (H st) as (l & Hl & Hs & Hn). exists l. split; [exact Hl |].
  intros s. unfold only. destruct (Stage_eqb s s0) eqn:Heq.
  - unfold count_calls. etransitivity; [apply filter_length_le | exact Hn].
  - rewrite (count_calls_in_stage s0 s l Hs); [lia |]. now rewrite Stage_eqb_sym.
Qed.

(** Every call belongs to one stage. *)
Lemma length_by_stage (l : list Call) :
  List.length l =
    count_calls Validating l + count_calls RateLimiting l + count_calls Provisioning l +
    count_calls Ingesting l + count_calls SessionCaching l + count_calls Scoring l +
    count_calls AggregatingMetrics l + count_calls Reading l + count_calls Storing l.
Proof.
  induction l as [| c l IH]; [reflexivity |].
  change (c :: l) with ([c] ++ l). rewrite !count_calls_app, !count_calls_single.
  cbn [List.length app]. rewrite IH. destruct (stage_of c); simpl; lia.
Qed.
End Budgets.

(** Steps that call nothing. *)
Ltac silent_step :=
  match goal with
  | |- within no_calls (bind _ _) => apply within_after_silent; [| intros ?]
  | |- within no_calls (ret _) => apply within_ret
  | |- within no_calls (raise _) => apply within_raise
  | |- within no_calls (lift_sum _) => apply within_lift_sum
  | |- within no_calls (result _) => apply within_lift_sum
  | |- within no_calls (quiet _) => apply within_quiet
  | |- within no_calls (if ?b then _ else _) => destruct b
  | |- within no_calls (match ?x with _ => _ end) => destruct x
  end.

Section FurtherProperties.
Context {W : Type}.
Variable E : Env W.
Variable environment : string.
Variable feature_service : FeatureService W.
Variable clustering_service : ClusteringServiceT W.
Variable intent_service : IntentService W.

Local Abbreviation datetime_utcnow := (datetime_utcnow E).
Local Abbreviation py_json_loads := (py_json_loads E).
Local Abbreviation cache_function_name := (cache_function_name environment).
Local Abbreviation api_keys_table := (api_keys_table environment).
Local Abbreviation kinesis_stream_name := (kinesis_stream_name environment).
Local Abbreviation _invoke_cache_function := (_invoke_cache_function E environment).
Local Abbreviation _validate_api_key_async := (_validate_api_key_async E environment).
Local Abbreviation _check_rate_limit := (_check_rate_limit E environment).
Local Abbreviation _check_existing_models := (_check_existing_models E environment).
Local Abbreviation _auto_provision_models := (_auto_provision_models E environment).
Local Abbreviation _ingest_event_to_stream := (_ingest_event_to_stream E environment).
Local Abbreviation _cache_session_data := (_cache_session_data E environment).
Local Abbreviation _process_with_ml_pipeline :=
  (_process_with_ml_pipeline feature_service clustering_service intent_service).
Local Abbreviation _update_real_time_metrics := (_update_real_time_metrics E environment).
Local Abbreviation _store_api_key := (_store_api_key E environment).
Local Abbreviation process_event :=
  (process_event E environment feature_service clustering_service intent_service).
Local Abbreviation loads_json_data := (loads_json_data E).
Local Abbreviation _get_user_session_summary := (_get_user_session_summary E environment).
Local Abbreviation sessions_table := (sessions_table environment).
Local Abbreviation _get_cached_metrics := (_get_cached_metrics E environment).
Local Abbreviation _get_platform_breakdown := (_get_platform_breakdown E environment).
Local Abbreviation insights_try := (insights_try E).
Local Abbreviation _generate_user_insights := (_generate_user_insights E).
Local Abbreviation _get_intent_distribution := (_get_intent_distribution intent_service).
Local Abbreviation clusters_table := (clusters_table environment).
Local Abbreviation feature_store_table := (feature_store_table environment).
Local Abbreviation get_user_insights := (get_user_insights E environment feature_service).
Local Abbreviation create_api_key := (create_api_key E environment).

(** ** Where an accepted key comes from *)

Lemma py_json_loads_data (v r : pyval) (st st' : St W) :
  loads_json_data -> py_json_loads v st = (inr r, st') ->
  json_serializable r = true /\ st' = st.
Proof.
  intros Hj. unfold py_json_loads. destruct v; try discriminate.
  destruct (json_loads E s) eqn:Hl; [| discriminate].
  unfold ret. intros H. inversion H; subst. split; [now apply (Hj s) | reflexivity].
Qed.

Lemma py_get_data (v : pyval) (k : string) (default r : pyval) :
  json_serializable v = true -> json_serializable default = true ->
  py_get v k default = inr r -> json_serializable r = true.
Proof.
  intros Hv Hd. destruct v; try discriminate. simpl. unfold dict_get.
  destruct (dict_lookup k d) eqn:Hl; intros H; inversion H; subst.
  - now apply (json_serializable_lookup d k).
  - exact Hd.
Qed.

(** Whatever the cache function hands back was parsed from JSON, or is
    the empty dict of the [except] clause. *)
Lemma _invoke_cache_function_data (op : string) (payload : dict) (st st' : St W)
    (reply : pyval) :
  loads_json_data ->
  _invoke_cache_function op payload st = (inr reply, st') ->
  json_serializable reply = true.
Proof.
  intros Hj. unfold _invoke_cache_function, try_except, bind.
  destruct (json_dumps _ st) as [[e | []] s0]; [intros H; now inversion H |].
  destruct (invoke _ _ s0) as [[e | raw] s1]; [intros H; now inversion H |].
  destruct (py_json_loads (VStr raw) s1) as [[e | res] s2] eqn:Hres;
    [intros H; now inversion H |].
  apply (py_json_loads_data _ _ _ _ Hj) in Hres. destruct Hres as [Hres _].
  unfold lift_sum.
  destruct (py_get res "body" VNone) as [e | body] eqn:Hb; [intros H; now inversion H |].
  destruct (py_truthy body).
  - destruct (py_get res "body" (VStr "{}")) as [e | body'] eqn:Hb';
      [intros H; now inversion H |].
    destruct (py_json_loads body' s2) as [[e | parsed] s3] eqn:Hp;
      intros H; inversion H; subst; [reflexivity |].
    now apply (py_json_loads_data _ _ _ _ Hj) in Hp.
  - unfold ret. intros H. inversion H; now subst.
Qed.

Lemma status_accepted_not_data (v : pyval) :
  json_serializable v = true -> status_accepted v = false.
Proof.
  intros Hv. destruct (status_accepted v) eqn:Hs; [| reflexivity].
  apply status_accepted_iff in Hs. destruct Hs as [-> | ->]; discriminate.
Qed.

Lemma APIKeyInfo_of_kwargs_status (v : pyval) (info : APIKeyInfo) :
  APIKeyInfo_of_kwargs v = inr info ->
  exists d, v = VDict d /\ dict_lookup "status" d = Some (status info).
Proof.
  unfold APIKeyInfo_of_kwargs. destruct v; try discriminate.
  destruct (forallb _ d); [| discriminate].
  destruct (dict_lookup "api_key" d); [| discriminate].
  destruct (dict_lookup "customer_id" d); [| discriminate].
  destruct (dict_lookup "status" d) eqn:Hs; [| discriminate].
  destruct (dict_lookup "plan_type" d); [| discriminate].
  destruct (dict_lookup "created_at" d); [| discriminate].
  destruct (dict_lookup "rate_limit" d); [| discriminate].
  destruct (dict_lookup "features_enabled" d); [| discriminate].
  destruct (dict_lookup "metadata" d); [| discriminate].
  intros H. inversion H; subst. simpl. now exists d.
Qed.

(** A record that validation returns with an accepted status was read
    from the key table in this very call. *)
Lemma accepted_record_source key st0 info st1' :
  loads_json_data ->
  _validate_api_key_async key st0 = (inr (Some info), st1') ->
  status_accepted (status info) = true ->
  exists reply st1 response w2 item raw s,
    _invoke_cache_function "validate_api_key" (dict_of [("api_key", VStr key)]) st0
      = (inr reply, st1) /\
    get_item E api_keys_table key (world st1) = (inr response, w2) /\
    dict_lookup "Item" response = Some item /\
    py_get item "status" (VStr "inactive") = inr raw /\
    APIKeyStatus_of raw = inr s /\
    status info = VStatus s /\
    py_get item "rate_limit" (VInt 1000) = inr (rate_limit info) /\
    st1' = mkSt w2 (calls st1 ++ [GetItem api_keys_table key]).
Proof.
  intros Hj Hv Hs.
  destruct (_invoke_cache_function_total E environment "validate_api_key"
              (dict_of [("api_key", VStr key)]) st0) as (reply & st1 & Hr).
  pose proof (_invoke_cache_function_data _ _ _ _ _ Hj Hr) as Hdata.
  unfold _validate_api_key_async in Hv. unfold try_except in Hv.
  rewrite (bind_inr _ _ _ _ _ Hr) in Hv.
  unfold bind at 1, lift_sum at 1 in Hv.
  destruct (py_get reply "cached" VNone) as [e | cached] eqn:Hc; [discriminate |].
  destruct (py_truthy cached).
  - exfalso. unfold bind at 1, lift_sum at 1 in Hv.
    destruct (py_get reply "validation_data" (VDict [])) as [e | vd] eqn:Hvd;
      [discriminate |].
    assert (Hvdd : json_serializable vd = true)
      by (apply (py_get_data reply "validation_data" (VDict []) vd Hdata eq_refl Hvd)).
    destruct (py_truthy vd); [| discriminate].
    unfold bind, lift_sum, ret in Hv.
    destruct (APIKeyInfo_of_kwargs vd) as [e | info'] eqn:Hk; [discriminate |].
    inversion Hv; subst info' st1'.
    destruct (APIKeyInfo_of_kwargs_status _ _ Hk) as (d & -> & Hst).
    pose proof (json_serializable_lookup _ _ _ Hvdd Hst) as Hbad.
    rewrite (status_accepted_not_data _ Hbad) in Hs. discriminate.
  - unfold bind at 1, invoke at 1 in Hv.
    destruct (get_item E api_keys_table key (world st1)) as [[e | response] w2] eqn:Hg;
      [discriminate |].
    destruct (dict_lookup "Item" response) as [item |] eqn:Hi; [| discriminate].
    unfold bind at 1, lift_sum at 1 in Hv.
    destruct (py_getitem item "pk") as [e | pk]; [discriminate |].
    unfold bind at 1, lift_sum at 1 in Hv.
    destruct (py_get item "gsi1pk" (VStr "")) as [e | customer]; [discriminate |].
    unfold bind at 1, lift_sum at 1 in Hv.
    destruct (py_get item "status" (VStr "inactive")) as [e | raw] eqn:Hraw; [discriminate |].
    unfold bind at 1, lift_sum at 1 in Hv.
    destruct (APIKeyStatus_of raw) as [e | s] eqn:Hst; [discriminate |].
    unfold bind at 1, lift_sum at 1 in Hv.
    destruct (py_get item "plan_type" (VStr "trial")) as [e | p]; [discriminate |].
    unfold bind at 1, lift_sum at 1 in Hv.
    destruct (py_get item "gsi1sk" (VStr "")) as [e | created]; [discriminate |].
    unfold bind at 1, lift_sum at 1 in Hv.
    destruct (py_get item "rate_limit" (VInt 1000)) as [e | limit] eqn:Hlim; [discriminate |].
    unfold bind at 1, lift_sum at 1 in Hv.
    destruct (py_get item "features_enabled" (VList [])) as [e | features]; [discriminate |].
    unfold bind at 1, lift_sum at 1 in Hv.
    destruct (py_get item "metadata" (VDict [])) as [e | meta]; [discriminate |].
    rewrite (bind_inr _ _ _ _ _
               (cache_api_key_is_never_sent E environment key
                  (mkAPIKeyInfo pk customer (VStatus s) p created limit features meta)
                  s _ eq_refl)) in Hv.
    unfold ret in Hv. inversion Hv; subst info st1'.
    exists reply, st1, response, w2, item, raw, s.
    repeat (split; [first [reflexivity | assumption] |]). reflexivity.
Qed.

(** X1: with a [json.loads] that returns JSON data, a request is
    accepted only after the key table itself, read in this request,
    returned a record whose status decodes to active or trial, and
    after the rate-limit check let the request through with the rate
    limit of that record (1000 when the record has none).  A record
    delivered by the validation cache never leads to acceptance. *)
Theorem accepted_request_was_authorised_by_the_key_table key ev st r st' :
  loads_json_data ->
  process_event key ev st = (inr r, st') ->
  success r = true ->
  exists t0 st0 reply st1 response w2 item raw s limit st2,
    datetime_utcnow st = (inr t0, st0) /\
    _invoke_cache_function "validate_api_key" (dict_of [("api_key", VStr key)]) st0
      = (inr reply, st1) /\
    get_item E api_keys_table key (world st1) = (inr response, w2) /\
    dict_lookup "Item" response = Some item /\
    py_get item "status" (VStr "inactive") = inr raw /\
    APIKeyStatus_of raw = inr s /\
    (s = ACTIVE \/ s = TRIAL) /\
    py_get item "rate_limit" (VInt 1000) = inr limit /\
    _check_rate_limit key limit (mkSt w2 (calls st1 ++ [GetItem api_keys_table key]))
      = (inr true, st2).
Proof.
  intros Hj Hrun Hok.
  destruct (now_total E st) as (t0 & st0 & Hn).
  destruct (_validate_api_key_async_total E environment key st0) as (v & st1' & Hv).
  destruct v as [info |].
  - destruct (status_accepted (status info)) eqn:Hs.
    + destruct (accepted_record_source _ _ _ _ Hj Hv Hs)
        as (reply & st1 & response & w2 & item & raw & s & Hr & Hg & Hi & Hraw & Hst &
            Hinfo & Hlim & ->).
      destruct (_check_rate_limit_total E environment key (rate_limit info)
                  (mkSt w2 (calls st1 ++ [GetItem api_keys_table key])))
        as (b & st2 & Hc).
      destruct b.
      * exists t0, st0, reply, st1, response, w2, item, raw, s, (rate_limit info), st2.
        repeat (split; [assumption |]).
        split; [| split; assumption].
        rewrite Hinfo in Hs. apply status_accepted_iff in Hs.
        destruct Hs as [Hs | Hs]; inversion Hs; auto.
      * rewrite (process_event_rate_limited E environment feature_service
                   clustering_service intent_service _ _ _ _ _ _ _ _ Hn Hv Hs Hc) in Hrun.
        inversion Hrun; subst r. discriminate.
    + rewrite (process_event_rejected_key E environment feature_service
                 clustering_service intent_service _ _ _ _ _ _ _ Hn Hv) in Hrun.
      * inversion Hrun; subst r. discriminate.
      * right. now exists info.
  - rewrite (process_event_rejected_key E environment feature_service
               clustering_service intent_service _ _ _ _ _ _ _ Hn Hv) in Hrun.
    * inversion Hrun; subst r. discriminate.
    * now left.
Qed.


(** ** What validation sends *)

(** A request that [json.dumps] accepts reaches the cache function
    through exactly one Lambda call; one that it refuses reaches
    nothing. *)
Lemma _invoke_cache_function_calls (op : string) (payload : dict) (st : St W) :
  let request := dict_update (dict_of [("operation", VStr op)]) payload in
  exists reply w,
    _invoke_cache_function op payload st =
      (inr reply,
       if json_serializable (VDict request)
       then mkSt w (calls st ++ [LambdaInvoke cache_function_name request])
       else st).
Proof.
  intros request. unfold _invoke_cache_function, try_except, bind, json_dumps.
  fold request. destruct (json_serializable (VDict request)).
  - unfold ret at 1, invoke.
    destruct (lambda_invoke E cache_function_name request (world st)) as [[e | raw] w].
    + now exists (VDict []), w.
    + unfold py_json_loads at 1.
      destruct (json_loads E raw) as [res |]; [| now exists (VDict []), w].
      unfold ret at 1, lift_sum at 1.
      destruct (py_get res "body" VNone) as [e | body]; [now exists (VDict []), w |].
      destruct (py_truthy body); [| now exists res, w].
      unfold lift_sum.
      destruct (py_get res "body" (VStr "{}")) as [e | body']; [now exists (VDict []), w |].
      unfold py_json_loads. destruct body'; try (now exists (VDict []), w).
      destruct (json_loads E s) as [parsed |]; [now exists parsed, w |].
      now exists (VDict []), w.
  - exists (VDict []), (world st). reflexivity.
Qed.

(** The calls of a validation: the lookup, then at most the table
    read. *)
Lemma _validate_api_key_async_calls key st :
  let lookup :=
    LambdaInvoke cache_function_name
      [("operation", VStr "validate_api_key"); ("api_key", VStr key)] in
  exists v st',
    _validate_api_key_async key st = (inr v, st') /\
    (calls st' = calls st ++ [lookup] \/
     calls st' = calls st ++ [lookup; GetItem api_keys_table key]).
Proof.
  intros lookup.
  destruct (_invoke_cache_function_calls "validate_api_key"
              (dict_of [("api_key", VStr key)]) st) as (reply & w & Hr).
  simpl in Hr. fold lookup in Hr.
  unfold _validate_api_key_async, try_except.
  rewrite (bind_inr _ _ _ _ _ Hr).
  unfold bind at 1, lift_sum at 1.
  destruct (py_get reply "cached" VNone) as [e | cached];
    [eexists _, _; split; [reflexivity | now left] |].
  destruct (py_truthy cached).
  - unfold bind at 1, lift_sum at 1.
    destruct (py_get reply "validation_data" (VDict [])) as [e | vd];
      [eexists _, _; split; [reflexivity | now left] |].
    destruct (py_truthy vd); [| eexists _, _; split; [reflexivity | now left]].
    unfold bind, lift_sum, ret.
    destruct (APIKeyInfo_of_kwargs vd);
      eexists _, _; (split; [reflexivity | now left]).
  - unfold bind at 1, invoke at 1. cbn [world calls].
    destruct (get_item E api_keys_table key w) as [[e | response] w2];
      [eexists _, _; split; [reflexivity | right; cbn [calls]; now rewrite <- app_assoc] |].
    destruct (dict_lookup "Item" response) as [item |];
      [| eexists _, _; split; [reflexivity | right; cbn [calls]; now rewrite <- app_assoc]].
    unfold bind at 1, lift_sum at 1.
    destruct (py_getitem item "pk") as [e | pk];
      [eexists _, _; split; [reflexivity | right; cbn [calls]; now rewrite <- app_assoc] |].
    unfold bind at 1, lift_sum at 1.
    destruct (py_get item "gsi1pk" (VStr "")) as [e | customer];
      [eexists _, _; split; [reflexivity | right; cbn [calls]; now rewrite <- app_assoc] |].
    unfold bind at 1, lift_sum at 1.
    destruct (py_get item "status" (VStr "inactive")) as [e | raw];
      [eexists _, _; split; [reflexivity | right; cbn [calls]; now rewrite <- app_assoc] |].
    unfold bind at 1, lift_sum at 1.
    destruct (APIKeyStatus_of raw) as [e | s];
      [eexists _, _; split; [reflexivity | right; cbn [calls]; now rewrite <- app_assoc] |].
    unfold bind at 1, lift_sum at 1.
    destruct (py_get item "plan_type" (VStr "trial")) as [e | p];
      [eexists _, _; split; [reflexivity | right; cbn [calls]; now rewrite <- app_assoc] |].
    unfold bind at 1, lift_sum at 1.
    destruct (py_get item "gsi1sk" (VStr "")) as [e | created];
      [eexists _, _; split; [reflexivity | right; cbn [calls]; now rewrite <- app_assoc] |].
    unfold bind at 1, lift_sum at 1.
    destruct (py_get item "rate_limit" (VInt 1000)) as [e | limit];
      [eexists _, _; split; [reflexivity | right; cbn [calls]; now rewrite <- app_assoc] |].
    unfold bind at 1, lift_sum at 1.
    destruct (py_get item "features_enabled" (VList [])) as [e | features];
      [eexists _, _; split; [reflexivity | right; cbn [calls]; now rewrite <- app_assoc] |].
    unfold bind at 1, lift_sum at 1.
    destruct (py_get item "metadata" (VDict [])) as [e | meta];
      [eexists _, _; split; [reflexivity | right; cbn [calls]; now rewrite <- app_assoc] |].
    rewrite (bind_inr _ _ _ _ _
               (cache_api_key_is_never_sent E environment key
                  (mkAPIKeyInfo pk customer (VStatus s) p created limit features meta)
                  s _ eq_refl)).
    eexists _, _; split; [reflexivity | right; cbn [calls]; now rewrite <- app_assoc].
Qed.

(** X2: validating a key makes one lookup in the cache function and at
    most one read of the key table, and nothing else: the record read
    from the table is never written to the cache (its status is an enum
    member, which [json.dumps] refuses before the Lambda call), so the
    service itself never fills the cache it consults. *)
Theorem validation_never_writes_the_cache key st :
  let lookup :=
    LambdaInvoke cache_function_name
      [("operation", VStr "validate_api_key"); ("api_key", VStr key)] in
  exists v st',
    _validate_api_key_async key st = (inr v, st') /\
    (calls st' = calls st ++ [lookup] \/
     calls st' = calls st ++ [lookup; GetItem api_keys_table key]).
Proof. exact (_validate_api_key_async_calls key st). Qed.


(** ** Storing a record and reading it back *)

Lemma APIKeyStatus_of_value (s : APIKeyStatus) :
  APIKeyStatus_of (VStr (status_value s)) = inr s.
Proof. now destruct s. Qed.

(** The item [_store_api_key] writes for a record, read back. *)
Lemma written_item_resolves info s item key st reply st1 cached response w2 :
  status info = VStatus s ->
  item = dict_of [("pk", api_key info); ("gsi1pk", customer_id info);
                  ("gsi1sk", created_at info); ("status", VStr (status_value s));
                  ("plan_type", plan_type info); ("rate_limit", rate_limit info);
                  ("features_enabled", features_enabled info);
                  ("metadata", metadata info)] ->
  _invoke_cache_function "validate_api_key" (dict_of [("api_key", VStr key)]) st
    = (inr reply, st1) ->
  py_get reply "cached" VNone = inr cached ->
  py_truthy cached = false ->
  get_item E api_keys_table key (world st1) = (inr response, w2) ->
  dict_lookup "Item" response = Some (VDict item) ->
  _validate_api_key_async key st =
    (inr (Some info), mkSt w2 (calls st1 ++ [GetItem api_keys_table key])).
Proof.
  intros Hs Hitem Hr Hc Hmiss Hg Hi.
  unfold _validate_api_key_async, try_except.
  rewrite (bind_inr _ _ _ _ _ Hr).
  unfold bind at 1, lift_sum at 1. rewrite Hc, Hmiss.
  unfold bind at 1, invoke at 1. rewrite Hg, Hi.
  assert (H1 : py_getitem (VDict item) "pk" = inr (api_key info))
    by (subst item; reflexivity).
  assert (H2 : py_get (VDict item) "gsi1pk" (VStr "") = inr (customer_id info))
    by (subst item; reflexivity).
  assert (H3 : py_get (VDict item) "status" (VStr "inactive") = inr (VStr (status_value s)))
    by (subst item; reflexivity).
  assert (H4 : py_get (VDict item) "plan_type" (VStr "trial") = inr (plan_type info))
    by (subst item; reflexivity).
  assert (H5 : py_get (VDict item) "gsi1sk" (VStr "") = inr (created_at info))
    by (subst item; reflexivity).
  assert (H6 : py_get (VDict item) "rate_limit" (VInt 1000) = inr (rate_limit info))
    by (subst item; reflexivity).
  assert (H7 : py_get (VDict item) "features_enabled" (VList [])
               = inr (features_enabled info))
    by (subst item; reflexivity).
  assert (H8 : py_get (VDict item) "metadata" (VDict []) = inr (metadata info))
    by (subst item; reflexivity).
  clear Hitem.
  unfold bind at 1, lift_sum at 1. rewrite H1.
  unfold bind at 1, lift_sum at 1. rewrite H2.
  unfold bind at 1, lift_sum at 1. rewrite H3.
  unfold bind at 1, lift_sum at 1. rewrite APIKeyStatus_of_value.
  unfold bind at 1, lift_sum at 1. rewrite H4.
  unfold bind at 1, lift_sum at 1. rewrite H5.
  unfold bind at 1, lift_sum at 1. rewrite H6.
  unfold bind at 1, lift_sum at 1. rewrite H7.
  unfold bind at 1, lift_sum at 1. rewrite H8.
  rewrite (bind_inr _ _ _ _ _
             (cache_api_key_is_never_sent E environment key
                (mkAPIKeyInfo (api_key info) (customer_id info) (VStatus s) (plan_type info)
                   (created_at info) (rate_limit info) (features_enabled info)
                   (metadata info)) s _ eq_refl)).
  unfold ret. destruct info as [a c st' p t r f m]. simpl in Hs. now subst st'.
Qed.

(** X3: a key record written by [_store_api_key] and handed back
    unchanged by the key table is decoded by validation into the very
    record that was stored: the status member goes out as its text and
    comes back as the same member, and every other field is returned as
    it was given.  (The lookup in the cache function must not claim a
    hit; the write-back to the cache is dropped, so the table read is
    the last call.) *)
Theorem stored_record_is_read_back info s st0 r0 st0' item
    key st reply st1 cached response w2 :
  status info = VStatus s ->
  _store_api_key info st0 = (r0, st0') ->
  calls st0' = calls st0 ++ [PutItem api_keys_table item] ->
  _invoke_cache_function "validate_api_key" (dict_of [("api_key", VStr key)]) st
    = (inr reply, st1) ->
  py_get reply "cached" VNone = inr cached ->
  py_truthy cached = false ->
  get_item E api_keys_table key (world st1) = (inr response, w2) ->
  dict_lookup "Item" response = Some (VDict item) ->
  _validate_api_key_async key st =
    (inr (Some info), mkSt w2 (calls st1 ++ [GetItem api_keys_table key])).
Proof.
  intros Hs Hstore Hlog Hr Hc Hmiss Hg Hi.
  apply (written_item_resolves info s item key st reply st1 cached response w2 Hs);
    try assumption.
  unfold _store_api_key, try_except, bind, lift_sum, enum_value, invoke in Hstore.
  rewrite Hs in Hstore.
  destruct (put_item E _ _ (world st0)) as [[e | []] w] in Hstore;
    inversion Hstore; subst st0'; cbn [calls] in Hlog;
    apply app_inv_head in Hlog; now inversion Hlog.
Qed.

(** The item [create_api_key] writes. *)
Lemma create_api_key_item customer plan_name meta st :
  exists key created limit features rest,
    _get_plan_configuration plan_name =
      [("rate_limit", VInt limit); ("features", VList features)] /\
    calls (snd (create_api_key customer plan_name meta st)) =
      calls st ++
      PutItem api_keys_table
        (dict_of [("pk", VStr key); ("gsi1pk", VStr customer);
                  ("gsi1sk", VStr created);
                  ("status",
                   VStr (status_value
                           (if String.eqb plan_name "trial" then TRIAL else ACTIVE)));
                  ("plan_type", VStr plan_name); ("rate_limit", VInt limit);
                  ("features_enabled", VList features);
                  ("metadata", if py_truthy meta then meta else VDict [])])
      :: rest.
Proof.
  destruct (_get_plan_configuration_entries plan_name) as (limit & features & Hcfg).
  unfold create_api_key, _generate_api_key, _store_api_key,
    _auto_provision_infrastructure, auto_provision_enabled,
    datetime_utcnow, try_except, bind, quiet, invoke, note, lift_sum, ret, raise.
  rewrite Hcfg. simpl.
  destruct (uuid4 E (world st)) as [fresh w1]. simpl.
  destruct (utcnow E w1) as [t w2]. simpl.
  destruct (utcnow E w2) as [created w3]. simpl.
  destruct (String.eqb plan_name "trial") eqn:Hplan; simpl;
    (match goal with
     | |- context [put_item E ?tbl ?item ?w] =>
         destruct (put_item E tbl item w) as [[e | []] w4]
     end); simpl;
    try (destruct (utcnow E w4) as [t' w5]; simpl);
    eexists _, _, limit, features, _;
    (split; [reflexivity |]); simpl; rewrite <- ?app_assoc; simpl; reflexivity.
Qed.

(** X22: a key made by [create_api_key] is accepted as soon as the key
    table serves the record that was written: validation decodes it to
    a record of the customer with status trial for the trial plan and
    active for every other plan name, known or not, and with the rate
    limit of the plan's configuration (the trial one for an unknown
    name); both statuses are accepted by [process_event]. *)
Theorem created_key_is_accepted customer plan_name meta st0 r0 st0' item rest
    key st reply st1 cached response w2 :
  create_api_key customer plan_name meta st0 = (r0, st0') ->
  calls st0' = calls st0 ++ PutItem api_keys_table item :: rest ->
  _invoke_cache_function "validate_api_key" (dict_of [("api_key", VStr key)]) st
    = (inr reply, st1) ->
  py_get reply "cached" VNone = inr cached ->
  py_truthy cached = false ->
  get_item E api_keys_table key (world st1) = (inr response, w2) ->
  dict_lookup "Item" response = Some (VDict item) ->
  exists info,
    _validate_api_key_async key st =
      (inr (Some info), mkSt w2 (calls st1 ++ [GetItem api_keys_table key])) /\
    status info = VStatus (if String.eqb plan_name "trial" then TRIAL else ACTIVE) /\
    status_accepted (status info) = true /\
    customer_id info = VStr customer /\
    plan_type info = VStr plan_name /\
    dict_lookup "rate_limit" (_get_plan_configuration plan_name)
      = Some (rate_limit info).
Proof.
  intros Hcreate Hlog Hr Hc Hmiss Hg Hi.
  destruct (create_api_key_item customer plan_name meta st0)
    as (key0 & created & limit & features & rest0 & Hcfg & Hitem).
  rewrite Hcreate in Hitem. cbn [snd] in Hitem. rewrite Hlog in Hitem.
  apply app_inv_head in Hitem. inversion Hitem as [[Hitem' Hrest]]. clear Hitem.
  set (s := if String.eqb plan_name "trial" then TRIAL else ACTIVE) in *.
  exists (mkAPIKeyInfo (VStr key0) (VStr customer) (VStatus s) (VStr plan_name)
            (VStr created) (VInt limit) (VList features)
            (if py_truthy meta then meta else VDict [])).
  split; [| split; [reflexivity | split; [| split; [reflexivity | split;
    [reflexivity |]]]]].
  - apply (written_item_resolves _ s item key st reply st1 cached response w2);
      try assumption; reflexivity.
  - cbn [status]. subst s. now destruct (String.eqb plan_name "trial").
  - rewrite Hcfg. reflexivity.
Qed.

(** ** The record appended to the stream *)

(** X4: the record [_ingest_event_to_stream] appends is the client's
    event with three fields set by the service: [apiKey] is always the
    key the request was authenticated with, whatever [apiKey] the client
    put in the event; [ingestionTime] is a text written by the service;
    [eventId] is the client's when the event has one and a fresh id
    otherwise.  Every other field is passed on untouched, the partition
    key is the API key, a hash sign and the anonymous id ('unknown' when
    the event has none), and the method makes this one call or, when the
    record cannot be serialised, none. *)
Theorem stream_record_carries_the_authenticated_key key ev st :
  exists data t fresh st',
    _ingest_event_to_stream key ev st = (inr tt, st') /\
    calls st' =
      calls st ++
      (if json_serializable (VDict data)
       then [PutRecord kinesis_stream_name data
               (key ++ "#" ++ fmt E (dict_get ev "anonId" (VStr "unknown")))%string]
       else []) /\
    dict_lookup "apiKey" data = Some (VStr key) /\
    dict_lookup "ingestionTime" data = Some (VStr t) /\
    dict_lookup "eventId" data = Some (dict_get ev "eventId" (VStr fresh)) /\
    (forall k, k <> "apiKey" -> k <> "ingestionTime" -> k <> "eventId" ->
               dict_lookup k data = dict_lookup k ev) /\
    (json_serializable (VDict ev) = true -> json_serializable (VDict data) = true).
Proof.
  unfold _ingest_event_to_stream, try_except, bind, datetime_utcnow, quiet, json_dumps.
  destruct (utcnow E (world st)) as [t w1]. cbn [world calls].
  destruct (uuid4 E w1) as [fresh w2]. cbn [world calls].
  set (data := dict_update ev _).
  exists data, (isoformat E t), fresh.
  assert (Hdata : data =
            dict_set "eventId" (dict_get ev "eventId" (VStr fresh))
              (dict_set "ingestionTime" (VStr (isoformat E t))
                 (dict_set "apiKey" (VStr key) ev))) by reflexivity.
  assert (Hprops :
            dict_lookup "apiKey" data = Some (VStr key) /\
            dict_lookup "ingestionTime" data = Some (VStr (isoformat E t)) /\
            dict_lookup "eventId" data = Some (dict_get ev "eventId" (VStr fresh)) /\
            (forall k, k <> "apiKey" -> k <> "ingestionTime" -> k <> "eventId" ->
                       dict_lookup k data = dict_lookup k ev) /\
            (json_serializable (VDict ev) = true ->
             json_serializable (VDict data) = true)).
  { rewrite Hdata. split; [| split; [| split; [| split]]].
    - rewrite !dict_lookup_set_other by discriminate. apply dict_lookup_set_same.
    - rewrite dict_lookup_set_other by discriminate. apply dict_lookup_set_same.
    - apply dict_lookup_set_same.
    - intros k H1 H2 H3. now rewrite !dict_lookup_set_other.
    - intros Hev. apply json_serializable_set; [apply json_serializable_set;
        [apply json_serializable_set |] |]; try reflexivity; try assumption.
      unfold dict_get. destruct (dict_lookup "eventId" ev) eqn:Hl; [| reflexivity].
      now apply (json_serializable_lookup ev "eventId"). }
  destruct (json_serializable (VDict data)).
  - unfold ret at 1, invoke. cbn [world calls].
    destruct (put_record E _ _ _ w2) as [[e | response] w3];
      eexists; (split; [reflexivity | split; [reflexivity | exact Hprops]]).
  - eexists. split; [reflexivity |]. split; [| exact Hprops].
    cbn [calls]. now rewrite app_nil_r.
Qed.


(** ** The metrics of an event *)

Lemma py_lt_mapping (x : pyval) (d : dict) : py_lt x (VDict d) = inl TypeError.
Proof. destruct x; reflexivity. Qed.

(** [max] over entries by value fails as soon as it meets a mapping
    after the first entry: a mapping is not ordered against anything. *)
Lemma py_max_by_value_mapping (rest : list (string * pyval)) :
  existsb (fun kv => is_mapping (snd kv)) rest = true ->
  forall best, exists e, py_max_by_value best rest = inl e.
Proof.
  induction rest as [| kv r IH]; [discriminate |].
  intros H best. simpl in H. simpl.
  destruct (py_gt (snd kv) (snd best)) as [e | b] eqn:Hgt; [now exists e |].
  destruct (is_mapping (snd kv)) eqn:Hm.
  - exfalso. unfold py_gt in Hgt. destruct (snd kv); try discriminate.
    now rewrite py_lt_mapping in Hgt.
  - simpl in H. destruct b; now apply IH.
Qed.

(** X5: an event whose intent result is a mapping with a nested mapping
    after its first entry gets no metrics at all: picking the primary
    intent compares the entries by value, the comparison raises, the
    [except] clause returns the empty dict, and the update of the
    counters is never sent to the cache function.  The default scores of
    the intent service ('anon_id' first, then the 'intent_scores'
    mapping) have this shape, and so has a model prediction ('anon_id',
    'api_key', then the 'intent_scores' mapping): an event that was
    scored leaves the counters untouched, the total-event counter
    included. *)
Theorem scored_event_is_not_counted key ev ml st :
  (forall kv rest,
      dict_get ml "intent_scores" VNone = VDict (kv :: rest) ->
      existsb (fun e => is_mapping (snd e)) rest = true ->
      _update_real_time_metrics key ev ml st = (inr (VDict []), st)) /\
  (forall (features cluster anon d : pyval) (w w' : W),
      IntentScoringService._generate_default_scores E anon w = (inr d, w') ->
      _update_real_time_metrics key ev (scoring_results features cluster d) st
      = (inr (VDict []), st)).
Proof.
  assert (Hgen : forall ml' kv rest,
             dict_get ml' "intent_scores" VNone = VDict (kv :: rest) ->
             existsb (fun e => is_mapping (snd e)) rest = true ->
             _update_real_time_metrics key ev ml' st = (inr (VDict []), st)).
  { intros ml' kv rest Hscores Hnested.
    assert (Hitem : py_getitem (VDict ml') "intent_scores" = inr (VDict (kv :: rest))).
    { unfold dict_get in Hscores. simpl.
      destruct (dict_lookup "intent_scores" ml'); [now subst | discriminate]. }
    destruct (py_max_by_value_mapping rest Hnested kv) as (e & Hmax).
    unfold _update_real_time_metrics, try_except, bind, lift_sum.
    destruct (py_concat "platform_" _) as [e1 | platform_key]; [reflexivity |].
    destruct (py_concat "event_" _) as [e2 | event_key]; [reflexivity |].
    destruct (py_get (dict_get ml' "cluster" (VDict [])) "cluster_id" VNone)
      as [e3 | cluster_id]; [reflexivity |].
    rewrite Hscores, Hitem. cbn [py_truthy].
    destruct (py_truthy cluster_id).
    - destruct (py_getitem (VDict ml') "cluster") as [e4 | cluster]; [reflexivity |].
      destruct (py_getitem cluster "cluster_id") as [e5 | cid]; [reflexivity |].
      unfold ret at 1. unfold ret at 1. now rewrite Hmax.
    - unfold ret at 1. unfold ret at 1. now rewrite Hmax. }
  split; [apply Hgen |].
  intros features cluster anon d w w'.
  unfold IntentScoringService._generate_default_scores.
  destruct (utcnow E w) as [now w'']. intros Hd. inversion Hd; subst d w''.
  eapply Hgen; reflexivity.
Qed.


Lemma metrics_update_is_sent key (m : dict) (st : St W) :
  json_serializable (VDict m) = true ->
  exists w,
    bind (_invoke_cache_function "update_metrics"
            (dict_of [("api_key", VStr key); ("metrics", VDict m)]))
         (fun _ => ret (VDict m)) st =
    (inr (VDict m),
     mkSt w (calls st ++
               [LambdaInvoke cache_function_name
                  [("operation", VStr "update_metrics"); ("api_key", VStr key);
                   ("metrics", VDict m)]])).
Proof.
  intros Hm.
  destruct (_invoke_cache_function_calls "update_metrics"
              (dict_of [("api_key", VStr key); ("metrics", VDict m)]) st)
    as (reply & w & Hr).
  cbv zeta in Hr.
  change (dict_update (dict_of [("operation", VStr "update_metrics")])
            (dict_of [("api_key", VStr key); ("metrics", VDict m)]))
    with [("operation", VStr "update_metrics"); ("api_key", VStr key);
          ("metrics", VDict m)] in Hr.
  assert (Hs : json_serializable
                 (VDict [("operation", VStr "update_metrics"); ("api_key", VStr key);
                         ("metrics", VDict m)]) = true).
  { simpl. simpl in Hm. now rewrite Hm. }
  rewrite Hs in Hr. exists w. now rewrite (bind_inr _ _ _ _ _ Hr).
Qed.

(** The two ways a run of [_update_real_time_metrics] ends. *)
Ltac leaf_fail := eexists _, _; split; [reflexivity | left; split; reflexivity].

Ltac leaf_ok key st p n :=
  match goal with
  | |- context [_invoke_cache_function "update_metrics"
                  (dict_of [_; ("metrics", VDict ?m)])] =>
      let m' := eval cbn [dict_set dict_of dict_update fold_left fst snd String.eqb
                          Ascii.eqb Bool.eqb append] in m in
      change m with m';
      let w := fresh "w" in
      let Hw := fresh "Hw" in
      destruct (metrics_update_is_sent key m' st eq_refl) as (w & Hw);
      rewrite Hw; eexists _, _; split; [reflexivity |];
      right; eexists p, n, _, w;
      split; [reflexivity |]; split; [reflexivity |];
      split; [cbn [app]; reflexivity |]; split; [reflexivity |];
      repeat (apply Forall_cons;
                [cbn [fst snd]; split;
                 [reflexivity
                 | first [left; apply (prefix_app "cluster_")
                         | right; apply (prefix_app "intent_")]] |]);
      apply Forall_nil
  end.

(** The counters of one event: the five that are always there, then
    the cluster and intent counters when the scoring gave them. *)
Lemma _update_real_time_metrics_run key ev ml st :
  exists r st',
    _update_real_time_metrics key ev ml st = (inr r, st') /\
    (r = VDict [] /\ st' = st \/
     exists p n extras w,
       dict_get ev "platform" (VStr "unknown") = VStr p /\
       dict_get ev "eventName" (VStr "unknown") = VStr n /\
       r = VDict ([("total_events", VInt 1);
                   ("unique_sessions", flag (dict_get ev "sessionId" VNone));
                   ("unique_users", flag (dict_get ev "anonId" VNone));
                   (("platform_" ++ p)%string, VInt 1);
                   (("event_" ++ n)%string, VInt 1)] ++ extras) /\
       st' = mkSt w (calls st ++
                       [LambdaInvoke cache_function_name
                          [("operation", VStr "update_metrics"); ("api_key", VStr key);
                           ("metrics",
                            VDict ([("total_events", VInt 1);
                                    ("unique_sessions",
                                     flag (dict_get ev "sessionId" VNone));
                                    ("unique_users", flag (dict_get ev "anonId" VNone));
                                    (("platform_" ++ p)%string, VInt 1);
                                    (("event_" ++ n)%string, VInt 1)] ++ extras))]]) /\
       Forall (fun kv => snd kv = VInt 1 /\
                         (prefix "cluster_" (fst kv) = true \/
                          prefix "intent_" (fst kv) = true)) extras).
Proof.
  unfold _update_real_time_metrics, try_except.
  unfold bind at 1, lift_sum at 1.
  destruct (dict_get ev "platform" (VStr "unknown")) as [| b | z | q | p | l | d | t];
    try leaf_fail.
  cbn [py_concat].
  unfold bind at 1, lift_sum at 1.
  destruct (dict_get ev "eventName" (VStr "unknown")) as [| b | z | q | n | l | d | t];
    try leaf_fail.
  cbn [py_concat].
  unfold bind at 1, lift_sum at 1.
  destruct (py_get (dict_get ml "cluster" (VDict [])) "cluster_id" VNone) as [e | cid0];
    [leaf_fail |].
  unfold bind at 1.
  destruct (py_truthy cid0).
  - unfold bind at 1, lift_sum at 1.
    destruct (py_getitem (VDict ml) "cluster") as [e | cluster]; [leaf_fail |].
    unfold bind at 1, lift_sum at 1.
    destruct (py_getitem cluster "cluster_id") as [e | cid]; [leaf_fail |].
    unfold ret at 1.
    unfold bind at 1.
    destruct (py_truthy (dict_get ml "intent_scores" VNone)).
    + unfold bind at 1, lift_sum at 1.
      destruct (py_getitem (VDict ml) "intent_scores") as [e | scores]; [leaf_fail |].
      unfold bind at 1.
      destruct scores as [| b | z | q | s | l | [| kv r0] | t]; try leaf_fail.
      * unfold ret at 1. cbn [py_truthy]. unfold ret at 1. leaf_ok key st p n.
      * unfold bind at 1, lift_sum at 1.
        destruct (py_max_by_value kv r0) as [e | best]; [leaf_fail |].
        unfold ret at 1.
        destruct (py_truthy (VStr (fst best))); unfold ret at 1; leaf_ok key st p n.
    + unfold ret at 1. leaf_ok key st p n.
  - unfold ret at 1.
    unfold bind at 1.
    destruct (py_truthy (dict_get ml "intent_scores" VNone)).
    + unfold bind at 1, lift_sum at 1.
      destruct (py_getitem (VDict ml) "intent_scores") as [e | scores]; [leaf_fail |].
      unfold bind at 1.
      destruct scores as [| b | z | q | s | l | [| kv r0] | t]; try leaf_fail.
      * unfold ret at 1. cbn [py_truthy]. unfold ret at 1. leaf_ok key st p n.
      * unfold bind at 1, lift_sum at 1.
        destruct (py_max_by_value kv r0) as [e | best]; [leaf_fail |].
        unfold ret at 1.
        destruct (py_truthy (VStr (fst best))); unfold ret at 1; leaf_ok key st p n.
    + unfold ret at 1. leaf_ok key st p n.
Qed.

(** X6: the metrics [_update_real_time_metrics] returns are the ones it
    sent: either it returns the empty dict and has called nothing, or it
    returns a dict of counters and has made exactly one [update_metrics]
    call to the cache function carrying that same dict, whether or not
    the cache function then accepted it.  The dict counts the event
    once ([total_events] is 1), flags the session and the user by the
    presence of their ids, and holds only increments of 0 or 1. *)
Theorem reported_metrics_are_the_ones_sent key ev ml st :
  exists r st',
    _update_real_time_metrics key ev ml st = (inr r, st') /\
    (r = VDict [] /\ st' = st \/
     exists m w,
       r = VDict m /\
       st' = mkSt w (calls st ++
                       [LambdaInvoke cache_function_name
                          [("operation", VStr "update_metrics"); ("api_key", VStr key);
                           ("metrics", VDict m)]]) /\
       dict_lookup "total_events" m = Some (VInt 1) /\
       dict_lookup "unique_sessions" m = Some (flag (dict_get ev "sessionId" VNone)) /\
       dict_lookup "unique_users" m = Some (flag (dict_get ev "anonId" VNone)) /\
       Forall (fun kv => snd kv = VInt 1 \/ snd kv = VInt 0) m).
Proof.
  destruct (_update_real_time_metrics_run key ev ml st)
    as (r & st' & Hrun & [[-> ->] | (p & n & extras & w & _ & _ & -> & -> & Hx)]).
  - exists (VDict []), st. split; [exact Hrun | now left].
  - eexists _, _. split; [exact Hrun |]. right. eexists _, w.
    split; [reflexivity |]. split; [reflexivity |].
    split; [reflexivity |]. split; [reflexivity |]. split; [reflexivity |].
    assert (Hflag : forall v, flag v = VInt 1 \/ flag v = VInt 0).
    { intros v. unfold flag. destruct (py_truthy v); auto. }
    cbn [app].
    repeat (apply Forall_cons; [cbn [snd]; auto |]).
    eapply Forall_impl; [| exact Hx]. cbn beta. tauto.
Qed.

(** ** The insights of a user *)

Lemma preserves_ret {S A : Type} (I : S -> Prop) (a : A) : preserves I (@ret S A a).
Proof. intros s Hs. exact Hs. Qed.

Lemma preserves_raise {S A : Type} (I : S -> Prop) (e : exn) : preserves I (@raise S A e).
Proof. intros s Hs. exact Hs. Qed.

Lemma preserves_lift_sum {S A : Type} (I : S -> Prop) (r : exn + A) :
  preserves I (@lift_sum S A r).
Proof. intros s Hs. exact Hs. Qed.

Lemma preserves_bind {S A B : Type} (I : S -> Prop) (m : M S A) (k : A -> M S B) :
  preserves I m -> (forall a, preserves I (k a)) -> preserves I (bind m k).
Proof.
  intros Hm Hk s Hs. specialize (Hm s Hs). unfold bind.
  destruct (m s) as [[e | a] s']; simpl in *; [exact Hm | now apply Hk].
Qed.

Ltac preserves_step :=
  match goal with
  | |- preserves _ (bind _ _) => apply preserves_bind; [| intros ?]
  | |- preserves _ (ret _) => apply preserves_ret
  | |- preserves _ (raise _) => apply preserves_raise
  | |- preserves _ (lift_sum _) => apply preserves_lift_sum
  | |- preserves _ (if ?b then _ else _) => destruct b
  | |- preserves _ (match ?x with _ => _ end) => destruct x
  end.

Lemma set_behavioral_type_shape (t : string) :
  preserves insights_shape (set_key "behavioral_type" (VStr t)).
Proof.
  intros d (bt & el & pi & recs & -> & Hel & Hrecs). simpl.
  now exists t, el, pi, recs.
Qed.

Lemma set_engagement_level_shape (l : string) :
  In l ["high"; "medium"; "low"] ->
  preserves insights_shape (set_key "engagement_level" (VStr l)).
Proof.
  intros Hl d (bt & el & pi & recs & -> & Hel & Hrecs). simpl.
  now exists bt, l, pi, recs.
Qed.

Lemma set_primary_intent_shape (i : string) :
  preserves insights_shape (set_key "primary_intent" (VStr i)).
Proof.
  intros d (bt & el & pi & recs & -> & Hel & Hrecs). simpl.
  now exists bt, el, i, recs.
Qed.

Lemma set_recommendations_shape (l : list pyval) :
  incl l recommendation_texts ->
  preserves insights_shape (set_key "recommendations" (VList l)).
Proof.
  intros Hl d (bt & el & pi & recs & -> & Hel & Hrecs). simpl.
  now exists bt, el, pi, l.
Qed.

Lemma insights_try_shape (features cluster_info intent_scores : pyval) :
  preserves insights_shape (insights_try features cluster_info intent_scores).
Proof.
  unfold insights_try.
  repeat first
    [ preserves_step
    | apply set_behavioral_type_shape
    | apply set_primary_intent_shape
    | apply set_engagement_level_shape; simpl; tauto
    | apply set_recommendations_shape ].
  all: repeat match goal with |- context [if ?b then _ else _] => destruct b end.
  all: unfold recommendation_texts; intros x Hx; simpl in *; tauto.
Qed.

(** X7: whatever it is given, and wherever its [try] block gives up,
    [_generate_user_insights] returns a mapping with exactly the four
    entries 'behavioral_type', 'engagement_level', 'primary_intent' and
    'recommendations', in this order: three texts and a list.  The
    engagement level is one of 'high', 'medium' and 'low', and the list
    holds only texts among the three recommendations of the method. *)
Theorem insights_always_have_their_four_entries (features cluster_info intent_scores : pyval) :
  exists behavioral_type engagement_level primary_intent recommendations,
    _generate_user_insights features cluster_info intent_scores =
      VDict [("behavioral_type", VStr behavioral_type);
             ("engagement_level", VStr engagement_level);
             ("primary_intent", VStr primary_intent);
             ("recommendations", VList recommendations)] /\
    In engagement_level ["high"; "medium"; "low"] /\
    incl recommendations recommendation_texts.
Proof.
  unfold _generate_user_insights.
  destruct (insights_try_shape features cluster_info intent_scores
              (dict_of [("behavioral_type", VStr "unknown");
                        ("engagement_level", VStr "medium");
                        ("primary_intent", VStr "browse");
                        ("recommendations", VList [])]))
    as (bt & el & pi & recs & Hd & Hel & Hrecs).
  - exists "unknown", "medium", "browse", []. simpl. split; [reflexivity |].
    split; [tauto | intros x []].
  - exists bt, el, pi, recs. now rewrite Hd.
Qed.

Lemma set_key_keeps_other (k k' : string) (x : pyval) (v : option pyval) :
  k' <> k ->
  preserves (fun d => dict_lookup k' d = v) (set_key k x).
Proof.
  intros Hne d Hd. simpl. now rewrite dict_lookup_set_other.
Qed.

Lemma py_gt_threshold (score : pyval) (q : Q) (n : Z) (p : positive) :
  num_of score = Some q ->
  py_gt score (VFloat (Qmake n p)) = inr (Qlt_bool (Qmake n p) q).
Proof. intros H. unfold py_gt. simpl. now rewrite H. Qed.

Lemma py_lt_threshold (score : pyval) (q : Q) (n : Z) (p : positive) :
  num_of score = Some q ->
  py_lt score (VFloat (Qmake n p)) = inr (Qlt_bool q (Qmake n p)).
Proof. intros H. destruct score; simpl in *; try discriminate; now inversion H. Qed.

(** X8: for a feature mapping and a cluster mapping, the engagement
    level reported is decided by the engagement score alone: 'high'
    above 0.7, 'low' below 0.3, 'medium' in between, both bounds
    included, a missing score counting as 0.5.  It is kept even when
    the later steps of the method (primary intent, recommendations)
    raise. *)
Theorem engagement_level_follows_the_thresholds (f c : dict) (intent_scores : pyval) (q : Q) :
  num_of (dict_get f "engagement_score" (VFloat half)) = Some q ->
  py_getitem (_generate_user_insights (VDict f) (VDict c) intent_scores) "engagement_level"
    = inr (VStr (engagement_level_of q)).
Proof.
  intros Hq. unfold _generate_user_insights.
  set (D0 := dict_of _).
  assert (Hgoal : dict_lookup "engagement_level"
                    (snd (insights_try (VDict f) (VDict c) intent_scores D0))
                  = Some (VStr (engagement_level_of q))).
  2: { simpl. now rewrite Hgoal. }
  assert (Hrest : forall (m : M dict unit) (d : dict) (v : option pyval),
             preserves (fun d' => dict_lookup "engagement_level" d' = v) m ->
             dict_lookup "engagement_level" d = v ->
             dict_lookup "engagement_level" (snd (m d)) = v).
  { intros m d v Hm Hd. now apply Hm. }
  unfold insights_try.
  cbn [py_get]. unfold bind at 1, lift_sum at 1.
  assert (H1 : exists D1,
             (if py_truthy (dict_get c "cluster_id" VNone)
              then
                bind (lift_sum (py_getitem (VDict c) "cluster_id"))
                  (fun cid => set_key "behavioral_type"
                                (VStr ("user_type_" ++ fmt E cid)%string))
              else ret tt) D0 = (inr tt, D1) /\
             dict_lookup "engagement_level" D1 = Some (VStr "medium")).
  { unfold dict_get, py_getitem.
    destruct (dict_lookup "cluster_id" c) as [cid |].
    - destruct (py_truthy cid); eexists; split; reflexivity.
    - eexists; split; reflexivity. }
  destruct H1 as (D1 & H1 & Hel1).
  rewrite (bind_inr _ _ _ _ _ H1).
  unfold bind at 1, lift_sum at 1.
  rewrite (py_gt_threshold _ _ 7 10 Hq).
  unfold bind at 1, lift_sum at 1.
  unfold engagement_level_of.
  destruct (Qlt_bool (Qmake 7 10) q).
  - unfold bind at 1, set_key at 1.
    apply Hrest; [| apply dict_lookup_set_same].
    repeat first [ preserves_step | apply set_key_keeps_other; discriminate ].
  - unfold bind at 1, lift_sum at 1.
    rewrite (py_lt_threshold _ _ 3 10 Hq).
    destruct (Qlt_bool q (Qmake 3 10)).
    + unfold bind at 1, set_key at 1.
      apply Hrest; [| apply dict_lookup_set_same].
      repeat first [ preserves_step | apply set_key_keeps_other; discriminate ].
    + unfold bind at 1, ret at 1.
      apply Hrest; [| exact Hel1].
      repeat first [ preserves_step | apply set_key_keeps_other; discriminate ].
Qed.

(** ** The platform breakdown *)

Lemma str_remove_from_skip (pat u s : string) :
  str_remove_from pat (String.length u) (u ++ s) = str_remove_from pat 0 s.
Proof. induction u as [| a u IH]; simpl; [reflexivity | exact IH]. Qed.

Lemma str_remove_absent (pat s : string) :
  str_occurs pat s = false -> str_remove pat s = s.
Proof.
  unfold str_remove. induction s as [| c r IH]; [reflexivity |].
  intros H. cbn [str_occurs] in H. apply orb_false_iff in H. destruct H as [Hp Hr].
  cbn [str_remove_from]. rewrite Hp. now rewrite IH.
Qed.

(** Removing the marker from a marked name gives the name back when the
    name itself does not contain the marker. *)
Lemma str_remove_marker (c : ascii) (u s : string) :
  str_occurs (String c u) s = false ->
  str_remove (String c u) (String c u ++ s) = s.
Proof.
  intros H. unfold str_remove.
  change (String c u ++ s)%string with (String c (u ++ s)).
  cbn [str_remove_from].
  change (String c (u ++ s)) with (String c u ++ s)%string.
  rewrite prefix_app.
  replace (String.length (String c u) - 1) with (String.length u)
    by (cbn [String.length]; lia).
  rewrite str_remove_from_skip. now apply str_remove_absent.
Qed.

Lemma find_app {A : Type} (f : A -> bool) (l1 l2 : list A) :
  find f (l1 ++ l2) = match find f l1 with Some x => Some x | None => find f l2 end.
Proof.
  induction l1 as [| x l1 IH]; simpl; [reflexivity |]. now destruct (f x).
Qed.

(** Folding the metric entries into the breakdown: for each platform
    the last entry that stands for it wins. *)
Lemma platform_fold_lookup (items : list (string * pyval)) (p : string) :
  forall acc,
    dict_lookup p
      (fold_left
         (fun platforms kv =>
            if prefix "platform_" (fst kv)
            then dict_set (str_remove "platform_" (fst kv)) (snd kv) platforms
            else platforms)
         items acc)
    = match find (counts_platform p) (rev items) with
      | Some kv => Some (snd kv)
      | None => dict_lookup p acc
      end.
Proof.
  induction items as [| kv r IH]; intros acc; [reflexivity |].
  cbn [fold_left rev]. rewrite IH, find_app.
  destruct (find (counts_platform p) (rev r)); [reflexivity |].
  cbn [find]. unfold counts_platform at 1.
  destruct (prefix "platform_" (fst kv)); [| reflexivity].
  cbn [andb].
  destruct (String.eqb (str_remove "platform_" (fst kv)) p) eqn:Hk.
  - apply String.eqb_eq in Hk. subst p. apply dict_lookup_set_same.
  - apply String.eqb_neq in Hk. apply dict_lookup_set_other. congruence.
Qed.

(** X9: the platform breakdown is read off the cached metrics: a
    platform [p] is reported exactly when some metric key starts with
    'platform_' and equals [p] once every occurrence of 'platform_' is
    removed from it, and its count is the value of the last such key;
    keys that reduce to the same name are merged this way.  When the
    cached reply has no 'metrics' mapping the breakdown is empty.  The
    method adds no call of its own to the metrics read. *)
Theorem platform_breakdown_reads_the_platform_counters key tw st reply st1 :
  _get_cached_metrics key tw st = (inr reply, st1) ->
  exists ps,
    _get_platform_breakdown key tw st = (inr (VDict ps), st1) /\
    (forall items,
        py_get reply "metrics" (VDict []) = inr (VDict items) ->
        forall p, dict_lookup p ps =
                  option_map snd (find (counts_platform p) (rev items))) /\
    ((forall items, py_get reply "metrics" (VDict []) <> inr (VDict items)) -> ps = []).
Proof.
  intros Hm. unfold _get_platform_breakdown, try_except.
  rewrite (bind_inr _ _ _ _ _ Hm).
  unfold bind, lift_sum.
  destruct (py_get reply "metrics" (VDict [])) as [e | inner].
  - exists []. split; [reflexivity |]. split; [discriminate | reflexivity].
  - destruct inner as [| b | z | q | s | l | items | t];
      try (exists []; split; [reflexivity |]; split; [discriminate | reflexivity]).
    eexists. split; [reflexivity |]. split.
    + intros items' H p. inversion H; subst items'.
      rewrite platform_fold_lookup.
      now destruct (find (counts_platform p) (rev items)).
    + intros H. now destruct (H items).
Qed.

Lemma prefix_other_marker (k : string) :
  prefix "cluster_" k = true \/ prefix "intent_" k = true ->
  prefix "platform_" k = false.
Proof.
  destruct k as [| a k]; [intros [H | H]; discriminate |].
  cbn [prefix].
  destruct (ascii_dec "p" a) as [<- | Hp]; [| reflexivity].
  intros [H | H].
  - destruct (ascii_dec "c" "p"); discriminate.
  - destruct (ascii_dec "i" "p"); discriminate.
Qed.

Lemma platform_fold_skips (extras : list (string * pyval)) :
  Forall (fun kv => snd kv = VInt 1 /\
                    (prefix "cluster_" (fst kv) = true \/
                     prefix "intent_" (fst kv) = true)) extras ->
  forall acc,
    fold_left
      (fun platforms kv =>
         if prefix "platform_" (fst kv)
         then dict_set (str_remove "platform_" (fst kv)) (snd kv) platforms
         else platforms) extras acc = acc.
Proof.
  induction 1 as [| kv r [_ Hk] _ IH]; intros acc; [reflexivity |].
  cbn [fold_left]. rewrite (prefix_other_marker _ Hk). apply IH.
Qed.

(** X10: the counter key written for an event and the reader of the
    breakdown agree: when the cache function hands back the counters
    that [_update_real_time_metrics] sent for one event whose platform
    name does not contain the text 'platform_', the breakdown is that
    platform with count 1 and nothing else; none of the other counters
    (totals, events, clusters, intents) is taken for a platform. *)
Theorem event_platform_is_read_back key ev ml st m st' tw st2 st3 p :
  dict_get ev "platform" (VStr "unknown") = VStr p ->
  str_occurs "platform_" p = false ->
  _update_real_time_metrics key ev ml st = (inr (VDict m), st') ->
  m <> [] ->
  _get_cached_metrics key tw st2 = (inr (VDict [("metrics", VDict m)]), st3) ->
  _get_platform_breakdown key tw st2 = (inr (VDict [(p, VInt 1)]), st3).
Proof.
  intros Hp Hfree Hrun Hm Hread.
  destruct (_update_real_time_metrics_run key ev ml st)
    as (r & st'' & Hrun' & Hcases).
  rewrite Hrun in Hrun'. inversion Hrun'; subst r st''. clear Hrun'.
  destruct Hcases as [[Hr _] | (p' & n & extras & w & Hp' & Hn & Hr & _ & Hx)];
    [inversion Hr; congruence |].
  rewrite Hp in Hp'. inversion Hp'; subst p'. inversion Hr; subst m. clear Hr.
  unfold _get_platform_breakdown, try_except.
  rewrite (bind_inr _ _ _ _ _ Hread).
  unfold bind, lift_sum. cbn [py_get dict_get dict_lookup String.eqb Ascii.eqb Bool.eqb].
  unfold ret. do 3 f_equal.
  cbn [fold_left fst snd].
  change (prefix "platform_" "total_events") with false.
  change (prefix "platform_" "unique_sessions") with false.
  change (prefix "platform_" "unique_users") with false.
  change (String "p" (String "l" (String "a" (String "t" (String "f" (String "o"
            (String "r" (String "m" (String "_" p)))))))))
    with ("platform_" ++ p)%string.
  rewrite (prefix_app "platform_" p).
  rewrite (str_remove_marker "p" "latform_" p Hfree).
  change (prefix "platform_"
            (String "e" (String "v" (String "e" (String "n" (String "t" (String "_" n)))))))
    with false.
  cbv iota. now rewrite (platform_fold_skips extras Hx).
Qed.

(** ** The session summary *)

Lemma py_add_number (acc d : pyval) (qa : Q) :
  num_of acc = Some qa -> is_number d = true ->
  exists total qt qd,
    py_add acc d = inr total /\ num_of total = Some qt /\ num_of d = Some qd /\
    Qeq qt (Qplus qa qd).
Proof.
  intros Ha Hd.
  destruct acc as [| a | a | a | a | a | a | a]; try discriminate;
    destruct d as [| b | b | b | b | b | b | b]; try discriminate;
    simpl in Ha; inversion Ha; subst qa; simpl;
    eexists _, _, _; (split; [reflexivity |]); (split; [reflexivity |]);
    (split; [reflexivity |]);
    try reflexivity;
    unfold Qint, Qeq, Qplus, Z_of_bool; simpl; try destruct a; try destruct b; lia.
Qed.

Lemma sum_durations_total (l : list pyval) :
  Forall (fun s => is_mapping s = true) l ->
  forall acc qa,
    num_of acc = Some qa ->
    exists total qt,
      sum_durations l acc = inr total /\ num_of total = Some qt /\
      Qeq qt (Qplus qa (Qsum (map session_duration l))).
Proof.
  induction 1 as [| s r Hs _ IH]; intros acc qa Ha.
  - exists acc, qa. simpl. split; [reflexivity |]. split; [exact Ha |].
    unfold Qint. now rewrite Qplus_0_r.
  - destruct s as [| | | | | | d |]; try discriminate.
    cbn [sum_durations py_get map session_duration]. unfold dict_get.
    destruct (dict_lookup "gsi1sk" d) as [v |].
    + destruct (is_number v) eqn:Hn.
      * destruct (py_add_number acc v qa Ha Hn) as (t & qt & qd & Hadd & Ht & Hd & Heq).
        rewrite Hadd, Hd.
        destruct (IH t qt Ht) as (total & q' & Hsum & Hq' & Heq').
        exists total, q'. split; [exact Hsum |]. split; [exact Hq' |].
        rewrite Heq', Heq. cbn [Qsum fold_right]. now rewrite Qplus_assoc.
      * destruct (IH acc qa Ha) as (total & q' & Hsum & Hq' & Heq').
        exists total, q'. split; [exact Hsum |]. split; [exact Hq' |].
        rewrite Heq'. cbn [Qsum fold_right]. fold (Qsum (map session_duration r)).
        unfold Qint. now rewrite Qplus_0_l.
    + cbn [is_number].
      destruct (IH acc qa Ha) as (total & q' & Hsum & Hq' & Heq').
      exists total, q'. split; [exact Hsum |]. split; [exact Hq' |].
      rewrite Heq'. cbn [Qsum fold_right]. fold (Qsum (map session_duration r)).
      unfold Qint. now rewrite Qplus_0_l.
Qed.

(** X11: when the session table returns a non-empty list of session
    records, the summary counts all of them, reports the first one as
    the last session, and its total duration is the sum of the 'gsi1sk'
    attributes that are numbers: a session whose attribute is missing
    or is not a number adds nothing to the total but still counts in
    the number of sessions the average is taken over.  The reply of the
    cache function is not used. *)
Theorem session_summary_adds_up key anon tw st reply st1 response w2 first rest :
  _invoke_cache_function "get_session"
    (dict_of [("api_key", VStr key); ("session_id", VStr "latest")]) st = (inr reply, st1) ->
  query E sessions_table (user_pk key anon) None (world st1) = (inr response, w2) ->
  dict_get response "Items" (VList []) = VList (first :: rest) ->
  Forall (fun s => is_mapping s = true) (first :: rest) ->
  exists total q,
    _get_user_session_summary key anon tw st =
      (inr (VDict [("total_sessions", VInt (Z.of_nat (List.length (first :: rest))));
                   ("avg_duration",
                    VFloat (Qdiv q (Qint (Z.of_nat (List.length (first :: rest))))));
                   ("total_duration", total);
                   ("last_session", first)]),
       mkSt w2 (calls st1 ++ [Query sessions_table (user_pk key anon) None])) /\
    num_of total = Some q /\
    Qeq q (Qsum (map session_duration (first :: rest))).
Proof.
  intros Hc Hq Hitems Hmaps.
  destruct (sum_durations_total _ Hmaps (VInt 0) (Qint 0) eq_refl)
    as (total & q & Hsum & Hnum & Heq).
  exists total, q. split; [| split; [exact Hnum |]].
  - unfold _get_user_session_summary, try_except.
    rewrite (bind_inr _ _ _ _ _ Hc).
    unfold bind at 1, invoke at 1. rewrite Hq. rewrite Hitems.
    cbn [py_truthy]. unfold bind at 1, lift_sum at 1. rewrite Hsum.
    unfold bind at 1, lift_sum at 1. unfold py_truediv. rewrite Hnum.
    reflexivity.
  - rewrite Heq. unfold Qint. now rewrite Qplus_0_l.
Qed.

(** ** The calls of one request, counted *)

Lemma within_of_logs {A} (s0 : Stage) (n : nat) (m : M (St W) A) :
  logs (in_stage s0) m ->
  (forall st, exists l, calls (snd (m st)) = calls st ++ l /\ List.length l <= n) ->
  within (only s0 n) m.
Proof.
  intros Hlogs Hlen. apply within_of_list. intros st.
  destruct (Hlogs st) as (l & Hl & Hs). destruct (Hlen st) as (l' & Hl' & Hn).
  rewrite Hl in Hl'. apply app_inv_head in Hl'. subst l'. now exists l.
Qed.

Lemma _validate_api_key_async_budget key :
  within (only Validating 2) (_validate_api_key_async key).
Proof.
  apply within_of_logs; [apply _validate_api_key_async_logs |]. intros st.
  destruct (_validate_api_key_async_calls key st) as (v & st' & Hrun & Hl).
  rewrite Hrun. cbn [snd]. destruct Hl as [-> | ->]; eexists; (split; [reflexivity |]);
    simpl; lia.
Qed.

Lemma _invoke_cache_function_length op payload st :
  exists l,
    calls (snd (_invoke_cache_function op payload st)) = calls st ++ l /\
    List.length l <= 1.
Proof.
  destruct (_invoke_cache_function_calls op payload st) as (reply & w & Hr).
  cbv zeta in Hr. rewrite Hr. cbn [snd].
  destruct (json_serializable _).
  - eexists. split; [reflexivity | simpl; lia].
  - exists []. rewrite app_nil_r. split; [reflexivity | simpl; lia].
Qed.

Lemma within_json_dumps (v : pyval) : within no_calls (@json_dumps W v).
Proof. unfold json_dumps. repeat silent_step. Qed.

Lemma within_py_json_loads (v : pyval) : within no_calls (py_json_loads v).
Proof. unfold py_json_loads. repeat silent_step. Qed.

Lemma _invoke_cache_function_budget (s0 : Stage) op payload :
  stage_of (LambdaInvoke cache_function_name
              (dict_update (dict_of [("operation", VStr op)]) payload)) = s0 ->
  within (only s0 1) (_invoke_cache_function op payload).
Proof.
  intros Hs. apply within_of_logs.
  - now apply _invoke_cache_function_logs.
  - apply _invoke_cache_function_length.
Qed.

Ltac silent := repeat first [silent_step | apply within_py_json_loads | apply within_json_dumps].

Lemma _check_rate_limit_budget key limit :
  within (only RateLimiting 1) (_check_rate_limit key limit).
Proof.
  unfold _check_rate_limit. apply within_swallow.
  apply within_after_silent; [apply within_quiet | intros _].
  apply within_then_silent; [now apply _invoke_cache_function_budget | intros reply].
  silent.
Qed.

Lemma _auto_provision_models_budget key :
  within (only Provisioning 3) (_auto_provision_models key).
Proof.
  apply within_of_logs; [apply _auto_provision_models_logs |]. intros st.
  destruct (_auto_provision_models_run E environment key st)
    as (st' & tasks & Hrun & Hl & Ht).
  rewrite Hrun. cbn [snd]. rewrite Hl. eexists. split; [reflexivity |].
  destruct Ht as [-> | ->]; simpl; lia.
Qed.

Lemma _ingest_event_to_stream_budget key ev :
  within (only Ingesting 1) (_ingest_event_to_stream key ev).
Proof.
  unfold _ingest_event_to_stream. apply within_swallow.
  apply within_after_silent; [apply within_quiet | intros t].
  apply within_after_silent; [apply within_quiet | intros fresh].
  apply within_after_silent; [apply within_json_dumps | intros _].
  apply within_then_silent; [apply within_invoke | intros response]. silent.
Qed.

Lemma _cache_session_data_budget key ev :
  within (only SessionCaching 1) (_cache_session_data key ev).
Proof.
  unfold _cache_session_data. apply within_swallow.
  apply within_after_silent; [apply within_quiet | intros t].
  apply within_then_silent; [now apply _invoke_cache_function_budget | intros reply].
  silent.
Qed.

Lemma _process_with_ml_pipeline_budget key ev :
  within (only Scoring 3) (_process_with_ml_pipeline key ev).
Proof.
  apply within_of_logs; [apply _process_with_ml_pipeline_logs |]. intros st.
  destruct (_process_with_ml_pipeline_order feature_service clustering_service
              intent_service key ev st) as (ml & st' & scorers & Hrun & Hl & Hs).
  rewrite Hrun. cbn [snd]. rewrite Hl. eexists. split; [reflexivity |].
  destruct (fst (extract_features feature_service key (dict_get ev "anonId" VNone) "7d"
                   (world st))) as [e | f].
  - destruct Hs as [-> _]. simpl. lia.
  - destruct (py_truthy f); [subst scorers | destruct Hs as [-> _]]; simpl; lia.
Qed.

Lemma _update_real_time_metrics_budget key ev ml :
  within (only AggregatingMetrics 1) (_update_real_time_metrics key ev ml).
Proof.
  apply within_of_logs; [apply _update_real_time_metrics_logs |]. intros st.
  destruct (_update_real_time_metrics_run key ev ml st)
    as (r & st' & Hrun & [[_ ->] | (p & n & extras & w & _ & _ & _ & -> & _)]);
    rewrite Hrun; cbn [snd calls].
  - exists []. rewrite app_nil_r. split; [reflexivity | simpl; lia].
  - eexists. split; [reflexivity | simpl; lia].
Qed.

(** X12: one call of [process_event] always returns, and whatever the
    collaborators answer it makes at most 12 calls to them: at most 2
    for validation (cache lookup, key table), 1 read of the counters, 3
    for provisioning (model lookup and the two tasks), 1 append to the
    stream, 1 session write, 3 scoring calls and 1 metrics update.  It
    never writes to a table and makes none of the read-side queries. *)
Theorem process_event_stays_within_its_budget key ev st :
  exists r st' l,
    process_event key ev st = (inr r, st') /\
    calls st' = calls st ++ l /\
    (forall s, count_calls s l <= request_budget s) /\
    count_calls Reading l = 0 /\
    count_calls Storing l = 0 /\
    List.length l <= 12.
Proof.
  assert (Hb : within request_budget (process_event key ev)).
  { unfold process_event.
    apply within_after_silent; [apply within_quiet | intros t0].
    eapply within_weaken;
      [apply (within_try_except request_budget no_calls)
      | intros s; unfold plus_budget, no_calls; lia].
    2: { intros e. unfold process_event_except.
         apply within_after_silent; [apply within_quiet | intros t1]. apply within_ret. }
    apply (within_seq (only Validating 2)
             (plus_budget (only RateLimiting 1)
                (plus_budget (only Provisioning 3)
                   (plus_budget (only Ingesting 1)
                      (plus_budget (only SessionCaching 1)
                         (plus_budget (only Scoring 3) (only AggregatingMetrics 1)))))));
      [apply _validate_api_key_async_budget | intros v | intros s; destruct s; cbv; lia].
    destruct v as [info |]; [| apply within_any_ret].
    destruct (negb (status_accepted (status info))); [apply within_any_ret |].
    apply within_bind; [apply _check_rate_limit_budget | intros allowed].
    destruct (negb allowed); [apply within_any_ret |].
    apply within_bind.
    { destruct (py_eq (status info) (VStatus TRIAL));
        [apply _auto_provision_models_budget | apply within_any_ret]. }
    intros _.
    apply within_bind; [apply _ingest_event_to_stream_budget | intros _].
    apply within_bind; [apply _cache_session_data_budget | intros _].
    apply within_bind; [apply _process_with_ml_pipeline_budget | intros ml].
    apply within_then_silent; [apply _update_real_time_metrics_budget | intros metrics].
    apply within_after_silent; [apply within_quiet | intros t1]. apply within_ret. }
  destruct (process_event_total E environment feature_service clustering_service
              intent_service key ev st) as (r & st' & Hrun).
  destruct (Hb st) as (l & Hl & Hc). rewrite Hrun in Hl. cbn [snd] in Hl.
  exists r, st', l. split; [exact Hrun |]. split; [exact Hl |]. split; [exact Hc |].
  pose proof (Hc Reading) as HR. pose proof (Hc Storing) as HS. simpl in HR, HS.
  split; [lia |]. split; [lia |].
  rewrite (length_by_stage l).
  pose proof (Hc Validating). pose proof (Hc RateLimiting). pose proof (Hc Provisioning).
  pose proof (Hc Ingesting). pose proof (Hc SessionCaching). pose proof (Hc Scoring).
  pose proof (Hc AggregatingMetrics). simpl in *. lia.
Qed.

(** ** The dashboard *)

(** The metrics read always reaches the cache function. *)
Lemma _get_cached_metrics_calls key tw st :
  exists reply w,
    _get_cached_metrics key tw st =
      (inr reply,
       mkSt w (calls st ++
                 [LambdaInvoke cache_function_name
                    [("operation", VStr "get_metrics"); ("api_key", VStr key);
                     ("time_window", VStr tw)]])).
Proof.
  destruct (_invoke_cache_function_calls "get_metrics"
              (dict_of [("api_key", VStr key); ("time_window", VStr tw)]) st)
    as (reply & w & Hr).
  exists reply, w. unfold _get_cached_metrics. apply try_except_inr. exact Hr.
Qed.

Lemma _get_platform_breakdown_calls key tw st :
  exists reply w pb,
    _get_cached_metrics key tw st =
      (inr reply,
       mkSt w (calls st ++
                 [LambdaInvoke cache_function_name
                    [("operation", VStr "get_metrics"); ("api_key", VStr key);
                     ("time_window", VStr tw)]])) /\
    _get_platform_breakdown key tw st =
      (inr pb,
       mkSt w (calls st ++
                 [LambdaInvoke cache_function_name
                    [("operation", VStr "get_metrics"); ("api_key", VStr key);
                     ("time_window", VStr tw)]])).
Proof.
  destruct (_get_cached_metrics_calls key tw st) as (reply & w & Hr).
  exists reply, w. unfold _get_platform_breakdown, try_except.
  rewrite (bind_inr _ _ _ _ _ Hr). unfold bind, lift_sum.
  destruct (py_get reply "metrics" (VDict [])) as [e | inner];
    [eexists; split; [exact Hr | reflexivity] |].
  destruct inner; eexists; (split; [exact Hr | reflexivity]).
Qed.

(** X13: for a key that resolves, the dashboard makes four calls after
    the validation, in this order: a read of the counters, the cluster
    insights, the feature importance, and a second read of the same
    counters.  The 'live_metrics' entry is the reply to the first read;
    the 'platform_breakdown' entry is computed from the reply to the
    second, so the two entries of one dashboard can come from different
    states of the counters. *)
Theorem dashboard_reads_the_counters_twice key tw st info st1 :
  _validate_api_key_async key st = (inr (Some info), st1) ->
  let read :=
    LambdaInvoke cache_function_name
      [("operation", VStr "get_metrics"); ("api_key", VStr key);
       ("time_window", VStr tw)] in
  exists first s2 summary s3 distribution s4 second s5 breakdown generated st',
    _get_cached_metrics key tw st1 = (inr first, s2) /\
    _get_cluster_summary clustering_service key s2 = (inr summary, s3) /\
    _get_intent_distribution key tw s3 = (inr distribution, s4) /\
    _get_cached_metrics key tw s4 = (inr second, s5) /\
    _get_platform_breakdown key tw s4 = (inr breakdown, s5) /\
    get_real_time_dashboard E environment clustering_service intent_service key tw st =
      (inr (VDict [("api_key", VStr key);
                   ("time_window", VStr tw);
                   ("generated_at", VStr generated);
                   ("live_metrics", first);
                   ("cluster_summary", summary);
                   ("intent_distribution", distribution);
                   ("platform_breakdown", breakdown);
                   ("status", VStr "active")]), st') /\
    calls st' =
      calls st1 ++ [read; GetClusterInsights key; GetFeatureImportance key; read].
Proof.
  intros Hv read.
  destruct (_get_cached_metrics_calls key tw st1) as (first & w2 & H2).
  fold read in H2. set (s2 := mkSt w2 _) in H2.
  assert (H3 : exists summary w3,
             _get_cluster_summary clustering_service key s2 =
               (inr summary, mkSt w3 (calls s2 ++ [GetClusterInsights key]))).
  { unfold _get_cluster_summary, try_except, invoke, ret.
    destruct (get_cluster_insights clustering_service key (world s2)) as [[e | v] w3];
      eexists _, _; reflexivity. }
  destruct H3 as (summary & w3 & H3). set (s3 := mkSt w3 _) in H3.
  assert (H4 : exists distribution w4,
             _get_intent_distribution key tw s3 =
               (inr distribution, mkSt w4 (calls s3 ++ [GetFeatureImportance key]))).
  { unfold _get_intent_distribution, try_except, invoke, ret.
    destruct (get_feature_importance intent_service key (world s3)) as [[e | v] w4];
      eexists _, _; reflexivity. }
  destruct H4 as (distribution & w4 & H4). set (s4 := mkSt w4 _) in H4.
  destruct (_get_platform_breakdown_calls key tw s4) as (second & w5 & breakdown & H5 & H5').
  fold read in H5, H5'. set (s5 := mkSt w5 _) in H5, H5'.
  destruct (now_total E s5) as (t & st' & H6).
  exists first, s2, summary, s3, distribution, s4, second, s5, breakdown,
    (isoformat E t), st'.
  repeat (split; [assumption |]). split.
  - unfold get_real_time_dashboard. apply try_except_inr.
    rewrite (bind_inr _ _ _ _ _ Hv). cbv beta iota.
    rewrite (bind_inr _ _ _ _ _ H2).
    rewrite (bind_inr _ _ _ _ _ H3).
    rewrite (bind_inr _ _ _ _ _ H4).
    rewrite (bind_inr _ _ _ _ _ H5').
    rewrite (bind_inr _ _ _ _ _ H6).
    reflexivity.
  - rewrite (now_calls E _ _ _ H6). subst s5 s4 s3 s2. cbn [calls].
    now rewrite <- !app_assoc.
Qed.

(** X14: the cluster insights of the clustering service never hold a
    cluster: [_load_cluster_data] returns the empty list on both of its
    branches, so [get_cluster_insights] answers status 'no_data' with
    an empty list from every state, for every key and cluster id,
    without reading the clock or the world; the loop over the clusters
    is never entered.  The 'cluster_summary' entry of every dashboard
    served with this clustering service is therefore that constant. *)
Theorem cluster_summary_is_always_no_data
    (predict : string -> pyval -> pyval -> M W pyval) key tw st info st1 :
  let no_data := VDict [("status", VStr "no_data"); ("clusters", VList [])] in
  (forall api_key cluster_id w,
      ClusterInsights.get_cluster_insights E api_key cluster_id w = (inr no_data, w)) /\
  (_validate_api_key_async key st = (inr (Some info), st1) ->
   exists d st',
     get_real_time_dashboard E environment (ClusterInsights.service E predict)
       intent_service key tw st = (inr (VDict d), st') /\
     dict_lookup "cluster_summary" d = Some no_data).
Proof.
  intros no_data. split; [reflexivity |].
  intros Hv.
  destruct (_get_cached_metrics_calls key tw st1) as (first & w2 & H2).
  set (s2 := mkSt w2 _) in H2.
  assert (H3 : _get_cluster_summary (ClusterInsights.service E predict) key s2 =
               (inr no_data, mkSt (world s2) (calls s2 ++ [GetClusterInsights key])))
    by reflexivity.
  set (s3 := mkSt (world s2) _) in H3.
  destruct (total_swallow
              (invoke (GetFeatureImportance key)
                 (get_feature_importance intent_service key)) (VDict []) s3)
    as (distribution & s4 & H4).
  destruct (_get_platform_breakdown_calls key tw s4) as (second & w5 & breakdown & _ & H5).
  set (s5 := mkSt w5 _) in H5.
  destruct (now_total E s5) as (t & st' & H6).
  eexists _, st'. split.
  - unfold get_real_time_dashboard. apply try_except_inr.
    rewrite (bind_inr _ _ _ _ _ Hv). cbv beta iota.
    rewrite (bind_inr _ _ _ _ _ H2).
    rewrite (bind_inr _ _ _ _ _ H3).
    unfold _get_intent_distribution.
    rewrite (bind_inr _ _ _ _ _ H4).
    rewrite (bind_inr _ _ _ _ _ H5).
    rewrite (bind_inr _ _ _ _ _ H6).
    reflexivity.
  - reflexivity.
Qed.

(** ** Provisioning and the insights lookups *)

(** X20: provisioning for a trial tenant looks for a model record of
    the tenant (sort key starting with '2025') and runs its two tasks,
    clustering first, unless that lookup returned at least one record:
    an empty answer and a failing lookup both trigger the tasks, so while
    the model table cannot be read every trial event schedules them
    again.  The tasks themselves are placeholders that leave the world
    as the lookup left it. *)
Theorem models_are_provisioned_unless_one_is_found key st :
  let pk := (key ++ "#model")%string in
  let lookup := Query clusters_table pk (Some "2025") in
  let tasks := [ProvisionClusteringModels key; ProvisionIntentModels key] in
  (forall e w,
      query E clusters_table pk (Some "2025") (world st) = (inl e, w) ->
      _auto_provision_models key st = (inr tt, mkSt w (calls st ++ lookup :: tasks))) /\
  (forall response w items,
      query E clusters_table pk (Some "2025") (world st) = (inr response, w) ->
      dict_get response "Items" (VList []) = VList items ->
      _auto_provision_models key st =
        (inr tt,
         mkSt w (calls st ++ lookup :: match items with [] => tasks | _ :: _ => [] end))).
Proof.
  intros pk lookup tasks. split.
  - intros e w Hq.
    unfold _auto_provision_models, _check_existing_models,
      _provision_clustering_models, _provision_intent_models,
      try_except, bind, invoke, note, lift_sum, ret.
    fold pk. rewrite Hq. cbn [world calls negb]. now rewrite <- !app_assoc.
  - intros response w items Hq Hi.
    unfold _auto_provision_models, _check_existing_models,
      _provision_clustering_models, _provision_intent_models,
      try_except, bind, invoke, note, lift_sum, ret.
    fold pk. rewrite Hq, Hi. cbn [py_len].
    destruct items as [| i r]; cbn [List.length Nat.ltb Nat.leb negb world calls].
    + now rewrite <- !app_assoc.
    + reflexivity.
Qed.

Lemma stateless_ret {S A : Type} (a : A) : stateless (@ret S A a).
Proof. now intros s. Qed.

Lemma stateless_raise {S A : Type} (e : exn) : stateless (@raise S A e).
Proof. now intros s. Qed.

Lemma stateless_lift_sum {S A : Type} (r : exn + A) : stateless (@lift_sum S A r).
Proof. now intros s. Qed.

Lemma stateless_bind {S A B : Type} (m : M S A) (k : A -> M S B) :
  stateless m -> (forall a, stateless (k a)) -> stateless (bind m k).
Proof.
  intros Hm Hk s. unfold bind. specialize (Hm s).
  destruct (m s) as [[e | a] s']; simpl in *; subst s'; [reflexivity | apply Hk].
Qed.

Ltac stateless_step :=
  match goal with
  | |- stateless (bind _ _) => apply stateless_bind; [| intros ?]
  | |- stateless (ret _) => apply stateless_ret
  | |- stateless (raise _) => apply stateless_raise
  | |- stateless (lift_sum _) => apply stateless_lift_sum
  | |- stateless (if ?b then _ else _) => destruct b
  | |- stateless (match ?x with _ => _ end) => destruct x
  end.

(** A guarded block that makes one call and then only computes: the
    call is logged whatever comes of it. *)
Lemma call_then_compute {A B : Type} (c : Call) (op : M W A) (k : A -> M (St W) B)
    (d : B) (st : St W) :
  (forall a, stateless (k a)) ->
  exists r,
    try_except (bind (invoke c op) k) (fun _ => ret d) st =
      (inr r, mkSt (snd (op (world st))) (calls st ++ [c])).
Proof.
  intros Hk. unfold try_except, bind, invoke.
  destruct (op (world st)) as [[e | a] w]; cbn [snd].
  - now exists d.
  - specialize (Hk a (mkSt w (calls st ++ [c]))).
    destruct (k a (mkSt w (calls st ++ [c]))) as [[e | b] s']; cbn [snd] in Hk; subst s'.
    + now exists d.
    + now exists b.
Qed.

(** X21: for a key that resolves, [get_user_insights] always runs its
    four lookups to the end, in this order and whatever each of them
    answers or raises: the feature extraction for the requested window,
    the latest cluster assignment, the latest prediction, then the
    session lookup in the cache function followed by the query of the
    session table; five calls after the validation. *)
Theorem insights_call_sequence key anon tw st info st1 :
  _validate_api_key_async key st = (inr (Some info), st1) ->
  exists r st',
    get_user_insights key anon tw st = (inr r, st') /\
    calls st' =
      calls st1 ++
      [ExtractFeatures key (VStr anon) tw;
       Query clusters_table (user_pk key anon) (Some "cluster_assignment");
       Query feature_store_table (user_pk key anon) (Some "prediction");
       LambdaInvoke cache_function_name
         [("operation", VStr "get_session"); ("api_key", VStr key);
          ("session_id", VStr "latest")];
       Query sessions_table (user_pk key anon) None].
Proof.
  intros Hv.
  assert (H2 : exists features w2,
             _get_user_features feature_service key anon tw st1 =
               (inr features, mkSt w2 (calls st1 ++ [ExtractFeatures key (VStr anon) tw]))).
  { unfold _get_user_features, try_except, invoke, ret.
    destruct (extract_features feature_service key (VStr anon) tw (world st1))
      as [[e | v] w2]; eexists _, _; reflexivity. }
  destruct H2 as (features & w2 & H2). set (s2 := mkSt w2 _) in H2.
  destruct (call_then_compute
              (Query clusters_table (user_pk key anon) (Some "cluster_assignment"))
              (query E clusters_table (user_pk key anon) (Some "cluster_assignment"))
              (fun response =>
                 let items := dict_get response "Items" (VList []) in
                 if py_truthy items then lift_sum (py_index0 items) else ret (VDict []))
              (VDict []) s2) as (cluster_info & H3).
  { intros response. cbv zeta. repeat stateless_step. }
  set (s3 := mkSt _ _) in H3.
  destruct (call_then_compute
              (Query feature_store_table (user_pk key anon) (Some "prediction"))
              (query E feature_store_table (user_pk key anon) (Some "prediction"))
              (fun response =>
                 let items := dict_get response "Items" (VList []) in
                 if py_truthy items then
                   bind (lift_sum (py_index0 items))
                     (fun first => lift_sum (py_get first "prediction_data" (VDict [])))
                 else ret (VDict []))
              (VDict []) s3) as (scores & H4).
  { intros response. cbv zeta. repeat stateless_step. }
  set (s4 := mkSt _ _) in H4.
  destruct (_invoke_cache_function_calls "get_session"
              (dict_of [("api_key", VStr key); ("session_id", VStr "latest")]) s4)
    as (reply & w5 & H5).
  cbv zeta in H5.
  change (json_serializable _) with true in H5. cbv iota in H5.
  set (s5 := mkSt w5 _) in H5.
  assert (H6 : exists summary w6,
             _get_user_session_summary key anon tw s4 =
               (inr summary,
                mkSt w6 (calls s5 ++ [Query sessions_table (user_pk key anon) None]))).
  { unfold _get_user_session_summary.
    match goal with
    | |- context [try_except (bind ?m ?k) ?h s4] =>
        assert (Hstep : try_except (bind m k) h s4 = try_except (k reply) h s5)
          by (unfold try_except; now rewrite (bind_inr _ _ _ _ _ H5))
    end.
    rewrite Hstep. cbv beta.
    match goal with
    | |- context [try_except (bind (invoke ?c ?op) ?k) (fun _ => ret ?d) s5] =>
        destruct (call_then_compute c op k d s5) as (summary & H6)
    end.
    { intros response. cbv zeta. repeat stateless_step. }
    eexists _, _. exact H6. }
  destruct H6 as (summary & w6 & H6). set (s6 := mkSt w6 _) in H6.
  destruct (now_total E s6) as (t & st' & H7).
  eexists _, st'. split.
  - unfold get_user_insights. apply try_except_inr.
    rewrite (bind_inr _ _ _ _ _ Hv). cbv beta iota.
    rewrite (bind_inr _ _ _ _ _ H2).
    unfold _get_user_cluster_info.
    rewrite (bind_inr _ _ _ _ _ H3).
    unfold _get_user_intent_scores.
    rewrite (bind_inr _ _ _ _ _ H4).
    rewrite (bind_inr _ _ _ _ _ H6).
    rewrite (bind_inr _ _ _ _ _ H7).
    reflexivity.
  - rewrite (now_calls E _ _ _ H7). subst s6 s5 s4 s3 s2. cbn [calls].
    now rewrite <- !app_assoc.
Qed.

(** ** A metrics reply in the plain proxy shape *)



End FurtherProperties.

(* ================================================================== *)
(** * Properties of the Lambda entry point *)
(* ================================================================== *)

Section HandlerProperties.
Context {W : Type}.
Variable E : Env W.
Variable service : Service W.
Variable environment : string.
Variable feature_service : FeatureService W.
Variable clustering_service : ClusteringServiceT W.
Variable intent_service : IntentService W.

Local Abbreviation lambda_handler := (lambda_handler E service).
Local Abbreviation respond := (@respond W).
Local Abbreviation header_api_key := (@header_api_key W).
Local Abbreviation runs_the_embedded_methods :=
  (runs_the_embedded_methods E service environment feature_service clustering_service
     intent_service).
Local Abbreviation process_event :=
  (process_event E environment feature_service clustering_service intent_service).
Local Abbreviation get_user_insights := (get_user_insights E environment feature_service).
Local Abbreviation get_real_time_dashboard :=
  (get_real_time_dashboard E environment clustering_service intent_service).
Local Abbreviation _validate_api_key_async := (_validate_api_key_async E environment).
Local Abbreviation datetime_utcnow := (datetime_utcnow E).

Lemma yields_bind {S A B : Type} (Q : B -> Prop) (m : M S A) (k : A -> M S B) :
  (forall a, yields Q (k a)) -> yields Q (bind m k).
Proof.
  intros Hk s b s'. unfold bind. destruct (m s) as [[e | a] s0]; [discriminate |].
  apply Hk.
Qed.

Lemma respond_yields (code : Z) (payload : pyval) :
  In code handler_codes -> yields well_formed_response (respond code payload).
Proof.
  intros Hc s r s'. unfold respond, bind, json_dumps.
  destruct (json_serializable payload) eqn:Hp; [| discriminate].
  unfold ret. intros H. inversion H; subst. now split.
Qed.

Lemma respond_json (code : Z) (payload : pyval) (st : St W) :
  json_serializable payload = true ->
  respond code payload st = (inr (mkResponse code payload), st).
Proof. intros Hp. unfold respond, bind, json_dumps. now rewrite Hp. Qed.

Lemma respond_error (code : Z) (msg : string) (st : St W) :
  respond code (error_dict msg) st = (inr (mkResponse code (error_dict msg)), st).
Proof. now apply respond_json. Qed.

(** X15: the handler answers every event, whatever the service does: it
    never raises, its status code is one of 200, 400, 401, 404 and 500,
    and its body is always a value [json.dumps] accepted. *)
Theorem handler_always_answers (event : pyval) (st : St W) :
  exists r st',
    lambda_handler event st = (inr r, st') /\
    In (response_status r) handler_codes /\
    json_serializable (response_body r) = true.
Proof.
  unfold lambda_handler, try_except.
  match goal with
  | |- context [let (_, _) := ?body st in _] =>
      assert (Hy : yields well_formed_response body)
  end.
  { repeat first
      [ apply respond_yields; unfold handler_codes;
        try match goal with |- context [success ?r] => destruct (success r) end;
        simpl; tauto
      | apply yields_bind; intros ?
      | match goal with
        | |- yields _ (if ?b then _ else _) => destruct b
        end ]. }
  match goal with
  | |- context [let (_, _) := ?body st in _] =>
      destruct (body st) as [[e | r] st'] eqn:Hrun
  end.
  - rewrite respond_error. eexists _, _. split; [reflexivity |].
    split; [unfold handler_codes; simpl; tauto | reflexivity].
  - exists r, st'. split; [reflexivity |]. exact (Hy _ _ _ Hrun).
Qed.

(** The handler up to the routing decision. *)
Ltac enter_handler Hc Hpath Hmethod :=
  unfold lambda_handler, try_except;
  rewrite (bind_inr _ _ _ _ _ Hc);
  cbn [py_get]; unfold bind at 1, lift_sum at 1; rewrite Hpath;
  unfold bind at 1, lift_sum at 1; rewrite Hmethod;
  cbn [py_eq String.eqb Ascii.eqb Bool.eqb andb].

Lemma header_api_key_run ev h (st : St W) :
  dict_get ev "headers" (VDict []) = VDict h ->
  header_api_key (VDict ev) st = (inr (dict_get h "x-api-key" VNone), st).
Proof. intros Hh. unfold header_api_key, bind, lift_sum. cbn [py_get]. now rewrite Hh. Qed.

(** X16: a request without an API key never reaches the service.  On
    the events route (once the body has parsed) and on the dashboard
    route a missing or empty 'x-api-key' header is answered 401 'API
    key required'; on the insights route a missing key or a missing
    'anon_id' is answered 400.  In each case the state is the one the
    construction of the service left: no method of the service ran. *)
Theorem keyless_requests_never_reach_the_service ev h st st1 :
  construct service st = (inr tt, st1) ->
  dict_get ev "headers" (VDict []) = VDict h ->
  (dict_get ev "path" (VStr "/") = VStr "/v1/events" ->
   dict_get ev "httpMethod" (VStr "GET") = VStr "POST" ->
   py_truthy (dict_get h "x-api-key" VNone) = false ->
   forall text body,
     dict_get ev "body" (VStr "{}") = VStr text ->
     json_loads E text = Some body ->
     lambda_handler (VDict ev) st =
       (inr (mkResponse 401 (error_dict "API key required")), st1)) /\
  (dict_get ev "path" (VStr "/") = VStr "/v1/dashboard" ->
   dict_get ev "httpMethod" (VStr "GET") = VStr "GET" ->
   py_truthy (dict_get h "x-api-key" VNone) = false ->
   lambda_handler (VDict ev) st =
     (inr (mkResponse 401 (error_dict "API key required")), st1)) /\
  (dict_get ev "path" (VStr "/") = VStr "/v1/insights" ->
   dict_get ev "httpMethod" (VStr "GET") = VStr "GET" ->
   forall q,
     dict_get ev "queryStringParameters" (VDict []) = VDict q ->
     py_truthy (dict_get h "x-api-key" VNone) && py_truthy (dict_get q "anon_id" VNone)
       = false ->
     lambda_handler (VDict ev) st =
       (inr (mkResponse 400 (error_dict "API key and anon_id required")), st1)).
Proof.
  intros Hc Hh. split; [| split].
  - intros Hpath Hmethod Hkey text body Hbody Hloads.
    enter_handler Hc Hpath Hmethod.
    unfold bind at 1, lift_sum at 1. rewrite Hbody.
    unfold bind at 1, py_json_loads at 1. rewrite Hloads. unfold ret at 1.
    rewrite (bind_inr _ _ _ _ _ (header_api_key_run ev h st1 Hh)).
    rewrite Hkey. cbn [negb]. now rewrite respond_error.
  - intros Hpath Hmethod Hkey.
    enter_handler Hc Hpath Hmethod.
    rewrite (bind_inr _ _ _ _ _ (header_api_key_run ev h st1 Hh)).
    rewrite Hkey. cbn [negb]. now rewrite respond_error.
  - intros Hpath Hmethod q Hq Hkey.
    enter_handler Hc Hpath Hmethod.
    rewrite (bind_inr _ _ _ _ _ (header_api_key_run ev h st1 Hh)).
    unfold bind at 1, lift_sum at 1. rewrite Hq. cbn [py_get].
    unfold bind at 1, lift_sum at 1.
    rewrite Hkey. cbn [negb]. now rewrite respond_error.
Qed.

Lemma truthy_text (k : string) : k <> "" -> py_truthy (VStr k) = true.
Proof.
  intros Hk. cbn [py_truthy]. destruct (String.eqb k "") eqn:He; [| reflexivity].
  now apply String.eqb_eq in He.
Qed.

(** What [process_event] reports for a rejected request can be
    serialised when the event could. *)
Lemma rejected_result_is_json (d : dict) (reason : string) :
  json_serializable (VDict d) = true ->
  json_serializable (VDict (asdict_result (rejected d reason))) = true.
Proof.
  intros Hd.
  assert (H : forall k, json_serializable (dict_get d k (VStr "unknown")) = true).
  { intros k. unfold dict_get. destruct (dict_lookup k d) eqn:Hl; [| reflexivity].
    now apply (json_serializable_lookup d k). }
  unfold asdict_result, rejected. simpl. now rewrite !H.
Qed.

(** X17: on the events route a request with a key is answered from the
    result of [process_event] alone: 200 when the result reports
    success, 400 otherwise, with the fields of the result as the body.
    So a key that does not resolve is answered 400 with the error
    'Invalid or inactive API key', not 401, after the validation calls
    and nothing else. *)
Theorem events_route_mirrors_the_result ev h text d k st st1 :
  runs_the_embedded_methods ->
  construct service st = (inr tt, st1) ->
  dict_get ev "path" (VStr "/") = VStr "/v1/events" ->
  dict_get ev "httpMethod" (VStr "GET") = VStr "POST" ->
  dict_get ev "body" (VStr "{}") = VStr text ->
  json_loads E text = Some (VDict d) ->
  dict_get ev "headers" (VDict []) = VDict h ->
  dict_get h "x-api-key" VNone = VStr k ->
  k <> "" ->
  (forall r st2,
      process_event k d st1 = (inr r, st2) ->
      json_serializable (VDict (asdict_result r)) = true ->
      lambda_handler (VDict ev) st =
        (inr (mkResponse (if success r then 200 else 400) (VDict (asdict_result r))),
         st2)) /\
  (forall t0 st0 st2,
      json_serializable (VDict d) = true ->
      datetime_utcnow st1 = (inr t0, st0) ->
      _validate_api_key_async k st0 = (inr None, st2) ->
      lambda_handler (VDict ev) st =
        (inr (mkResponse 400
                (VDict (asdict_result (rejected d "Invalid or inactive API key")))),
         st2) /\
      dict_lookup "error" (asdict_result (rejected d "Invalid or inactive API key"))
        = Some (VStr "Invalid or inactive API key")).
Proof.
  intros (Hpe & _ & _) Hc Hpath Hmethod Hbody Hloads Hh Hkey Hk.
  assert (Hgen : forall r st2,
             process_event k d st1 = (inr r, st2) ->
             json_serializable (VDict (asdict_result r)) = true ->
             lambda_handler (VDict ev) st =
               (inr (mkResponse (if success r then 200 else 400)
                       (VDict (asdict_result r))), st2)).
  { intros r st2 Hrun Hjson.
    enter_handler Hc Hpath Hmethod.
    unfold bind at 1, lift_sum at 1. rewrite Hbody.
    unfold bind at 1, py_json_loads at 1. rewrite Hloads. unfold ret at 1.
    rewrite (bind_inr _ _ _ _ _ (header_api_key_run ev h st1 Hh)).
    rewrite Hkey, (truthy_text k Hk). cbn [negb].
    rewrite Hpe, (bind_inr _ _ _ _ _ Hrun).
    now rewrite (respond_json _ _ _ Hjson). }
  split; [exact Hgen |].
  intros t0 st0 st2 Hd Hn Hv. split; [| reflexivity].
  apply (Hgen (rejected d "Invalid or inactive API key") st2).
  - apply (process_event_rejected_key E environment feature_service clustering_service
             intent_service k d st1 t0 st0 None st2 Hn Hv). now left.
  - now apply rejected_result_is_json.
Qed.

(** X18: the two read routes answer 200 whatever the service returned,
    an error mapping included: for a key that does not resolve, the
    insights route and the dashboard route both answer 200 with the
    body 'error': 'Invalid API key', where the events route answers 400
    and a missing key 401. *)
Theorem read_routes_answer_200_for_unknown_keys ev h k st st1 st2 :
  runs_the_embedded_methods ->
  construct service st = (inr tt, st1) ->
  dict_get ev "headers" (VDict []) = VDict h ->
  dict_get h "x-api-key" VNone = VStr k ->
  k <> "" ->
  _validate_api_key_async k st1 = (inr None, st2) ->
  (dict_get ev "path" (VStr "/") = VStr "/v1/insights" ->
   dict_get ev "httpMethod" (VStr "GET") = VStr "GET" ->
   forall q anon,
     dict_get ev "queryStringParameters" (VDict []) = VDict q ->
     dict_get q "anon_id" VNone = VStr anon ->
     anon <> "" ->
     lambda_handler (VDict ev) st =
       (inr (mkResponse 200 (error_dict "Invalid API key")), st2)) /\
  (dict_get ev "path" (VStr "/") = VStr "/v1/dashboard" ->
   dict_get ev "httpMethod" (VStr "GET") = VStr "GET" ->
   lambda_handler (VDict ev) st =
     (inr (mkResponse 200 (error_dict "Invalid API key")), st2)).
Proof.
  intros (_ & Hgi & Hgd) Hc Hh Hkey Hk Hv. split.
  - intros Hpath Hmethod q anon Hq Ha Hanon.
    enter_handler Hc Hpath Hmethod.
    rewrite (bind_inr _ _ _ _ _ (header_api_key_run ev h st1 Hh)).
    unfold bind at 1, lift_sum at 1. rewrite Hq. cbn [py_get].
    unfold bind at 1, lift_sum at 1.
    rewrite Hkey, Ha, (truthy_text k Hk), (truthy_text anon Hanon). cbn [negb andb].
    rewrite Hgi.
    assert (Hrun : get_user_insights k anon "7d" st1 =
                   (inr (error_dict "Invalid API key"), st2)).
    { unfold get_user_insights. apply try_except_inr.
      now rewrite (bind_inr _ _ _ _ _ Hv). }
    rewrite (bind_inr _ _ _ _ _ Hrun). now rewrite respond_error.
  - intros Hpath Hmethod.
    enter_handler Hc Hpath Hmethod.
    rewrite (bind_inr _ _ _ _ _ (header_api_key_run ev h st1 Hh)).
    rewrite Hkey, (truthy_text k Hk). cbn [negb].
    rewrite Hgd.
    assert (Hrun : get_real_time_dashboard k "1h" st1 =
                   (inr (error_dict "Invalid API key"), st2)).
    { unfold get_real_time_dashboard. apply try_except_inr.
      now rewrite (bind_inr _ _ _ _ _ Hv). }
    rewrite (bind_inr _ _ _ _ _ Hrun). now rewrite respond_error.
Qed.

(** X19: what the request carries is unpacked before the key is looked
    at, so a request that is not shaped as expected is answered 500,
    with or without a key and without reaching the service: an event
    that is not a mapping; on the events route a body that
    [json.loads] refuses (a missing body is the text of an empty
    object and parses, a null body is refused); on the insights route
    query-string parameters that are present but not a mapping, as the
    null sent for a request without a query string. *)
Theorem malformed_requests_are_answered_500 st st1 :
  construct service st = (inr tt, st1) ->
  (forall event,
      is_mapping event = false ->
      lambda_handler event st =
        (inr (mkResponse 500 (error_dict (exn_msg AttributeError))), st1)) /\
  (forall ev e,
      dict_get ev "path" (VStr "/") = VStr "/v1/events" ->
      dict_get ev "httpMethod" (VStr "GET") = VStr "POST" ->
      py_json_loads E (dict_get ev "body" (VStr "{}")) st1 = (inl e, st1) ->
      lambda_handler (VDict ev) st =
        (inr (mkResponse 500 (error_dict (exn_msg e))), st1)) /\
  (forall ev h,
      dict_get ev "path" (VStr "/") = VStr "/v1/insights" ->
      dict_get ev "httpMethod" (VStr "GET") = VStr "GET" ->
      dict_get ev "headers" (VDict []) = VDict h ->
      is_mapping (dict_get ev "queryStringParameters" (VDict [])) = false ->
      lambda_handler (VDict ev) st =
        (inr (mkResponse 500 (error_dict (exn_msg AttributeError))), st1)).
Proof.
  intros Hc. split; [| split].
  - intros event Hm. unfold lambda_handler, try_except.
    rewrite (bind_inr _ _ _ _ _ Hc).
    destruct event; try discriminate; reflexivity.
  - intros ev e Hpath Hmethod Hbody.
    enter_handler Hc Hpath Hmethod.
    unfold bind at 1, lift_sum at 1.
    rewrite (bind_inl _ _ _ _ _ Hbody). now rewrite respond_error.
  - intros ev h Hpath Hmethod Hh Hq.
    enter_handler Hc Hpath Hmethod.
    rewrite (bind_inr _ _ _ _ _ (header_api_key_run ev h st1 Hh)).
    unfold bind at 1, lift_sum at 1.
    destruct (dict_get ev "queryStringParameters" (VDict [])); try discriminate;
      reflexivity.
Qed.

End HandlerProperties.

(* ================================================================== *)
(** * Feature extraction *)
(* ================================================================== *)

Section FeatureExtractionProperties.
Context {W : Type}.
Variable E : Env W.
Variable events_between : string -> string -> string -> string -> M W dict.
Variable X : FeatureExtraction.Extractors.
Variables events_table sessions_table feature_store : string.

Local Abbreviation extract_features :=
  (FeatureExtraction.extract_features E events_between X events_table sessions_table
     feature_store).
Local Abbreviation _get_user_events :=
  (FeatureExtraction._get_user_events E events_between events_table).
Local Abbreviation _get_user_sessions := (FeatureExtraction._get_user_sessions E sessions_table).
Local Abbreviation _store_features := (FeatureExtraction._store_features E feature_store).
Local Abbreviation user_key := (FeatureExtraction.user_key E).
Local Abbreviation window_start := FeatureExtraction._get_time_window_start.

(** Updating a dict with [kvs] keeps at least the entries it had. *)
Lemma dict_update_grows (d : dict) (kvs : list (string * pyval)) :
  List.length d <= List.length (dict_update d kvs).
Proof.
  unfold dict_update. revert d. induction kvs as [| kv r IH]; intros d; [simpl; lia |].
  cbn [fold_left]. etransitivity; [| apply IH]. apply dict_set_keeps_length_or_grows.
Qed.

(** Fetching the events: one query, whose failure is an empty list. *)
Lemma _get_user_events_run key anon tw (s : FeatureExtraction.FS) :
  let t := fst (utcnow E (fst s)) in
  let q := FeatureExtraction.EventsQuery events_table (user_key key anon)
             (isoformat E (window_start t tw)) (isoformat E t) in
  exists events w,
    _get_user_events key anon tw s = (inr events, (w, snd s ++ [q])) /\
    match events_between events_table (user_key key anon)
            (isoformat E (window_start t tw)) (isoformat E t)
            (snd (utcnow E (fst s))) with
    | (inr response, w') => events = dict_get response "Items" (VList []) /\ w = w'
    | (inl _, w') => events = VList [] /\ w = w'
    end.
Proof.
  intros t q. subst t q.
  unfold FeatureExtraction._get_user_events, try_except, bind, FeatureExtraction.clock, FeatureExtraction.call, ret.
  destruct (utcnow E (fst s)) as [t w0]. cbn [fst snd].
  destruct (events_between _ _ _ _ w0) as [[e | response] w1]; cbn [fst snd];
    eexists _, _; split; reflexivity || (split; reflexivity).
Qed.

Lemma _get_user_sessions_run key anon tw (s : FeatureExtraction.FS) :
  exists sessions w,
    _get_user_sessions key anon tw s =
      (inr sessions, (w, snd s ++ [FeatureExtraction.SessionsQuery sessions_table (user_key key anon)])).
Proof.
  unfold FeatureExtraction._get_user_sessions, try_except, bind, FeatureExtraction.call, ret.
  destruct (query E sessions_table _ None (fst s)) as [[e | response] w1]; cbn [fst snd];
    eexists _, _; reflexivity.
Qed.

Lemma _store_features_run key anon features (s : FeatureExtraction.FS) :
  exists item w,
    _store_features key anon features s =
      (inr tt, (w, snd s ++ [FeatureExtraction.FeaturePut feature_store item])) /\
    dict_lookup "pk" item = Some (VStr (user_key key anon)) /\
    dict_lookup "features" item = Some (VDict features) /\
    dict_lookup "feature_version" item = Some (VStr "1.0").
Proof.
  unfold FeatureExtraction._store_features, try_except, bind, FeatureExtraction.clock, FeatureExtraction.call, ret.
  destruct (utcnow E (fst s)) as [t1 w1]. cbn [fst snd].
  destruct (utcnow E w1) as [t2 w2]. cbn [fst snd].
  destruct (utcnow E w2) as [t3 w3]. cbn [fst snd].
  destruct (utcnow E w3) as [t4 w4]. cbn [fst snd].
  destruct (put_item E feature_store _ w4) as [[e | []] w5]; cbn [fst snd];
    eexists _, _; (split; [reflexivity |]); repeat split.
Qed.

(** X23: [extract_features] always returns a dict and always starts
    with the events query and the sessions query.  Either it returns
    the empty dict and makes no further call, or it returns a
    non-empty dict of features after one [put_item] on the feature
    store whose item has the user's key as [pk] and the returned
    features as [features]; a failure of that [put_item] does not
    change the result. *)
Theorem returned_features_were_sent_to_the_feature_store key anon tw (s : FeatureExtraction.FS) :
  let t := fst (utcnow E (fst s)) in
  let fetched :=
    [FeatureExtraction.EventsQuery events_table (user_key key anon)
       (isoformat E (window_start t tw)) (isoformat E t);
     FeatureExtraction.SessionsQuery sessions_table (user_key key anon)] in
  exists r w,
    (extract_features key anon tw s = (inr r, (w, snd s ++ fetched)) /\ r = VDict []) \/
    (exists features item,
        extract_features key anon tw s =
          (inr r, (w, snd s ++ fetched ++ [FeatureExtraction.FeaturePut feature_store item])) /\
        r = VDict features /\ features <> [] /\
        dict_lookup "pk" item = Some (VStr (user_key key anon)) /\
        dict_lookup "features" item = Some (VDict features)).
Proof.
  intros t fetched.
  destruct (_get_user_events_run key anon tw s) as (events & w1 & He & _).
  fold t in He. set (s1 := (w1, _)) in He.
  destruct (_get_user_sessions_run key anon tw s1) as (sessions & w2 & Hs).
  set (s2 := (w2, _)) in Hs.
  assert (Hcalls : snd s2 = snd s ++ fetched).
  { subst s2 s1 fetched. cbn [snd]. now rewrite <- app_assoc. }
  unfold FeatureExtraction.extract_features, try_except, bind, lift_sum,
    FeatureExtraction.clock.
  rewrite He, Hs.
  destruct (py_truthy events); cbn [negb].
  2: { exists (VDict []), w2. left. split; [| reflexivity].
       unfold ret. now rewrite <- Hcalls. }
  destruct (FeatureExtraction.behavioral_features X events) as [e | b];
    [exists (VDict []), w2; left; split; [unfold ret; now rewrite <- Hcalls | reflexivity] |].
  destruct (FeatureExtraction.session_features X sessions events) as [e | sf];
    [exists (VDict []), w2; left; split; [unfold ret; now rewrite <- Hcalls | reflexivity] |].
  destruct (FeatureExtraction.temporal_features X events) as [e | tf];
    [exists (VDict []), w2; left; split; [unfold ret; now rewrite <- Hcalls | reflexivity] |].
  destruct (FeatureExtraction.engagement_features X events) as [e | ef];
    [exists (VDict []), w2; left; split; [unfold ret; now rewrite <- Hcalls | reflexivity] |].
  destruct (FeatureExtraction.intent_features X events) as [e | itf];
    [exists (VDict []), w2; left; split; [unfold ret; now rewrite <- Hcalls | reflexivity] |].
  destruct (utcnow E (fst s2)) as [t3 w3] eqn:Hclock.
  destruct (py_len events) as [e | n].
  { exists (VDict []), w3. left. split; [unfold ret; now rewrite <- Hcalls | reflexivity]. }
  match goal with
  | |- context [_store_features key anon ?f] => set (features := f)
  end.
  destruct (_store_features_run key anon features (w3, snd s2))
    as (item & w4 & Hst & Hpk & Hf & _).
  rewrite Hst.
  exists (VDict features), w4. right. exists features, item.
  split; [unfold ret; rewrite app_assoc, <- Hcalls; reflexivity |].
  split; [reflexivity |]. split; [| split; assumption].
  intros Hempty.
  assert (Hlen : 5 <= List.length features).
  { subst features. do 5 (etransitivity; [| apply dict_update_grows]). cbv. lia. }
  rewrite Hempty in Hlen. simpl in Hlen. lia.
Qed.

(** When the events fetched are empty, nothing is extracted or put. *)
Lemma extract_features_without_events key anon tw (s s1 : FeatureExtraction.FS)
    (events : pyval) :
  _get_user_events key anon tw s = (inr events, s1) ->
  py_truthy events = false ->
  let t := fst (utcnow E (fst s)) in
  exists w,
    extract_features key anon tw s =
      (inr (VDict []),
       (w, snd s ++
           [FeatureExtraction.EventsQuery events_table (user_key key anon)
              (isoformat E (window_start t tw)) (isoformat E t);
            FeatureExtraction.SessionsQuery sessions_table (user_key key anon)])).
Proof.
  intros He Hnone t.
  destruct (_get_user_events_run key anon tw s) as (events' & w1 & He' & _).
  fold t in He'. rewrite He in He'. injection He' as -> ->.
  destruct (_get_user_sessions_run key anon tw
              (w1, snd s ++ [FeatureExtraction.EventsQuery events_table (user_key key anon)
                               (isoformat E (window_start t tw)) (isoformat E t)]))
    as (sessions & w2 & Hs).
  exists w2.
  unfold FeatureExtraction.extract_features, try_except, bind.
  rewrite He, Hs, Hnone. cbn [negb snd]. unfold ret. now rewrite <- app_assoc.
Qed.
(** X24: when [_get_user_events] fetches nothing (an empty list, also
    after a failed query), [extract_features] returns the empty dict
    after the events query and the sessions query, and puts nothing
    into the feature store. *)
Theorem users_without_events_get_no_features key anon tw (s s1 : FeatureExtraction.FS)
    (events : pyval) :
  _get_user_events key anon tw s = (inr events, s1) ->
  py_truthy events = false ->
  let t := fst (utcnow E (fst s)) in
  exists w,
    extract_features key anon tw s =
      (inr (VDict []),
       (w, snd s ++
           [FeatureExtraction.EventsQuery events_table (user_key key anon)
              (isoformat E (window_start t tw)) (isoformat E t);
            FeatureExtraction.SessionsQuery sessions_table (user_key key anon)])).
Proof. apply extract_features_without_events. Qed.

End FeatureExtractionProperties.

Section FeaturePipelineProperties.
Context {W : Type}.
Variable E : Env W.
Variable environment : string.
Variable events_between : string -> string -> string -> string -> M W dict.
Variable X : FeatureExtraction.Extractors.
Variable clustering_service : ClusteringServiceT W.
Variable intent_service : IntentService W.

Local Abbreviation feature_service :=
  (FeatureExtraction.of_environment E events_between X environment).
Local Abbreviation _process_with_ml_pipeline :=
  (_process_with_ml_pipeline feature_service clustering_service intent_service).
Local Abbreviation _get_user_events :=
  (FeatureExtraction._get_user_events E events_between
     ("anon-intent-sdk-events-" ++ environment)).

(** X25: with the feature service of its own environment, the ML
    pipeline of an event whose user has no stored events calls
    [extract_features] and nothing else: neither cluster nor intent
    prediction is submitted, and the three results are empty dicts. *)
Theorem events_of_users_without_history_are_not_scored key (event_data : dict) (st : St W)
    (events : pyval) (s1 : FeatureExtraction.FS) :
  let anon := dict_get event_data "anonId" VNone in
  _get_user_events key anon "7d" (world st, []) = (inr events, s1) ->
  py_truthy events = false ->
  exists w,
    _process_with_ml_pipeline key event_data st =
      (inr (dict_of [("features", VDict []); ("cluster", VDict []);
                     ("intent_scores", VDict [])]),
       mkSt w (calls st ++ [ExtractFeatures key anon "7d"])).
Proof.
  intros anon He Hnone.
  destruct (extract_features_without_events E events_between X
              ("anon-intent-sdk-events-" ++ environment)
              ("anon-intent-sdk-sessions-" ++ environment)
              ("anon-intent-sdk-feature-store-" ++ environment)
              key anon "7d" (world st, []) s1 events He Hnone) as [w Hx].
  exists w.
  unfold _process_with_ml_pipeline, try_except, bind, submit, result, lift_sum.
  unfold FeatureExtraction.of_environment, FeatureExtraction.service.
  cbn [extract_features world]. fold anon. rewrite Hx.
  cbn [fst snd py_truthy]. reflexivity.
Qed.
End FeaturePipelineProperties.

(* ================================================================== *)
(** * Concrete runs of the further properties *)
(* ================================================================== *)

Lemma demo_loads_json_data (s : Script) : loads_json_data (env s).
Proof.
  intros t v H. apply find_some in H. destruct H as [Hin _].
  simpl in Hin.
  repeat (destruct Hin as [<- | Hin]; [reflexivity |]). contradiction.
Qed.

Lemma replay_loads_json_data (s : Script) : loads_json_data (Replay.env s).
Proof.
  intros t v H. apply find_some in H. destruct H as [Hin _].
  simpl in Hin.
  repeat (destruct Hin as [<- | Hin]; [reflexivity |]). contradiction.
Qed.

(** The healthy deployment accepts the demo event: the record came from
    the key table, with status active. *)
Lemma accepted_request_was_authorised_by_the_key_table_witness :
  exists t0 st0 reply st1 response w2 item raw s limit st2,
    datetime_utcnow (env (healthy "active" 100 1)) start = (inr t0, st0) /\
    _invoke_cache_function (env (healthy "active" 100 1)) "test" "validate_api_key"
      (dict_of [("api_key", VStr "ak_test")]) st0 = (inr reply, st1) /\
    get_item (env (healthy "active" 100 1)) (api_keys_table "test") "ak_test" (world st1)
      = (inr response, w2) /\
    dict_lookup "Item" response = Some item /\
    py_get item "status" (VStr "inactive") = inr raw /\
    APIKeyStatus_of raw = inr s /\
    (s = ACTIVE \/ s = TRIAL) /\
    py_get item "rate_limit" (VInt 1000) = inr limit /\
    _check_rate_limit (env (healthy "active" 100 1)) "test" "ak_test" limit
      (mkSt w2 (calls st1 ++ [GetItem (api_keys_table "test") "ak_test"]))
      = (inr true, st2).
Proof.
  eapply (accepted_request_was_authorised_by_the_key_table
            (env (healthy "active" 100 1)) "test"
            (feature_service_of (inr some_features))
            (clustering_service_of (inr some_cluster))
            (intent_service_of (healthy "active" 100 1) (inr some_scores))
            "ak_test" event start).
  - apply demo_loads_json_data.
  - vm_compute. reflexivity.
  - reflexivity.
Defined.

(** A record is stored, then served by the key table of the healthy
    deployment: validation returns it unchanged. *)
Lemma stored_record_is_read_back_witness :
  let info :=
    mkAPIKeyInfo (VStr "ak_test") (VStr "c1") (VStatus ACTIVE) (VStr "basic")
      (VStr "2025-01-01T00:00:00") (VInt 100) (VList [VStr "basic_analytics"])
      (VDict []) in
  exists st',
    _validate_api_key_async (env (healthy "active" 100 1)) "test" "ak_test" start
      = (inr (Some info), st').
Proof.
  intros info. eexists.
  eapply (stored_record_is_read_back (env (healthy "active" 100 1)) "test"
            info ACTIVE start).
  - reflexivity.
  - vm_compute. reflexivity.
  - vm_compute. reflexivity.
  - vm_compute. reflexivity.
  - vm_compute. reflexivity.
  - reflexivity.
  - vm_compute. reflexivity.
  - vm_compute. reflexivity.
Defined.

(** The client puts a forged [apiKey] in its event: the record sent to
    the stream carries the authenticated key. *)
Lemma stream_record_carries_the_authenticated_key_witness :
  exists data st',
    _ingest_event_to_stream (env (healthy "active" 100 1)) "test" "ak_test"
      (("apiKey", VStr "ak_forged") :: event) start = (inr tt, st') /\
    calls st' =
      [PutRecord "anon-intent-sdk-events-test" data "ak_test#anon-demo-user"] /\
    dict_lookup "apiKey" data = Some (VStr "ak_test") /\
    dict_lookup "eventId" data = Some (VStr "e-1") /\
    dict_lookup "eventName" data = Some (VStr "page_view").
Proof.
  destruct (stream_record_carries_the_authenticated_key
              (env (healthy "active" 100 1)) "test" "ak_test"
              (("apiKey", VStr "ak_forged") :: event) start)
    as (data & t & fresh & st' & Hrun & Hcalls & Hkey & _ & Hid & Hother & Hjson).
  exists data, st'. split; [exact Hrun |].
  split; [rewrite Hcalls, (Hjson eq_refl); reflexivity |].
  split; [exact Hkey |]. split; [exact Hid |].
  rewrite Hother; [reflexivity | discriminate | discriminate | discriminate].
Defined.

(** An intent result with a nested mapping, and the default scores of
    the intent service: no metrics, no update. *)
Lemma scored_event_is_not_counted_witness :
  _update_real_time_metrics (env (healthy "active" 100 1)) "test" "ak_test" event
    (scoring_results some_features some_cluster
       (VDict [("anon_id", VStr "anon-demo-user");
               ("intent_scores", VDict [("purchase_intent", VFloat half)])]))
    start = (inr (VDict []), start) /\
  exists d w',
    IntentScoringService._generate_default_scores (env (healthy "active" 100 1))
      (VStr "anon-demo-user") 1730851200000000%Z = (inr d, w') /\
    _update_real_time_metrics (env (healthy "active" 100 1)) "test" "ak_test" event
      (scoring_results some_features some_cluster d) start = (inr (VDict []), start).
Proof.
  destruct (scored_event_is_not_counted (env (healthy "active" 100 1)) "test" "ak_test"
              event
              (scoring_results some_features some_cluster
                 (VDict [("anon_id", VStr "anon-demo-user");
                         ("intent_scores", VDict [("purchase_intent", VFloat half)])]))
              start) as [H1 _].
  destruct (scored_event_is_not_counted (env (healthy "active" 100 1)) "test" "ak_test"
              event [] start) as [_ H2].
  split.
  - eapply H1; reflexivity.
  - eexists _, _. split; [vm_compute; reflexivity |].
    apply (H2 some_features some_cluster (VStr "anon-demo-user") _
             1730851200000000%Z 1730851200001000%Z).
    vm_compute. reflexivity.
Defined.

(** An engagement score of 0.8 is reported as 'high'. *)
Lemma engagement_level_follows_the_thresholds_witness :
  py_getitem
    (_generate_user_insights (env (healthy "active" 100 1))
       (VDict [("event_count", VInt 3); ("engagement_score", VFloat (Qmake 4 5))])
       (VDict [("cluster_id", VStr "cluster_2"); ("is_outlier", VBool false)])
       (VDict [("intent_scores", some_scores)]))
    "engagement_level" = inr (VStr "high").
Proof.
  apply (engagement_level_follows_the_thresholds (env (healthy "active" 100 1))
           [("event_count", VInt 3); ("engagement_score", VFloat (Qmake 4 5))]
           [("cluster_id", VStr "cluster_2"); ("is_outlier", VBool false)]
           (VDict [("intent_scores", some_scores)]) (Qmake 4 5)).
  reflexivity.
Defined.

(** The cache function reports 5 events on the web platform. *)
Lemma platform_breakdown_reads_the_platform_counters_witness :
  exists ps st1,
    _get_platform_breakdown (env (plain_metrics 100 5)) "test" "ak_test" "1h" start
      = (inr (VDict ps), st1) /\
    dict_lookup "web" ps = Some (VInt 5) /\
    dict_lookup "ios" ps = None.
Proof.
  edestruct (platform_breakdown_reads_the_platform_counters
               (env (plain_metrics 100 5)) "test" "ak_test" "1h" start)
    as (ps & Hrun & Hlook & _).
  - vm_compute. reflexivity.
  - exists ps. eexists. split; [exact Hrun |].
    split; [rewrite (Hlook _ eq_refl "web") | rewrite (Hlook _ eq_refl "ios")];
      reflexivity.
Defined.

(** The counters sent for the demo event, handed back by the cache
    function, give the breakdown 'web': 1. *)
Lemma event_platform_is_read_back_witness :
  exists st3,
    _get_platform_breakdown (Replay.env Replay.after_one_event) "test" "ak_test" "1h"
      start = (inr (VDict [("web", VInt 1)]), st3).
Proof.
  eexists.
  eapply (event_platform_is_read_back (Replay.env Replay.after_one_event) "test"
            "ak_test" event
            (scoring_results (VDict []) (VDict []) (VDict [])) start).
  - reflexivity.
  - reflexivity.
  - vm_compute. reflexivity.
  - discriminate.
  - vm_compute. reflexivity.
Defined.

(** Three sessions, one of them without a duration: 42.5 seconds in
    total, averaged over three. *)
Lemma session_summary_adds_up_witness :
  exists total q st',
    _get_user_session_summary (env Replay.with_sessions) "test" "ak_test"
      "anon-demo-user" "7d" start =
      (inr (VDict [("total_sessions", VInt 3);
                   ("avg_duration", VFloat (Qdiv q (Qint 3)));
                   ("total_duration", total);
                   ("last_session",
                    VDict [("pk", VStr "ak_test#anon-demo-user"); ("gsi1sk", VInt 30)])]),
       st') /\
    num_of total = Some q /\
    Qeq q (Qmake 85 2).
Proof.
  edestruct (session_summary_adds_up (env Replay.with_sessions) "test" "ak_test"
               "anon-demo-user" "7d" start) as (total & q & Hrun & Hnum & Hq).
  - vm_compute. reflexivity.
  - vm_compute. reflexivity.
  - reflexivity.
  - repeat constructor.
  - exists total, q. eexists. split; [exact Hrun |]. split; [exact Hnum |].
    rewrite Hq. reflexivity.
Defined.

(** The dashboard of the demo tenant: two reads of the counters. *)
Lemma dashboard_reads_the_counters_twice_witness :
  exists r st',
    get_real_time_dashboard (env (healthy "active" 100 1)) "test"
      (clustering_service_of (inr some_cluster))
      (intent_service_of (healthy "active" 100 1) (inr some_scores))
      "ak_test" "1h" start = (inr r, st') /\
    calls st' =
      [LambdaInvoke "anon-intent-sdk-redis-cache-manager-test"
         [("operation", VStr "validate_api_key"); ("api_key", VStr "ak_test")];
       GetItem "anon-intent-sdk-api-keys-test" "ak_test";
       LambdaInvoke "anon-intent-sdk-redis-cache-manager-test"
         [("operation", VStr "get_metrics"); ("api_key", VStr "ak_test");
          ("time_window", VStr "1h")];
       GetClusterInsights "ak_test";
       GetFeatureImportance "ak_test";
       LambdaInvoke "anon-intent-sdk-redis-cache-manager-test"
         [("operation", VStr "get_metrics"); ("api_key", VStr "ak_test");
          ("time_window", VStr "1h")]].
Proof.
  edestruct (dashboard_reads_the_counters_twice (env (healthy "active" 100 1)) "test"
               (clustering_service_of (inr some_cluster))
               (intent_service_of (healthy "active" 100 1) (inr some_scores))
               "ak_test" "1h" start)
    as (first & s2 & summary & s3 & distribution & s4 & second & s5 & breakdown &
        generated & st' & _ & _ & _ & _ & _ & Hrun & Hcalls).
  - vm_compute. reflexivity.
  - eexists _, st'. split; [exact Hrun |]. rewrite Hcalls. reflexivity.
Defined.

(** The dashboard served with the cluster insights of the clustering
    service. *)
Lemma cluster_summary_is_always_no_data_witness :
  exists d st',
    get_real_time_dashboard (env (healthy "active" 100 1)) "test"
      (ClusterInsights.service (env (healthy "active" 100 1))
         (fun _ _ _ => fixed (inr some_cluster)))
      (intent_service_of (healthy "active" 100 1) (inr some_scores))
      "ak_test" "1h" start = (inr (VDict d), st') /\
    dict_lookup "cluster_summary" d =
      Some (VDict [("status", VStr "no_data"); ("clusters", VList [])]).
Proof.
  edestruct (cluster_summary_is_always_no_data (env (healthy "active" 100 1)) "test"
               (intent_service_of (healthy "active" 100 1) (inr some_scores))
               (fun _ _ _ => fixed (inr some_cluster)) "ak_test" "1h" start)
    as [_ H].
  apply H. vm_compute. reflexivity.
Defined.

(** Three requests without a key, or without an anonymous id. *)
Lemma keyless_requests_never_reach_the_service_witness :
  lambda_handler (Replay.env unknown_key) (Replay.service unknown_key)
    (VDict (Replay.post_event [] (VStr Replay.request_body))) start
    = (inr (mkResponse 401 (error_dict "API key required")), start) /\
  lambda_handler (Replay.env unknown_key) (Replay.service unknown_key)
    (VDict (Replay.get_dashboard [("x-api-key", VStr "")])) start
    = (inr (mkResponse 401 (error_dict "API key required")), start) /\
  lambda_handler (Replay.env unknown_key) (Replay.service unknown_key)
    (VDict (Replay.get_insights (Replay.with_key "ak_test") (VDict []))) start
    = (inr (mkResponse 400 (error_dict "API key and anon_id required")), start).
Proof.
  split; [| split].
  - eapply (proj1 (keyless_requests_never_reach_the_service
                     (Replay.env unknown_key) (Replay.service unknown_key)
                     (Replay.post_event [] (VStr Replay.request_body)) []
                     start start eq_refl eq_refl));
      [reflexivity | reflexivity | reflexivity | reflexivity | vm_compute; reflexivity].
  - apply (proj1 (proj2 (keyless_requests_never_reach_the_service
                           (Replay.env unknown_key) (Replay.service unknown_key)
                           (Replay.get_dashboard [("x-api-key", VStr "")])
                           [("x-api-key", VStr "")]
                           start start eq_refl eq_refl)));
      reflexivity.
  - apply (proj2 (proj2 (keyless_requests_never_reach_the_service
                           (Replay.env unknown_key) (Replay.service unknown_key)
                           (Replay.get_insights (Replay.with_key "ak_test") (VDict []))
                           (Replay.with_key "ak_test")
                           start start eq_refl eq_refl)) eq_refl eq_refl []);
      reflexivity.
Defined.

Lemma replay_service_runs_the_embedded_methods (s : Script) :
  runs_the_embedded_methods (Replay.env s) (Replay.service s) "test"
    (feature_service_of (inr some_features))
    (clustering_service_of (inr some_cluster))
    (intent_service_of s (inr some_scores)).
Proof. repeat split. Qed.

(** The demo event is accepted and answered 200; with an unknown key it
    is answered 400. *)
Lemma events_route_mirrors_the_result_witness :
  (exists r st',
      lambda_handler (Replay.env (healthy "active" 100 1))
        (Replay.service (healthy "active" 100 1))
        (VDict (Replay.post_event (Replay.with_key "ak_test")
                  (VStr Replay.request_body))) start = (inr r, st') /\
      response_status r = 200%Z /\
      py_getitem (response_body r) "success" = inr (VBool true)) /\
  (exists r st',
      lambda_handler (Replay.env unknown_key) (Replay.service unknown_key)
        (VDict (Replay.post_event (Replay.with_key "ak_bogus")
                  (VStr Replay.request_body))) start = (inr r, st') /\
      response_status r = 400%Z /\
      py_getitem (response_body r) "error" = inr (VStr "Invalid or inactive API key")).
Proof.
  split.
  - edestruct (events_route_mirrors_the_result
                 (Replay.env (healthy "active" 100 1))
                 (Replay.service (healthy "active" 100 1)) "test"
                 (feature_service_of (inr some_features))
                 (clustering_service_of (inr some_cluster))
                 (intent_service_of (healthy "active" 100 1) (inr some_scores))
                 (Replay.post_event (Replay.with_key "ak_test") (VStr Replay.request_body))
                 (Replay.with_key "ak_test") Replay.request_body event "ak_test"
                 start start) as [H _];
      [apply replay_service_runs_the_embedded_methods | reflexivity | reflexivity
      | reflexivity | reflexivity | vm_compute; reflexivity | reflexivity | reflexivity
      | discriminate |].
    eexists _, _. split; [eapply H; [vm_compute; reflexivity | vm_compute; reflexivity] |].
    split; reflexivity.
  - edestruct (events_route_mirrors_the_result
                 (Replay.env unknown_key) (Replay.service unknown_key) "test"
                 (feature_service_of (inr some_features))
                 (clustering_service_of (inr some_cluster))
                 (intent_service_of unknown_key (inr some_scores))
                 (Replay.post_event (Replay.with_key "ak_bogus") (VStr Replay.request_body))
                 (Replay.with_key "ak_bogus") Replay.request_body event "ak_bogus"
                 start start) as [_ H];
      [apply replay_service_runs_the_embedded_methods | reflexivity | reflexivity
      | reflexivity | reflexivity | vm_compute; reflexivity | reflexivity | reflexivity
      | discriminate |].
    edestruct H as [Hrun Herr];
      [reflexivity | vm_compute; reflexivity | vm_compute; reflexivity |].
    eexists _, _. split; [exact Hrun |]. split; reflexivity.
Defined.

(** With an unknown key both read routes answer 200 and an error body. *)
Lemma read_routes_answer_200_for_unknown_keys_witness :
  (exists st2,
      lambda_handler (Replay.env unknown_key) (Replay.service unknown_key)
        (VDict (Replay.get_insights (Replay.with_key "ak_bogus")
                  (VDict [("anon_id", VStr "anon-demo-user")]))) start
        = (inr (mkResponse 200 (error_dict "Invalid API key")), st2)) /\
  (exists st2,
      lambda_handler (Replay.env unknown_key) (Replay.service unknown_key)
        (VDict (Replay.get_dashboard (Replay.with_key "ak_bogus"))) start
        = (inr (mkResponse 200 (error_dict "Invalid API key")), st2)).
Proof.
  split.
  - edestruct (read_routes_answer_200_for_unknown_keys
                 (Replay.env unknown_key) (Replay.service unknown_key) "test"
                 (feature_service_of (inr some_features))
                 (clustering_service_of (inr some_cluster))
                 (intent_service_of unknown_key (inr some_scores))
                 (Replay.get_insights (Replay.with_key "ak_bogus")
                    (VDict [("anon_id", VStr "anon-demo-user")]))
                 (Replay.with_key "ak_bogus") "ak_bogus" start start) as [H _];
      [apply replay_service_runs_the_embedded_methods | reflexivity | reflexivity
      | reflexivity | discriminate | vm_compute; reflexivity |].
    eexists. eapply H; [reflexivity | reflexivity | reflexivity | reflexivity
                       | discriminate].
  - edestruct (read_routes_answer_200_for_unknown_keys
                 (Replay.env unknown_key) (Replay.service unknown_key) "test"
                 (feature_service_of (inr some_features))
                 (clustering_service_of (inr some_cluster))
                 (intent_service_of unknown_key (inr some_scores))
                 (Replay.get_dashboard (Replay.with_key "ak_bogus"))
                 (Replay.with_key "ak_bogus") "ak_bogus" start start) as [_ H];
      [apply replay_service_runs_the_embedded_methods | reflexivity | reflexivity
      | reflexivity | discriminate | vm_compute; reflexivity |].
    eexists. apply H; reflexivity.
Defined.

(** An event that is no mapping, a null body, null query-string
    parameters: 500 each time. *)
Lemma malformed_requests_are_answered_500_witness :
  lambda_handler (Replay.env unknown_key) (Replay.service unknown_key) VNone start
    = (inr (mkResponse 500 (error_dict "object has no attribute")), start) /\
  lambda_handler (Replay.env unknown_key) (Replay.service unknown_key)
    (VDict (Replay.post_event (Replay.with_key "ak_test") VNone)) start
    = (inr (mkResponse 500 (error_dict "unsupported operand")), start) /\
  lambda_handler (Replay.env unknown_key) (Replay.service unknown_key)
    (VDict (Replay.get_insights (Replay.with_key "ak_test") VNone)) start
    = (inr (mkResponse 500 (error_dict "object has no attribute")), start).
Proof.
  destruct (malformed_requests_are_answered_500
              (Replay.env unknown_key) (Replay.service unknown_key) start start eq_refl)
    as (H1 & H2 & H3).
  split; [| split].
  - apply H1. reflexivity.
  - apply (H2 (Replay.post_event (Replay.with_key "ak_test") VNone) TypeError);
      reflexivity.
  - apply (H3 (Replay.get_insights (Replay.with_key "ak_test") VNone)
              (Replay.with_key "ak_test")); reflexivity.
Defined.

(** The model table is down; it holds a record; it is empty. *)
Lemma models_are_provisioned_unless_one_is_found_witness :
  calls (snd (_auto_provision_models (env Replay.without_model_table) "test" "ak_test"
                start))
    = [Query "anon-intent-sdk-intent-clusters-test" "ak_test#model" (Some "2025");
       ProvisionClusteringModels "ak_test"; ProvisionIntentModels "ak_test"] /\
  calls (snd (_auto_provision_models (env Replay.with_a_model) "test" "ak_test" start))
    = [Query "anon-intent-sdk-intent-clusters-test" "ak_test#model" (Some "2025")] /\
  calls (snd (_auto_provision_models (env (healthy "trial" 100 1)) "test" "ak_test" start))
    = [Query "anon-intent-sdk-intent-clusters-test" "ak_test#model" (Some "2025");
       ProvisionClusteringModels "ak_test"; ProvisionIntentModels "ak_test"].
Proof.
  split; [| split].
  - rewrite (proj1 (models_are_provisioned_unless_one_is_found
                      (env Replay.without_model_table) "test" "ak_test" start)
               (boom "table down") 1730851200000000%Z eq_refl).
    reflexivity.
  - rewrite (proj2 (models_are_provisioned_unless_one_is_found
                      (env Replay.with_a_model) "test" "ak_test" start)
               [("Items", VList [VDict [("pk", VStr "ak_test#model")]])]
               1730851200000000%Z [VDict [("pk", VStr "ak_test#model")]]
               eq_refl eq_refl).
    reflexivity.
  - rewrite (proj2 (models_are_provisioned_unless_one_is_found
                      (env (healthy "trial" 100 1)) "test" "ak_test" start)
               [("Items", VList [])] 1730851200000000%Z [] eq_refl eq_refl).
    reflexivity.
Defined.

(** The insights of the demo user. *)
Lemma insights_call_sequence_witness :
  exists r st',
    get_user_insights (env (healthy "active" 100 1)) "test"
      (feature_service_of (inr some_features)) "ak_test" "anon-demo-user" "7d" start
      = (inr r, st') /\
    calls st' =
      [LambdaInvoke "anon-intent-sdk-redis-cache-manager-test"
         [("operation", VStr "validate_api_key"); ("api_key", VStr "ak_test")];
       GetItem "anon-intent-sdk-api-keys-test" "ak_test";
       ExtractFeatures "ak_test" (VStr "anon-demo-user") "7d";
       Query "anon-intent-sdk-intent-clusters-test" "ak_test#anon-demo-user"
         (Some "cluster_assignment");
       Query "anon-intent-sdk-feature-store-test" "ak_test#anon-demo-user"
         (Some "prediction");
       LambdaInvoke "anon-intent-sdk-redis-cache-manager-test"
         [("operation", VStr "get_session"); ("api_key", VStr "ak_test");
          ("session_id", VStr "latest")];
       Query "anon-intent-sdk-sessions-test" "ak_test#anon-demo-user" None].
Proof.
  edestruct (insights_call_sequence (env (healthy "active" 100 1)) "test"
               (feature_service_of (inr some_features))
               "ak_test" "anon-demo-user" "7d" start) as (r & st' & Hrun & Hcalls).
  - vm_compute. reflexivity.
  - exists r, st'. split; [exact Hrun |]. rewrite Hcalls. reflexivity.
Defined.

(** A key is created for the 'pro' plan; once the key table serves the
    record, the key resolves to an active record with the limit of the
    plan. *)
Lemma created_key_is_accepted_witness :
  exists info st',
    _validate_api_key_async (env Replay.serving_created_item) "test"
      "ak_5d41402a_851200_123e4567e89b42d3" start = (inr (Some info), st') /\
    status info = VStatus ACTIVE /\
    status_accepted (status info) = true /\
    customer_id info = VStr "c1" /\
    rate_limit info = VInt 100000.
Proof.
  edestruct (created_key_is_accepted (env Replay.serving_created_item) "test"
               "c1" "pro" VNone start)
    as (info & Hrun & Hs & Hok & Hc & _ & Hl).
  - vm_compute. reflexivity.
  - vm_compute. reflexivity.
  - vm_compute. reflexivity.
  - vm_compute. reflexivity.
  - reflexivity.
  - vm_compute. reflexivity.
  - vm_compute. reflexivity.
  - exists info. eexists. split; [exact Hrun |]. split; [exact Hs |].
    split; [exact Hok |]. split; [exact Hc |].
    vm_compute in Hl. now inversion Hl.
Defined.
(** A user without stored events: the two queries are made, nothing is
    extracted and nothing is put. *)
Lemma users_without_events_get_no_features_witness :
  exists w,
    FeatureExtraction.extract_features (env (healthy "active" 100 1)) Replay.no_events
      Replay.extractors "events" "sessions" "feature-store"
      "ak_test" (VStr "anon-demo-user") "7d" (world start, [])
    = (inr (VDict []),
       (w, [FeatureExtraction.EventsQuery "events" "ak_test#anon-demo-user"
              (isoformat (env (healthy "active" 100 1))
                 (world start - 7 * microseconds_per_day))
              (isoformat (env (healthy "active" 100 1)) (world start));
            FeatureExtraction.SessionsQuery "sessions" "ak_test#anon-demo-user"])).
Proof.
  edestruct (users_without_events_get_no_features (env (healthy "active" 100 1))
               Replay.no_events Replay.extractors "events" "sessions" "feature-store"
               "ak_test" (VStr "anon-demo-user") "7d" (world start, []))
    as [w Hw]; [vm_compute; reflexivity | vm_compute; reflexivity |].
  exists w. exact Hw.
Defined.

(** The demo event of a user without stored events: the pipeline
    extracts and stops. *)
Lemma events_of_users_without_history_are_not_scored_witness :
  exists w,
    _process_with_ml_pipeline
      (FeatureExtraction.of_environment (env (healthy "active" 100 1)) Replay.no_events
         Replay.extractors "test")
      (clustering_service_of (inr some_cluster))
      (intent_service_of (healthy "active" 100 1) (inr some_scores))
      "ak_test" event start
    = (inr (dict_of [("features", VDict []); ("cluster", VDict []);
                     ("intent_scores", VDict [])]),
       mkSt w [ExtractFeatures "ak_test" (VStr "anon-demo-user") "7d"]).
Proof.
  edestruct (events_of_users_without_history_are_not_scored (env (healthy "active" 100 1))
               "test" Replay.no_events Replay.extractors
               (clustering_service_of (inr some_cluster))
               (intent_service_of (healthy "active" 100 1) (inr some_scores))
               "ak_test" event start)
    as [w Hw]; [vm_compute; reflexivity | vm_compute; reflexivity |].
  exists w. exact Hw.
Defined.

